(** * Liveness assessment and face similarity: the decision core of ocdai

    A shallow embedding of [utils.check_image_quality], of the class
    [LivenessChecker] (liveness_checker.py) and of the class [FaceMatcher]
    (face_matcher.py), with the properties of their decision logic.

    Python floats and numpy's float64 are IEEE 754 binary64 numbers: they
    are Rocq's primitive floats.  Python dicts with string keys are finite
    maps [gmap string pyval].  The pixel kernels of OpenCV and numpy, the
    dlib detectors and the face_recognition encoder are not code of this
    repository: they are the fields of the record [Lib], and every function
    and theorem below is parametric in it.  What those calls do to array
    shapes, and when they raise, is written out.

    Around that core the file also embeds the crops and file names of
    utils.py, the class [FaceDetector] (face_detector.py) and the two
    endpoints of api.py that call the core, with the flow of their
    exceptions. *)

From Stdlib Require Import ZArith List String Floats Lia Bool.
From stdpp Require Import base gmap strings list.

Set Warnings "-inexact-float,-register-all".

Local Open Scope Z_scope.

(** ** Python values and exceptions *)

Inductive exn :=
| Cv2Error            (* cv2.error, an assertion of OpenCV failed *)
| ZeroDivisionError
| ValueError
| OverflowError
| IndexError
| TypeError.

Inductive PyResult (A : Type) :=
| Return (a : A)
| Raise (e : exn).
Arguments Return {A} a.
Arguments Raise {A} e.

Definition bind {A B} (m : PyResult A) (k : A -> PyResult B) : PyResult B :=
  match m with
  | Return a => k a
  | Raise e => Raise e
  end.

Declare Scope py_scope.
Delimit Scope py_scope with py.
Notation "'let*' x := m 'in' k" := (bind m (fun x => k))
  (at level 10, x name, m at level 100, k at level 200, only parsing) : py_scope.
Local Open Scope py_scope.

Inductive pyval :=
| PyNone
| PyBool (b : bool)
| PyInt (z : Z)
| PyFloat (f : float)
| PyStr (s : string)
| PyDict (d : gmap string pyval).

(** ** Numbers *)

(** [float(z)] for an int of magnitude below 2^63 (the counts and pixel
    coordinates of this program are far below). *)
Definition float_of_Z (z : Z) : float :=
  match z with
  | Z0 => 0%float
  | Zpos _ => PrimFloat.of_uint63 (Uint63.of_Z z)
  | Zneg p => (- PrimFloat.of_uint63 (Uint63.of_Z (Zpos p)))%float
  end.

(** [int(x)]: truncation toward zero; Python raises on infinities and NaN. *)
Definition py_int (x : float) : PyResult Z :=
  match Prim2SF x with
  | S754_zero _ => Return 0
  | S754_finite s m e => Return (cond_Zopp s (Z.shiftl (Zpos m) e))
  | S754_infinity _ => Raise OverflowError
  | S754_nan => Raise ValueError
  end.

(** A Python number: an int or a float.  Arithmetic promotes to float as
    soon as one operand is a float. *)
Inductive pynum :=
| PyI (z : Z)
| PyF (f : float).

Definition to_float (n : pynum) : float :=
  match n with
  | PyI z => float_of_Z z
  | PyF f => f
  end.

Definition py_add (a b : pynum) : pynum :=
  match a, b with
  | PyI x, PyI y => PyI (x + y)
  | _, _ => PyF (to_float a + to_float b)
  end.

Definition py_mul (a b : pynum) : pynum :=
  match a, b with
  | PyI x, PyI y => PyI (x * y)
  | _, _ => PyF (to_float a * to_float b)
  end.

Definition py_is_zero (n : pynum) : bool :=
  match n with
  | PyI z => z =? 0
  | PyF f => PrimFloat.eqb f 0
  end.

(** [a / b], true division of Python numbers. *)
Definition py_truediv (a b : pynum) : PyResult pynum :=
  if py_is_zero b then Raise ZeroDivisionError
  else Return (PyF (to_float a / to_float b)).

Definition py_lt (a b : pynum) : bool :=
  match a, b with
  | PyI x, PyI y => x <? y
  | _, _ => PrimFloat.ltb (to_float a) (to_float b)
  end.

(** The builtin [min(a, b)]: [b] when [b < a], else [a]. *)
Definition py_min (a b : pynum) : pynum :=
  if py_lt b a then b else a.

(** ** numpy arrays

    An array is its shape and its entries in row-major order.  Entries are
    binary64 values; a uint8 entry is one of the floats 0..255, so
    [astype(np.float64)] keeps the entries. *)

Record ndarray := { shape : list nat; data : list float }.

Definition nd_size (a : ndarray) : nat := fold_right Nat.mul 1%nat (shape a).

Definition is_empty (a : ndarray) : bool := Nat.eqb (nd_size a) 0.

Definition ndim (a : ndarray) : nat := length (shape a).

Definition reshape_like (a : ndarray) (d : list float) : ndarray :=
  {| shape := shape a; data := d |}.

Definition array1d (d : list float) : ndarray :=
  {| shape := [length d]; data := d |}.

(** dlib's rectangle and the 68 landmark points of a detection. *)
Record rectangle := { left : Z; top : Z; right : Z; bottom : Z }.

Definition full_object_detection := nat -> Z * Z.

(** ** The libraries the program calls *)

Record Lib := {
  (* OpenCV pixel kernels: the entries of the output array *)
  bgr2gray_px : ndarray -> list float;
  bgr2rgb_px : ndarray -> list float;
  laplacian_px : ndarray -> list float;
  resize_px : ndarray -> Z -> Z -> list float;
  gaussian_blur_px : ndarray -> list float;
  calc_hist_px : ndarray -> list float;
  put_text_px : ndarray -> string -> Z * Z -> float -> Z * Z * Z -> Z -> list float;
  compare_hist_correl : ndarray -> ndarray -> float;
  (* numpy reductions *)
  np_mean : ndarray -> float;
  np_var : ndarray -> float;
  np_std : ndarray -> float;
  np_percentile : ndarray -> float -> float;
  fft_magnitude_px : ndarray -> list float;
  (* dlib *)
  frontal_face_detector : ndarray -> list rectangle;
  shape_predictor_file : option (ndarray -> rectangle -> full_object_detection);
  (* face_recognition *)
  face_encodings : ndarray -> list (list float);
  face_distance : list float -> list float -> float;
  (* the builtin format of a number with one decimal, [f"{x:.1f}"] *)
  format_1f : pynum -> string
}.

Section OpenCV.
Context (L : Lib).

Definition color_channels (a : ndarray) : bool :=
  match shape a with
  | [_; _; c] => Nat.eqb c 3 || Nat.eqb c 4
  | _ => false
  end.

(** [cv2.cvtColor(src, cv2.COLOR_BGR2GRAY)]: OpenCV asserts that the source
    is not empty and has 3 or 4 channels. *)
Definition cvtColor_BGR2GRAY (src : ndarray) : PyResult ndarray :=
  if is_empty src then Raise Cv2Error
  else if color_channels src
       then Return {| shape := take 2 (shape src); data := bgr2gray_px L src |}
       else Raise Cv2Error.

(** [cv2.cvtColor(src, cv2.COLOR_BGR2RGB)]. *)
Definition cvtColor_BGR2RGB (src : ndarray) : PyResult ndarray :=
  if is_empty src then Raise Cv2Error
  else if color_channels src
       then Return {| shape := take 2 (shape src) ++ [3%nat];
                      data := bgr2rgb_px L src |}
       else Raise Cv2Error.

(** [cv2.Laplacian(src, cv2.CV_64F)]: same shape, asserts a non-empty
    source. *)
Definition Laplacian (src : ndarray) : PyResult ndarray :=
  if is_empty src then Raise Cv2Error
  else Return (reshape_like src (laplacian_px L src)).

(** The axes after rows and columns of an image that OpenCV hands back to
    Python: an image of one channel comes back with two dimensions, also
    when it went in as rows x columns x 1. *)
Definition mat_channels (channels : list nat) : list nat :=
  match channels with
  | [1%nat] => []
  | _ => channels
  end.

(** [cv2.resize(src, (w, h))]: asserts a non-empty image (rows, columns
    and possibly channels) and a target size with positive width and
    height; keeps the channels, a single one as no axis. *)
Definition resize (src : ndarray) (dsize : Z * Z) : PyResult ndarray :=
  let '(w, h) := dsize in
  if is_empty src then Raise Cv2Error
  else if negb (Nat.eqb (ndim src) 2 || Nat.eqb (ndim src) 3) then Raise Cv2Error
  else if (w <=? 0) || (h <=? 0) then Raise Cv2Error
  else Return {| shape := Z.to_nat h :: Z.to_nat w :: mat_channels (drop 2 (shape src));
                 data := resize_px L src w h |}.

(** [cv2.GaussianBlur(src, (11, 11), 1.5)]. *)
Definition GaussianBlur (src : ndarray) : PyResult ndarray :=
  if is_empty src then Raise Cv2Error
  else Return (reshape_like src (gaussian_blur_px L src)).

(** [cv2.putText(img, text, org, cv2.FONT_HERSHEY_SIMPLEX, fontScale, color,
    thickness)] draws into [img]. *)
Definition putText (img : ndarray) (text : string) (org : Z * Z)
    (fontScale : float) (color : Z * Z * Z) (thickness : Z) : ndarray :=
  reshape_like img (put_text_px L img text org fontScale color thickness).

(** [cv2.calcHist([img], [0], None, [256], [0, 256])]: 256 bins. *)
Definition calcHist (img : ndarray) : ndarray :=
  {| shape := [256%nat; 1%nat]; data := calc_hist_px L img |}.

End OpenCV.

(** ** utils.py *)

Section Utils.
Context (L : Lib).

Definition check_image_quality (image : ndarray) : PyResult (gmap string pyval) :=
  let* gray := (if Nat.eqb (ndim image) 3 then cvtColor_BGR2GRAY L image
                else Return image) in
  let brightness := np_mean L gray in
  let* laplacian := Laplacian L gray in
  let blur_score := np_var L laplacian in
  let contrast := np_std L gray in
  Return (<["brightness" := PyFloat brightness]>
         (<["blur_score" := PyFloat blur_score]>
         (<["contrast" := PyFloat contrast]>
         (<["is_bright_enough" := PyBool (PrimFloat.ltb 50 brightness)]>
         (<["is_sharp_enough" := PyBool (PrimFloat.ltb 100 blur_score)]>
         (<["has_good_contrast" := PyBool (PrimFloat.ltb 30 contrast)]> ∅)))))).

End Utils.

(** ** config.py: the settings the decision core reads *)

Record Config := {
  FACE_MATCH_THRESHOLD : float;
  FACE_DISTANCE_THRESHOLD : float;
  BLINK_THRESHOLD : Z
}.

(** The values [Config] takes when the environment sets none. *)
Definition default_config : Config :=
  {| FACE_MATCH_THRESHOLD := 0.6;
     FACE_DISTANCE_THRESHOLD := 0.6;
     BLINK_THRESHOLD := 2 |}.

(** ** collections.deque *)

Record deque (A : Type) := { maxlen : option nat; items : list A }.
Arguments maxlen {A} d.
Arguments items {A} d.

Definition deque_new {A} (n : option nat) : deque A :=
  {| maxlen := n; items := [] |}.

(** [d.append(x)]: on a full bounded deque the oldest item is dropped. *)
Definition deque_append {A} (d : deque A) (x : A) : deque A :=
  let l := items d ++ [x] in
  match maxlen d with
  | None => {| maxlen := None; items := l |}
  | Some n => {| maxlen := Some n; items := drop (length l - n) l |}
  end.

(** ** liveness_checker.py *)

Module LivenessChecker.

Record t := {
  detector : ndarray -> list rectangle;
  predictor : option (ndarray -> rectangle -> full_object_detection);
  blink_counter : Z;
  frame_counter : Z;
  blink_history : deque float
}.

Definition EAR_THRESHOLD : float := 0.25.
Definition EAR_CONSEC_FRAMES : Z := 3.

(** A method runs on the object and may raise: it returns its value and
    the object as the call leaves it. *)
Definition Method (A : Type) := t -> PyResult (A * t).

Definition mret {A} (a : A) : Method A := fun self => Return (a, self).

Definition mbind {A B} (m : Method A) (k : A -> Method B) : Method B :=
  fun self =>
    match m self with
    | Return (a, self') => k a self'
    | Raise e => Raise e
    end.

Definition lift {A} (r : PyResult A) : Method A :=
  fun self =>
    match r with
    | Return a => Return (a, self)
    | Raise e => Raise e
    end.

Definition get_self : Method t := fun self => Return (self, self).

Notation "'let!' x := m 'in' k" := (mbind m (fun x => k))
  (at level 10, x name, m at level 100, k at level 200, only parsing).

Section Methods.
Context (L : Lib) (cfg : Config).

(** [__init__]: the predictor is [None] when the landmark file does not
    load. *)
Definition init : t :=
  {| detector := frontal_face_detector L;
     predictor := shape_predictor_file L;
     blink_counter := 0;
     frame_counter := 0;
     blink_history := deque_new (Some 100%nat) |}.

(** [scipy.spatial.distance.euclidean] on two pixel positions; the
    result is a numpy float64. *)
Definition euclidean (p q : Z * Z) : float :=
  let dx := (float_of_Z p.1 - float_of_Z q.1)%float in
  let dy := (float_of_Z p.2 - float_of_Z q.2)%float in
  PrimFloat.sqrt (dx * dx + dy * dy).

Definition point (eye_points : list (Z * Z)) (i : nat) : PyResult (Z * Z) :=
  match eye_points !! i with
  | Some p => Return p
  | None => Raise IndexError
  end.

Definition eye_aspect_ratio (eye_points : list (Z * Z)) : Method float :=
  let! p0 := lift (point eye_points 0) in
  let! p1 := lift (point eye_points 1) in
  let! p2 := lift (point eye_points 2) in
  let! p3 := lift (point eye_points 3) in
  let! p4 := lift (point eye_points 4) in
  let! p5 := lift (point eye_points 5) in
  let A := euclidean p1 p5 in
  let B := euclidean p2 p4 in
  let C := euclidean p0 p3 in
  let ear := ((A + B) / (2 * C))%float in
  mret ear.

Definition get_eye_regions (landmarks : full_object_detection)
  : Method (list (Z * Z) * list (Z * Z)) :=
  let left_eye := map landmarks (seq 36 6) in
  let right_eye := map landmarks (seq 42 6) in
  mret (left_eye, right_eye).

Definition detect_blink (frame : ndarray) : Method (bool * float) :=
  let! self := get_self in
  match predictor self with
  | None => mret (false, 0%float)
  | Some predict =>
    let! gray := lift (cvtColor_BGR2GRAY L frame) in
    let faces := detector self gray in
    match faces with
    | [] => mret (false, 0%float)
    | face :: _ =>
      let landmarks := predict gray face in
      let! eyes := get_eye_regions landmarks in
      let! left_ear := eye_aspect_ratio eyes.1 in
      let! right_ear := eye_aspect_ratio eyes.2 in
      let avg_ear := ((left_ear + right_ear) / 2)%float in
      let is_blink := PrimFloat.ltb avg_ear EAR_THRESHOLD in
      mret (is_blink, avg_ear)
    end
  end.

(** The loop of [count_blinks], from the frames still to read and the
    two local counters. *)
Fixpoint count_blinks_loop (frames : list ndarray)
    (blink_count consecutive_closed : Z) : Method Z :=
  match frames with
  | [] => mret blink_count
  | frame :: rest =>
    let! r := detect_blink frame in
    if r.1 then
      count_blinks_loop rest blink_count (consecutive_closed + 1)
    else
      count_blinks_loop rest
        (if EAR_CONSEC_FRAMES <=? consecutive_closed
         then blink_count + 1 else blink_count)
        0
  end.

Definition count_blinks (frames : list ndarray) : Method Z :=
  count_blinks_loop frames 0 0.

Fixpoint face_positions_loop (frames : list ndarray)
    (face_positions : list (float * float)) : Method (list (float * float)) :=
  match frames with
  | [] => mret face_positions
  | frame :: rest =>
    let! self := get_self in
    let! gray := lift (cvtColor_BGR2GRAY L frame) in
    let faces := detector self gray in
    match faces with
    | face :: _ =>
      let center_x := (float_of_Z (left face + right face) / 2)%float in
      let center_y := (float_of_Z (top face + bottom face) / 2)%float in
      face_positions_loop rest (face_positions ++ [(center_x, center_y)])
    | [] => face_positions_loop rest face_positions
    end
  end.

Definition check_head_movement (frames : list ndarray) : Method bool :=
  if (Z.of_nat (length frames) <? 5) then mret false
  else
    let! face_positions := face_positions_loop frames [] in
    if (Z.of_nat (length face_positions) <? 5) then mret false
    else
      (* np.var(positions, axis=0): one variance per coordinate *)
      let variance_x := np_var L (array1d (map fst face_positions)) in
      let variance_y := np_var L (array1d (map snd face_positions)) in
      let movement_threshold := 100%float in
      mret (PrimFloat.ltb movement_threshold variance_x
            || PrimFloat.ltb movement_threshold variance_y).

Definition passive_liveness_check (image : ndarray)
  : Method (gmap string pyval) :=
  let! gray := lift (cvtColor_BGR2GRAY L image) in
  let! laplacian := lift (Laplacian L gray) in
  let texture_score := np_var L laplacian in
  let color_variance := np_var L image in
  (* np.abs(np.fft.fftshift(np.fft.fft2(gray))) *)
  let magnitude_spectrum := reshape_like gray (fft_magnitude_px L gray) in
  let p90 := np_percentile L magnitude_spectrum 90 in
  let high_freq_score :=
    np_mean L (array1d (filter (fun m => PrimFloat.ltb p90 m = true)
                               (data magnitude_spectrum))) in
  let is_live :=
    PrimFloat.ltb 50 texture_score
    && PrimFloat.ltb 100 color_variance
    && PrimFloat.ltb 10 high_freq_score in
  let confidence :=
    py_min (PyI 100)
      (PyF ((texture_score / 100 + color_variance / 1000
             + high_freq_score / 100) * 33.3)%float) in
  mret (<["is_live" := PyBool is_live]>
       (<["confidence" := PyFloat (to_float confidence)]>
       (<["texture_score" := PyFloat texture_score]>
       (<["color_variance" := PyFloat color_variance]>
       (<["high_freq_score" := PyFloat high_freq_score]> ∅))))).

Definition dict_float (d : gmap string pyval) (k : string) : float :=
  match d !! k with
  | Some (PyFloat f) => f
  | _ => 0%float
  end.

Definition dict_bool (d : gmap string pyval) (k : string) : bool :=
  match d !! k with
  | Some (PyBool b) => b
  | _ => false
  end.

Definition check_liveness (image : ndarray) (frames : option (list ndarray))
  : Method (gmap string pyval) :=
  let! quality_checks := lift (check_image_quality L image) in
  let! passive_result := passive_liveness_check image in
  let result : gmap string pyval :=
    <["quality_checks" := PyDict quality_checks]>
    (<["passive_liveness" := PyDict passive_result]>
    (<["blink_count" := PyInt 0]>
    (<["head_movement_detected" := PyBool false]>
    (<["liveness_score" := PyFloat 0]>
    (<["passed" := PyBool false]> ∅))))) in
  match frames with
  | Some fs =>
    if (1 <? Z.of_nat (length fs)) then
      let! blink_count := count_blinks fs in
      let! head_movement := check_head_movement fs in
      let result := <["blink_count" := PyInt blink_count]> result in
      let result := <["head_movement_detected" := PyBool head_movement]> result in
      let! ratio := lift (py_truediv (PyI blink_count) (PyI (BLINK_THRESHOLD cfg))) in
      let blink_score := py_min (PyI 100) (py_mul ratio (PyI 50)) in
      let movement_score := if head_movement then PyI 50 else PyI 0 in
      let passive_score := PyF (dict_float passive_result "confidence") in
      let! liveness_score :=
        lift (py_truediv (py_add (py_add blink_score movement_score) passive_score)
                         (PyI 3)) in
      let result := <["liveness_score" := PyFloat (to_float liveness_score)]> result in
      let result := <["passed" := PyBool (py_lt (PyI 50) liveness_score)]> result in
      mret result
    else
      let result := <["liveness_score" :=
                        PyFloat (dict_float passive_result "confidence")]> result in
      let result := <["passed" := PyBool (dict_bool passive_result "is_live")]> result in
      mret result
  | None =>
    let result := <["liveness_score" :=
                      PyFloat (dict_float passive_result "confidence")]> result in
    let result := <["passed" := PyBool (dict_bool passive_result "is_live")]> result in
    mret result
  end.

Definition analyze_single_image (image : ndarray) : Method (gmap string pyval) :=
  check_liveness image None.

End Methods.
End LivenessChecker.

(** ** numpy: arithmetic on arrays and [np.hstack] *)

Definition arr_map (f : float -> float) (a : ndarray) : ndarray :=
  reshape_like a (map f (data a)).

(** An operation between two arrays of one shape, entry by entry. *)
Definition arr_map2 (f : float -> float -> float) (a b : ndarray) : ndarray :=
  reshape_like a (zip_with f (data a) (data b)).

Definition arr_add := arr_map2 PrimFloat.add.
Definition arr_sub := arr_map2 PrimFloat.sub.
Definition arr_mul := arr_map2 PrimFloat.mul.
Definition arr_div := arr_map2 PrimFloat.div.
(** [a ** 2]: numpy squares by multiplying. *)
Definition arr_sq := arr_map (fun x => (x * x)%float).
Definition arr_scale (c : float) := arr_map (fun x => (c * x)%float).
Definition arr_shift (c : float) := arr_map (fun x => (x + c)%float).

(** Rows of [ra] entries of [da], each followed by the row of [rb] entries
    of [db]. *)
Fixpoint hstack_rows (h ra rb : nat) (da db : list float) : list float :=
  match h with
  | O => []
  | S h' => take ra da ++ take rb db
            ++ hstack_rows h' ra rb (drop ra da) (drop rb db)
  end.

Definition shape_eqb (s1 s2 : list nat) : bool :=
  bool_decide (s1 = s2).

(** [np.hstack([a, b])]: concatenation along the second axis (the first
    for 1-D arrays); numpy raises ValueError when the other dimensions
    differ. *)
Definition hstack (a b : ndarray) : PyResult ndarray :=
  match shape a, shape b with
  | ha :: wa :: ca, hb :: wb :: cb =>
    if Nat.eqb ha hb && shape_eqb ca cb then
      let c := fold_right Nat.mul 1%nat ca in
      Return {| shape := ha :: (wa + wb)%nat :: ca;
                data := hstack_rows ha (wa * c) (wb * c) (data a) (data b) |}
    else Raise ValueError
  | [na], [nb] => Return {| shape := [(na + nb)%nat]; data := data a ++ data b |}
  | _, _ => Raise ValueError
  end.

(** Truth value of a Python object, for the values a result dict holds. *)
Definition truthy (v : pyval) : bool :=
  match v with
  | PyNone => false
  | PyBool b => b
  | PyInt z => negb (z =? 0)
  | PyFloat f => negb (PrimFloat.eqb f 0)
  | PyStr s => negb (String.eqb s "")
  | PyDict d => negb (bool_decide (size d = 0%nat))
  end.

(** ** face_matcher.py *)

Module FaceMatcher.

Record t := { threshold : float; distance_threshold : float }.

Section Methods.
Context (L : Lib) (cfg : Config).

(** [threshold or Config.FACE_MATCH_THRESHOLD]: [None] and a zero are
    false. *)
Definition init (threshold : option float) : t :=
  {| threshold :=
       match threshold with
       | Some th => if PrimFloat.eqb th 0 then FACE_MATCH_THRESHOLD cfg else th
       | None => FACE_MATCH_THRESHOLD cfg
       end;
     distance_threshold := FACE_DISTANCE_THRESHOLD cfg |}.

(** [face_recognition.compare_faces([known], check, tolerance)[0]]: the
    library compares [face_distance] with the tolerance. *)
Definition fr_compare_faces (known check : list float) (tolerance : float) : bool :=
  PrimFloat.leb (face_distance L known check) tolerance.

Definition compare_faces_dlib (self : t) (face1 face2 : ndarray)
  : PyResult (gmap string pyval) :=
  let* rgb1 := (if Nat.eqb (ndim face1) 3 then cvtColor_BGR2RGB L face1
                else Return face1) in
  let* rgb2 := (if Nat.eqb (ndim face2) 3 then cvtColor_BGR2RGB L face2
                else Return face2) in
  let encodings1 := face_encodings L rgb1 in
  let encodings2 := face_encodings L rgb2 in
  match encodings1, encodings2 with
  | e1 :: _, e2 :: _ =>
    let face_distance := face_distance L e1 e2 in
    let match_ := fr_compare_faces e1 e2 (distance_threshold self) in
    let similarity_score := (1 - face_distance)%float in
    Return (<["success" := PyBool true]>
           (<["match" := PyBool match_]>
           (<["distance" := PyFloat face_distance]>
           (<["similarity_score" := PyFloat similarity_score]>
           (<["confidence" := PyFloat (similarity_score * 100)]>
           (<["method" := PyStr "dlib"]> ∅))))))
  | _, _ =>
    Return (<["success" := PyBool false]>
           (<["error" := PyStr "Could not detect face in one or both images"]> ∅))
  end.

Definition _calculate_ssim (img1 img2 : ndarray) : PyResult float :=
  let C1 := 6.5025%float in
  let C2 := 58.5225%float in
  let* mu1 := GaussianBlur L img1 in
  let* mu2 := GaussianBlur L img2 in
  let mu1_sq := arr_sq mu1 in
  let mu2_sq := arr_sq mu2 in
  let mu1_mu2 := arr_mul mu1 mu2 in
  let* b1 := GaussianBlur L (arr_sq img1) in
  let sigma1_sq := arr_sub b1 mu1_sq in
  let* b2 := GaussianBlur L (arr_sq img2) in
  let sigma2_sq := arr_sub b2 mu2_sq in
  let* b12 := GaussianBlur L (arr_mul img1 img2) in
  let sigma12 := arr_sub b12 mu1_mu2 in
  let ssim_map :=
    arr_div
      (arr_mul (arr_shift C1 (arr_scale 2 mu1_mu2))
               (arr_shift C2 (arr_scale 2 sigma12)))
      (arr_mul (arr_shift C1 (arr_add mu1_sq mu2_sq))
               (arr_shift C2 (arr_add sigma1_sq sigma2_sq))) in
  Return (np_mean L ssim_map).

Definition compare_faces_opencv (self : t) (face1 face2 : ndarray)
  : PyResult (gmap string pyval) :=
  let size := (100, 100) in
  let* face1_resized := resize L face1 size in
  let* face2_resized := resize L face2 size in
  let* gray1 := (if Nat.eqb (ndim face1_resized) 3
                 then cvtColor_BGR2GRAY L face1_resized
                 else Return face1_resized) in
  let* gray2 := (if Nat.eqb (ndim face2_resized) 3
                 then cvtColor_BGR2GRAY L face2_resized
                 else Return face2_resized) in
  let hist1 := calcHist L gray1 in
  let hist2 := calcHist L gray2 in
  let similarity := compare_hist_correl L hist1 hist2 in
  let* ssim_score := _calculate_ssim gray1 gray2 in
  let combined_score := ((similarity + ssim_score) / 2)%float in
  let match_ := PrimFloat.ltb (threshold self) combined_score in
  Return (<["success" := PyBool true]>
         (<["match" := PyBool match_]>
         (<["similarity_score" := PyFloat combined_score]>
         (<["confidence" := PyFloat (combined_score * 100)]>
         (<["hist_similarity" := PyFloat similarity]>
         (<["ssim_score" := PyFloat ssim_score]>
         (<["method" := PyStr "opencv"]> ∅))))))).

Definition match_faces (self : t) (face1 face2 : ndarray) (method : string)
  : PyResult (gmap string pyval) :=
  if String.eqb method "dlib" then compare_faces_dlib self face1 face2
  else if String.eqb method "opencv" then compare_faces_opencv self face1 face2
  else compare_faces_dlib self face1 face2.

(** [int(w * (target_height / h))]. *)
Definition scaled_width (w h target_height : Z) : PyResult Z :=
  let* ratio := py_truediv (PyI target_height) (PyI h) in
  py_int (to_float (py_mul (PyI w) ratio)).

(** [h, w = face.shape[:2]]. *)
Definition shape2 (face : ndarray) : PyResult (Z * Z) :=
  match take 2 (shape face) with
  | [h; w] => Return (Z.of_nat h, Z.of_nat w)
  | _ => Raise ValueError
  end.

(** [f"{confidence:.1f}"]: only a number has this format. *)
Definition confidence_text (confidence : pyval) : PyResult string :=
  match confidence with
  | PyFloat f => Return (format_1f L (PyF f))
  | PyInt z => Return (format_1f L (PyI z))
  | PyBool b => Return (format_1f L (PyI (if b then 1 else 0)))
  | PyStr _ => Raise ValueError
  | PyNone | PyDict _ => Raise TypeError
  end.

Definition create_comparison_image (self : t) (face1 face2 : ndarray)
    (match_result : gmap string pyval) : PyResult ndarray :=
  let* hw1 := shape2 face1 in
  let* hw2 := shape2 face2 in
  let target_height := 300 in
  let* new_w1 := scaled_width hw1.2 hw1.1 target_height in
  let* new_w2 := scaled_width hw2.2 hw2.1 target_height in
  let* resized1 := resize L face1 (new_w1, target_height) in
  let* resized2 := resize L face2 (new_w2, target_height) in
  let* comparison := hstack resized1 resized2 in
  let matched := truthy (default (PyBool false) (match_result !! "match")) in
  let match_text := if matched then "MATCH" else "NO MATCH" in
  let confidence := default (PyInt 0) (match_result !! "confidence") in
  let color := if matched then (0, 255, 0) else (0, 0, 255) in
  let* text := confidence_text confidence in
  let comparison :=
    putText L comparison (match_text ++ ": " ++ text ++ "%")%string
      (10, 30) 1 color 2 in
  let comparison :=
    putText L comparison "Document" (10, target_height - 10)
      0.7 (255, 255, 255) 2 in
  let comparison :=
    putText L comparison "Live" (new_w1 + 10, target_height - 10)
      0.7 (255, 255, 255) 2 in
  Return comparison.

End Methods.
End FaceMatcher.

(** ** A small instance of the libraries

    [Stub] gives every field of [Lib] a deterministic stand-in, so that the
    embedding runs on concrete arrays.  Its reductions are the textbook
    formulas in binary64; its detector sees a face in every frame whose
    first gray value is positive and reads the eye opening from that value
    (an eye of width 20 opened by twice the value), which is how a synthetic
    sequence of eye aspect ratios is fed to the tracker. *)

Module Stub.

Definition px_int (x : float) : Z :=
  match py_int x with
  | Return z => z
  | Raise _ => 0
  end.

Definition fsum (l : list float) : float :=
  fold_left PrimFloat.add l 0%float.

Definition flen (l : list float) : float := float_of_Z (Z.of_nat (length l)).

Definition mean (a : ndarray) : float := (fsum (data a) / flen (data a))%float.

Definition var (a : ndarray) : float :=
  let m := mean a in
  (fsum (map (fun x => (x - m) * (x - m)) (data a)) / flen (data a))%float.

Definition std (a : ndarray) : float := PrimFloat.sqrt (var a).

Fixpoint insert_sorted (x : float) (l : list float) : list float :=
  match l with
  | [] => [x]
  | y :: l' => if PrimFloat.leb x y then x :: l else y :: insert_sorted x l'
  end.

Definition sorted (l : list float) : list float :=
  fold_right insert_sorted [] l.

(** Percentile with linear interpolation between the two nearest ranks. *)
Definition percentile (a : ndarray) (q : float) : float :=
  let s := sorted (data a) in
  let pos := (q / 100 * (flen s - 1))%float in
  let i := Z.to_nat (px_int pos) in
  let frac := (pos - float_of_Z (Z.of_nat i))%float in
  let lo := nth i s 0%float in
  let hi := nth (S i) s lo in
  (lo + (hi - lo) * frac)%float.

Fixpoint pixels (c : nat) (n : nat) (d : list float) : list (list float) :=
  match n with
  | O => []
  | S n' => take c d :: pixels c n' (drop c d)
  end.

Definition channels (a : ndarray) : nat := nth 2 (shape a) 1%nat.

Definition gray_of_pixel (p : list float) : float :=
  let b := px_int (nth 0 p 0%float) in
  let g := px_int (nth 1 p 0%float) in
  let r := px_int (nth 2 p 0%float) in
  float_of_Z (Z.shiftr (b * 1868 + g * 9617 + r * 4899 + 8192) 14).

Definition bgr2gray (a : ndarray) : list float :=
  map gray_of_pixel (pixels (channels a) (length (data a) / channels a) (data a)).

Definition bgr2rgb (a : ndarray) : list float :=
  concat (map (fun p => [nth 2 p 0%float; nth 1 p 0%float; nth 0 p 0%float])
              (pixels (channels a) (length (data a) / channels a) (data a))).

Definition reflect101 (n i : Z) : Z :=
  if n <=? 1 then 0
  else if i <? 0 then - i
  else if n <=? i then 2 * n - 2 - i
  else i.

Definition at2 (a : ndarray) (i j : Z) : float :=
  let h := Z.of_nat (nth 0 (shape a) 0%nat) in
  let w := Z.of_nat (nth 1 (shape a) 0%nat) in
  nth (Z.to_nat (reflect101 h i * w + reflect101 w j)) (data a) 0%float.

(** The 4-neighbour Laplacian with mirrored borders. *)
Definition laplacian (a : ndarray) : list float :=
  let w := Z.of_nat (nth 1 (shape a) 1%nat) in
  map (fun k : nat =>
         let i := Z.of_nat k / w in
         let j := Z.of_nat k mod w in
         (at2 a (i - 1) j + at2 a (i + 1) j + at2 a i (j - 1) + at2 a i (j + 1)
          - 4 * at2 a i j)%float)
      (seq 0 (length (data a))).

(** Nearest-neighbour resampling. *)
Definition resize_nn (a : ndarray) (w h : Z) : list float :=
  let sh := Z.of_nat (nth 0 (shape a) 0%nat) in
  let sw := Z.of_nat (nth 1 (shape a) 0%nat) in
  let c := Z.of_nat (fold_right Nat.mul 1%nat (drop 2 (shape a))) in
  map (fun k : nat =>
         let k := Z.of_nat k in
         let ch := k mod c in
         let x := (k / c) mod w in
         let y := k / c / w in
         nth (Z.to_nat (((y * sh / h) * sw + x * sw / w) * c + ch)) (data a) 0%float)
      (seq 0 (Z.to_nat (h * w * c))).

Definition hist (a : ndarray) : list float :=
  map (fun b : nat =>
         float_of_Z (Z.of_nat (length
           (filter (fun x => px_int x = Z.of_nat b) (data a)))))
      (seq 0 256).

(** The correlation of two histograms of [n] bins each:
    (s12 - s1 s2 / n) / sqrt ((s11 - s1 s1 / n) (s22 - s2 s2 / n)). *)
Definition correl (h1 h2 : ndarray) : float :=
  let a := data h1 in
  let b := data h2 in
  let scale := (1 / flen a)%float in
  let s1 := fsum a in
  let s2 := fsum b in
  let s11 := fsum (zip_with PrimFloat.mul a a) in
  let s22 := fsum (zip_with PrimFloat.mul b b) in
  let s12 := fsum (zip_with PrimFloat.mul a b) in
  let num := (s12 - s1 * s2 * scale)%float in
  let denom2 := ((s11 - s1 * s1 * scale) * (s22 - s2 * s2 * scale))%float in
  if negb (Nat.eqb (length a) (length b)) then PrimFloat.nan
  else if PrimFloat.ltb 0 (PrimFloat.abs denom2)
  then (num / PrimFloat.sqrt denom2)%float else 1%float.

(** The spectrum of the mean image: the sum of the entries at the centre,
    zero elsewhere. *)
Definition spectrum (a : ndarray) : list float :=
  let n := length (data a) in
  map (fun k : nat => if Nat.eqb k (n / 2) then PrimFloat.abs (fsum (data a))
                      else 0%float)
      (seq 0 n).

Definition face_of (gray : ndarray) : list rectangle :=
  match data gray with
  | v :: _ =>
    if PrimFloat.ltb 0 v
    then [{| left := 0; top := 0;
             right := Z.of_nat (nth 1 (shape gray) 0%nat);
             bottom := Z.of_nat (nth 0 (shape gray) 0%nat) |}]
    else []
  | [] => []
  end.

(** Six points of an eye of width 20 whose lids are [o] above and below
    the axis, at horizontal offset [x0]. *)
Definition eye (x0 o : Z) (i : nat) : Z * Z :=
  match i with
  | 0%nat => (x0, 0)
  | 1%nat => (x0 + 5, o)
  | 2%nat => (x0 + 15, o)
  | 3%nat => (x0 + 20, 0)
  | 4%nat => (x0 + 15, - o)
  | _ => (x0 + 5, - o)
  end.

Definition landmarks_of (gray : ndarray) (face : rectangle) : full_object_detection :=
  fun i =>
    let o := px_int (nth 0 (data gray) 0%float) in
    if (36 <=? i)%nat && (i <? 42)%nat then eye 0 o (i - 36)
    else if (42 <=? i)%nat && (i <? 48)%nat then eye 40 o (i - 42)
    else (0, 0).

(** One embedding per image with a face: its first two values over 255. *)
Definition encodings_of (rgb : ndarray) : list (list float) :=
  match data rgb with
  | v :: rest =>
    if PrimFloat.ltb 0 v
    then [[(v / 255)%float; (nth 0 rest 0%float / 255)%float]]
    else []
  | [] => []
  end.

Definition distance (e1 e2 : list float) : float :=
  PrimFloat.sqrt
    (fsum (zip_with (fun x y => ((x - y) * (x - y))%float) e1 e2)).

Fixpoint digits (fuel : nat) (n : Z) (acc : string) : string :=
  match fuel with
  | O => acc
  | S fuel' =>
    let acc' := String (Ascii.ascii_of_nat (48 + Z.to_nat (n mod 10))) acc in
    if n <? 10 then acc' else digits fuel' (n / 10) acc'
  end.

(** One decimal, the further ones cut. *)
Definition fixed1 (x : pynum) : string :=
  let t := px_int (to_float x * 10)%float in
  let sign : string := if t <? 0 then "-" else "" in
  let whole := digits 20 (Z.abs t / 10) "" in
  let tenth := digits 1 (Z.abs t mod 10) "" in
  (sign ++ whole ++ "." ++ tenth)%string.

Definition lib : Lib :=
  {| bgr2gray_px := bgr2gray;
     bgr2rgb_px := bgr2rgb;
     laplacian_px := laplacian;
     resize_px := resize_nn;
     gaussian_blur_px := data;
     calc_hist_px := hist;
     put_text_px := fun img _ _ _ _ _ => data img;
     compare_hist_correl := correl;
     np_mean := mean;
     np_var := var;
     np_std := std;
     np_percentile := percentile;
     fft_magnitude_px := spectrum;
     frontal_face_detector := face_of;
     shape_predictor_file := Some landmarks_of;
     face_encodings := encodings_of;
     face_distance := distance;
     format_1f := fixed1 |}.

(** A [h] x [w] BGR image of one gray level. *)
Definition uniform (h w : nat) (v : Z) : ndarray :=
  {| shape := [h; w; 3%nat]; data := repeat (float_of_Z v) (h * w * 3) |}.

End Stub.

(** ** The statements of the specification, on the embedding *)

(** A non-empty colour image (3 or 4 channels), and a non-empty image that
    is either gray (two dimensions) or colour. *)
Definition is_bgr (a : ndarray) : bool := negb (is_empty a) && color_channels a.

Definition is_image (a : ndarray) : bool :=
  negb (is_empty a) && (Nat.eqb (ndim a) 2 || color_channels a).

(** The image handed to the encoder by [compare_faces_dlib]. *)
Definition rgb_of (L : Lib) (face : ndarray) : ndarray :=
  if Nat.eqb (ndim face) 3
  then {| shape := take 2 (shape face) ++ [3%nat]; data := bgr2rgb_px L face |}
  else face.

(** The gray image measured by [check_image_quality]. *)
Definition gray_of (L : Lib) (image : ndarray) : ndarray :=
  if Nat.eqb (ndim image) 3
  then {| shape := take 2 (shape image); data := bgr2gray_px L image |}
  else image.

Module Spec.

(** A frame is closed when its eye aspect ratio is strictly below 0.25 and
    open when it is at least 0.25. *)
Definition is_closed (ear : float) : bool := PrimFloat.ltb ear 0.25.
Definition is_open (ear : float) : bool := PrimFloat.leb 0.25 ear.

(** Length of the run of closed frames at the head of a sequence. *)
Fixpoint closed_run (ears : list float) : nat :=
  match ears with
  | ear :: rest => if is_closed ear then S (closed_run rest) else 0
  | [] => 0
  end.

Definition starts_open (ears : list float) : bool :=
  match ears with
  | ear :: _ => is_open ear
  | [] => false
  end.

(** The number of maximal closed runs of length at least 3 that are
    followed by an open frame: at every frame where a maximal closed run
    starts (the frame before is not closed), the run is measured and the
    frame after it inspected. *)
Fixpoint blink_events_from (prev_closed : bool) (ears : list float) : nat :=
  match ears with
  | [] => 0
  | ear :: rest =>
    (if negb prev_closed && is_closed ear
        && (3 <=? closed_run ears)%nat
        && starts_open (drop (closed_run ears) ears)
     then 1 else 0)%nat
    + blink_events_from (is_closed ear) rest
  end.

Definition blink_events (ears : list float) : nat :=
  blink_events_from false ears.

(** [min(100, x)] on floats. *)
Definition min100 (x : float) : float :=
  if PrimFloat.ltb x 100 then x else 100%float.

Definition blink_score (blink_count : Z) : float :=
  min100 (float_of_Z blink_count / 2 * 50)%float.

Definition movement_score (head_movement : bool) : float :=
  if head_movement then 50%float else 0%float.

Definition fused_score (blink_count : Z) (head_movement : bool)
    (passive_score : float) : float :=
  ((blink_score blink_count + movement_score head_movement + passive_score) / 3)%float.

Definition is_live (texture color high_freq : float) : bool :=
  PrimFloat.ltb 50 texture && PrimFloat.ltb 100 color && PrimFloat.ltb 10 high_freq.

Definition confidence (texture color high_freq : float) : float :=
  min100 ((texture / 100 + color / 1000 + high_freq / 100) * 33.3)%float.

End Spec.

(** Synthetic frames for [Stub]: a 1 x 1 frame of gray level [v] shows an
    eye aspect ratio of [v / 10]. *)
Definition frames_of_levels (levels : list Z) : list ndarray :=
  map (Stub.uniform 1 1) levels.

(** The value a method call returned, and the samples its object holds
    after the call. *)
Definition value_of {A} (r : PyResult (A * LivenessChecker.t)) : option A :=
  match r with
  | Return (a, _) => Some a
  | Raise _ => None
  end.

Definition window_after {A} (r : PyResult (A * LivenessChecker.t)) : option (list float) :=
  match r with
  | Return (_, self) => Some (items (LivenessChecker.blink_history self))
  | Raise _ => None
  end.

(** The blink still pending when [consecutive_closed] closed frames have
    been read and [ears] are still to come. *)
Definition pending (consecutive_closed : Z) (ears : list float) : nat :=
  if (0 <? consecutive_closed)
     && (3 <=? consecutive_closed + Z.of_nat (Spec.closed_run ears))
     && Spec.starts_open (drop (Spec.closed_run ears) ears)
  then 1%nat else 0%nat.

(** The three cues of the passive analyzer, as [passive_liveness_check]
    measures them. *)
Definition laplacian_of (L : Lib) (gray : ndarray) : ndarray :=
  reshape_like gray (laplacian_px L gray).

Definition texture_energy (L : Lib) (image : ndarray) : float :=
  np_var L (laplacian_of L (gray_of L image)).

Definition color_variance (L : Lib) (image : ndarray) : float :=
  np_var L image.

Definition high_freq_energy (L : Lib) (image : ndarray) : float :=
  let gray := gray_of L image in
  let magnitude_spectrum := reshape_like gray (fft_magnitude_px L gray) in
  let p90 := np_percentile L magnitude_spectrum 90 in
  np_mean L (array1d (filter (fun m => PrimFloat.ltb p90 m = true)
                             (data magnitude_spectrum))).

(** A result that reports an error: a [success] flag that is false, or an
    [error] entry. *)
Definition is_error_result (d : gmap string pyval) : Prop :=
  d !! "success" = Some (PyBool false) \/ is_Some (d !! "error").

(** A 2 x 2 colour image whose first pixel is black: [Stub] sees no face in
    it. *)
Definition faceless : ndarray :=
  {| shape := [2; 2; 3]%nat;
     data := [0; 0; 0; 40; 50; 60; 200; 100; 50; 0; 255; 9]%float |}.

Definition empty_image : ndarray := {| shape := [0; 0; 3]%nat; data := [] |}.

(** The entry of a returned dict under a key. *)
Definition entry (k : string) (r : option (gmap string pyval)) : option pyval :=
  match r with
  | Some d => d !! k
  | None => None
  end.

(** The first two steps of [compare_faces_opencv] on one face: the resize
    to 100 x 100 and the conversion to gray. *)
Definition gray100 (L : Lib) (face : ndarray) : PyResult ndarray :=
  let* resized := resize L face (100, 100) in
  if Nat.eqb (ndim resized) 3 then cvtColor_BGR2GRAY L resized else Return resized.

(** The channel axes of a gray image (none) and of a colour image (3 or 4
    channels): the layouts [is_image] admits. *)
Definition image_channels (channels : list nat) : Prop :=
  channels = [] \/ channels = [3%nat] \/ channels = [4%nat].

(** A match result whose confidence, when it has one, is a number. *)
Definition numeric_confidence (match_result : gmap string pyval) : Prop :=
  match match_result !! "confidence" with
  | None | Some (PyFloat _) | Some (PyInt _) | Some (PyBool _) => True
  | Some _ => False
  end.

(** A crop of 301 rows and 1 column. *)
Definition sliver : ndarray := Stub.uniform 301 1 100.

(** ** The frames of a sequence that show a face *)

(** The frames in which the detector of the tracker finds a face, as
    [check_head_movement] reads them. *)
Definition frames_showing_face (L : Lib) (self : LivenessChecker.t)
    (frames : list ndarray) : list ndarray :=
  filter (fun frame => LivenessChecker.detector self (gray_of L frame) <> []) frames.

(** ** Python sequences: slices and [max] *)

(** The bound of a slice on a sequence of length [n]: a negative index
    counts from the end, and the result is clipped to the sequence. *)
Definition slice_bound (i n : Z) : Z :=
  if i <? 0 then Z.max (i + n) 0 else Z.min i n.

(** The number of items of [s[start:stop]] for [s] of length [n]. *)
Definition slice_length (start stop : Z) (n : nat) : nat :=
  Z.to_nat (slice_bound stop (Z.of_nat n) - slice_bound start (Z.of_nat n)).

(** [l[start:stop]]. *)
Definition py_slice {A} (l : list A) (start stop : Z) : list A :=
  take (slice_length start stop (length l))
       (drop (Z.to_nat (slice_bound start (Z.of_nat (length l)))) l).

(** [max(first :: rest, key=key)]: the running maximum is replaced only by
    an item whose key is greater, so the first of the maximal items is the
    result. *)
Fixpoint py_max_key {A} (key : A -> Z) (best : A) (rest : list A) : A :=
  match rest with
  | [] => best
  | x :: rest' => py_max_key key (if key best <? key x then x else best) rest'
  end.

(** [count] consecutive blocks of [size] entries. *)
Fixpoint blocks {A} (count size : nat) (l : list A) : list (list A) :=
  match count with
  | O => []
  | S count' => take size l :: blocks count' size (drop size l)
  end.

(** [a[r0:r1, c0:c1]] on an array of two dimensions or more: numpy raises
    IndexError on an array with fewer. *)
Definition getitem_slices (a : ndarray) (r0 r1 c0 c1 : Z) : PyResult ndarray :=
  match shape a with
  | h :: w :: channels =>
    let c := fold_right Nat.mul 1%nat channels in
    let rows := py_slice (blocks h (w * c) (data a)) r0 r1 in
    let cropped := map (fun row => concat (py_slice (blocks w c row) c0 c1)) rows in
    Return {| shape := slice_length r0 r1 h :: slice_length c0 c1 w :: channels;
              data := concat cropped |}
  | _ => Raise IndexError
  end.

(** A face location, in the order (top, right, bottom, left). *)
Definition location := (Z * Z * Z * Z)%type.

(** ** utils.py: file names and crops *)

(** The character tables of Python's [str]: [c.isalnum()] and
    [c.isspace()], on code points. *)
Record Unicode := { isalnum : Z -> bool; isspace : Z -> bool }.

(** [s.rstrip()]: the string without its trailing whitespace. *)
Fixpoint rstrip (U : Unicode) (s : list Z) : list Z :=
  match s with
  | [] => []
  | c :: s' =>
    match rstrip U s' with
    | [] => if isspace U c then [] else [c]
    | r => c :: r
    end
  end.

(** The code points of '.', '_' and '-'. *)
Definition keepcharacters : list Z := [46; 95; 45].

Definition kept (U : Unicode) (c : Z) : bool :=
  isalnum U c || bool_decide (c ∈ keepcharacters).

Definition sanitize_filename (U : Unicode) (filename : list Z) : list Z :=
  rstrip U (filter (fun c => kept U c = true) filename).

Definition crop_face_region (image : ndarray) (face_location : location)
  : PyResult ndarray :=
  let '(top, right, bottom, left) := face_location in
  getitem_slices image top bottom left right.

(** The code points of a string of ASCII characters. *)
Definition codes (s : string) : list Z :=
  map (fun a => Z.of_nat (Ascii.nat_of_ascii a)) (list_ascii_of_string s).

(** The two tables on the ASCII range. *)
Definition ascii_tables : Unicode :=
  {| isalnum := fun c => ((48 <=? c) && (c <=? 57)) || ((65 <=? c) && (c <=? 90))
                         || ((97 <=? c) && (c <=? 122));
     isspace := fun c => ((9 <=? c) && (c <=? 13)) || ((28 <=? c) && (c <=? 32)) |}.

(** ** face_detector.py *)

Module FaceDetector.

(** The detectors the class calls: the two Haar cascades of OpenCV, which
    return boxes (x, y, w, h), and the HOG detector of face_recognition,
    which returns locations (top, right, bottom, left).  Each may raise. *)
Record Detectors := {
  cascade_detectMultiScale : ndarray -> Z -> PyResult (list (Z * Z * Z * Z));
  eye_cascade_detectMultiScale : ndarray -> PyResult (list (Z * Z * Z * Z));
  face_locations : ndarray -> PyResult (list location)
}.

Section Methods.
Context (L : Lib) (D : Detectors) (MIN_FACE_SIZE : Z).

Definition detect_faces_opencv (image : ndarray) : PyResult (list location) :=
  let* gray := (if Nat.eqb (ndim image) 3 then cvtColor_BGR2GRAY L image
                else Return image) in
  let* faces := cascade_detectMultiScale D gray MIN_FACE_SIZE in
  Return (map (fun '(x, y, w, h) => (y, x + w, y + h, x)) faces).

Definition detect_faces_dlib (image : ndarray) : PyResult (list location) :=
  let* rgb_image := (if Nat.eqb (ndim image) 3 then cvtColor_BGR2RGB L image
                     else Return image) in
  face_locations D rgb_image.

Definition detect_faces (image : ndarray) (method : string)
  : PyResult (list location) :=
  if String.eqb method "opencv" then detect_faces_opencv image
  else detect_faces_dlib image.

(** [(loc[2] - loc[0]) * (loc[1] - loc[3])]. *)
Definition area (loc : location) : Z :=
  let '(top, right, bottom, left) := loc in (bottom - top) * (right - left).

Definition extract_largest_face (image : ndarray)
  : PyResult (option (ndarray * location)) :=
  let* face_locations := detect_faces image "dlib" in
  match face_locations with
  | [] => Return None
  | first :: rest =>
    let largest_face := py_max_key area first rest in
    let '(top, right, bottom, left) := largest_face in
    let* face_image := getitem_slices image top bottom left right in
    Return (Some (face_image, largest_face))
  end.

Definition extract_face_from_document (image : ndarray)
  : PyResult (option ndarray) :=
  let* result := extract_largest_face image in
  match result with
  | Some (face_image, _) => Return (Some face_image)
  | None => Return None
  end.

Definition get_face_encoding (image : ndarray) : PyResult (option (list float)) :=
  let* rgb_image := (if Nat.eqb (ndim image) 3 then cvtColor_BGR2RGB L image
                     else Return image) in
  match face_encodings L rgb_image with
  | e :: _ => Return (Some e)
  | [] => Return None
  end.

Definition detect_eyes (face_image : ndarray) : PyResult (list (Z * Z * Z * Z)) :=
  let* gray := (if Nat.eqb (ndim face_image) 3 then cvtColor_BGR2GRAY L face_image
                else Return face_image) in
  let* eyes := eye_cascade_detectMultiScale D gray in
  Return (map (fun '(x, y, w, h) => (x, y, w, h)) eyes).

Definition validate_face_quality (face_image : ndarray)
  : PyResult (gmap string pyval) :=
  let* quality_checks := check_image_quality L face_image in
  let* hw := FaceMatcher.shape2 face_image in
  let height := hw.1 in
  let width := hw.2 in
  let* aspect_ratio :=
    (if 0 <? height
     then let* r := py_truediv (PyI width) (PyI height) in
          Return (PyFloat (to_float r))
     else Return (PyInt 0)) in
  let quality_checks :=
    <["aspect_ratio" := aspect_ratio]>
    (<["is_large_enough" :=
         PyBool ((MIN_FACE_SIZE <=? width) && (MIN_FACE_SIZE <=? height))]>
    (<["height" := PyInt height]>
    (<["width" := PyInt width]> quality_checks))) in
  let* eyes := detect_eyes face_image in
  Return (<["eyes_detected" := PyBool (2 <=? Z.of_nat (length eyes))]> quality_checks).

End Methods.
End FaceDetector.

(** Detectors for [Stub]: in an image whose first value is positive, the
    HOG detector reports the pixel at the origin and the whole image, the
    face cascade the whole image, and the eye cascade two eyes. *)
Definition stub_detectors : FaceDetector.Detectors :=
  {| FaceDetector.cascade_detectMultiScale := fun gray _ =>
       Return (map (fun r => (left r, top r, right r - left r, bottom r - top r))
                   (Stub.face_of gray));
     FaceDetector.eye_cascade_detectMultiScale := fun gray =>
       Return (flat_map (fun _ => [(0, 0, 1, 1); (1, 0, 1, 1)]) (Stub.face_of gray));
     FaceDetector.face_locations := fun rgb =>
       Return (flat_map (fun r => [(0, 1, 1, 0); (top r, right r, bottom r, left r)])
                        (Stub.face_of rgb)) |}.

(** A 2 x 3 colour image with pixels of different values. *)
Definition sample_image : ndarray :=
  {| shape := [2; 3; 3]%nat;
     data := map float_of_Z [11; 12; 13; 21; 22; 23; 31; 32; 33;
                             41; 42; 43; 51; 52; 53; 61; 62; 63] |}.

(** ** api.py: the endpoints that call the decision core

    A handler either returns its response or raises.  What it calls
    outside the code above (base64 and PIL, the file system, the database
    session) is a field of [Services]; such a call returns or fails with an
    exception of its library.  The local variable [db] of a handler is
    unbound until the assignment [db = get_db_session()] has run. *)

Module Api.

Inductive exception :=
| HTTPException (status_code : Z) (detail : pyval)
| UnboundLocalError (name : string)
| KeyError (key : string)
| CoreError (e : exn)               (* raised by the functions above *)
| LibraryError (message : string).  (* raised inside a service *)

Inductive Outcome (A : Type) :=
| Returns (a : A)
| Raises (e : exception).
Arguments Returns {A} a.
Arguments Raises {A} e.

Inductive External (A : Type) :=
| Done (a : A)
| Failed (message : string).
Arguments Done {A} a.
Arguments Failed {A} message.

Record LivenessRecord := {
  liveness_score : pyval;
  liveness_passed : string;
  blink_count : pyval;
  quality_checks : pyval;
  live_image_path : string
}.

Record FaceMatchRecord := {
  document_id : Z;
  liveness_id : Z;
  match_score : pyval;
  match_distance : pyval;
  match_result : string
}.

Record Services (Image Session : Type) := {
  base64_to_image : string -> External Image;
  pil_to_cv2 : Image -> External ndarray;
  save_face : ndarray -> External string;
  image_to_base64 : string -> External string;
  imread : string -> External (option ndarray);
  get_db_session : External Session;
  (* db.add(record); db.commit(); db.refresh(record); record.id *)
  store_liveness : Session -> LivenessRecord -> External Z;
  store_match : Session -> FaceMatchRecord -> External Z;
  (* db.query(...).filter(... .id == id).first(), then the path column *)
  document_face_path : Session -> Z -> External (option (option string));
  liveness_image_path : Session -> Z -> External (option (option string));
  db_close : Session -> External unit;
  (* str(e) *)
  str : exception -> string
}.
Arguments base64_to_image {Image Session} s.
Arguments pil_to_cv2 {Image Session} s.
Arguments save_face {Image Session} s.
Arguments image_to_base64 {Image Session} s.
Arguments imread {Image Session} s.
Arguments get_db_session {Image Session} s.
Arguments store_liveness {Image Session} s.
Arguments store_match {Image Session} s.
Arguments document_face_path {Image Session} s.
Arguments liveness_image_path {Image Session} s.
Arguments db_close {Image Session} s.
Arguments str {Image Session} s.

(** [verify_api_key]: the dependency of every endpoint but the health
    check, on the header [X-API-Key] (None when absent) and Config.API_KEY. *)
Definition verify_api_key (API_KEY : string) (x_api_key : option string)
  : Outcome string :=
  match x_api_key with
  | Some key =>
    if String.eqb key "" || negb (String.eqb key API_KEY)
    then Raises (HTTPException 401 (PyStr "Invalid or missing API key"))
    else Returns key
  | None => Raises (HTTPException 401 (PyStr "Invalid or missing API key"))
  end.

Section Handlers.
Context {Image Session : Type}.
Context (L : Lib) (cfg : Config) (D : FaceDetector.Detectors) (MIN_FACE_SIZE : Z).
Context (S : Services Image Session).
(* the module-level objects *)
Context (liveness_checker : LivenessChecker.t) (face_matcher : FaceMatcher.t).

(** The body of a [try]: it runs from the binding of [db] it finds and
    leaves the binding it made, with its outcome. *)
Definition Body (A : Type) := option Session -> option Session * Outcome A.

Definition ret {A} (a : A) : Body A := fun db => (db, Returns a).

Definition raise {A} (e : exception) : Body A := fun db => (db, Raises e).

Definition then_ {A B} (m : Body A) (k : A -> Body B) : Body B :=
  fun db =>
    match m db with
    | (db', Returns a) => k a db'
    | (db', Raises e) => (db', Raises e)
    end.

Notation "'let#' x := m 'in' k" := (then_ m (fun x => k))
  (at level 10, x name, m at level 100, k at level 200, only parsing).

Definition external {A} (r : External A) : Body A :=
  match r with
  | Done a => ret a
  | Failed message => raise (LibraryError message)
  end.

Definition core {A} (r : PyResult A) : Body A :=
  match r with
  | Return a => ret a
  | Raise e => raise (CoreError e)
  end.

(** [db = session]. *)
Definition assign_db (session : Session) : Body unit :=
  fun _ => (Some session, Returns tt).

(** [d[k]]. *)
Definition getitem (d : gmap string pyval) (k : string) : Body pyval :=
  match d !! k with
  | Some v => ret v
  | None => raise (KeyError k)
  end.

(** [finally: db.close()], after the outcome [r] of the [try] and its
    handlers. *)
Definition finally_close {A} (db : option Session) (r : Outcome A) : Outcome A :=
  match db with
  | None => Raises (UnboundLocalError "db")
  | Some session =>
    match db_close S session with
    | Done _ => r
    | Failed message => Raises (LibraryError message)
    end
  end.

(** A row that was found and whose path is not empty. *)
Definition usable_path (row : option (option string)) : option string :=
  match row with
  | Some (Some path) => if String.eqb path "" then None else Some path
  | _ => None
  end.

Definition capture_liveness_body (image_base64 : string)
  : Body (gmap string pyval) :=
  let# image := external (base64_to_image S image_base64) in
  let# image_cv := external (pil_to_cv2 S image) in
  let# checked :=
    core (LivenessChecker.check_liveness L cfg image_cv None liveness_checker) in
  let liveness_result := checked.1 in
  let# face_result :=
    core (FaceDetector.extract_largest_face L D MIN_FACE_SIZE image_cv) in
  match face_result with
  | None => raise (HTTPException 400 (PyStr "No face detected in image"))
  | Some (face_image, _) =>
    let# face_path := external (save_face S face_image) in
    let# session := external (get_db_session S) in
    let# _ := assign_db session in
    let# score := getitem liveness_result "liveness_score" in
    let# passed := getitem liveness_result "passed" in
    let blinks := default (PyInt 0) (liveness_result !! "blink_count") in
    let# checks := getitem liveness_result "quality_checks" in
    let liveness_record :=
      {| liveness_score := score;
         liveness_passed := if truthy passed then "pass" else "fail";
         blink_count := blinks;
         quality_checks := checks;
         live_image_path := face_path |} in
    let# id := external (store_liveness S session liveness_record) in
    let# live_face_base64 := external (image_to_base64 S face_path) in
    ret (<["success" := PyBool true]>
        (<["liveness_id" := PyInt id]>
        (<["liveness_score" := score]>
        (<["liveness_passed" := passed]>
        (<["quality_checks" := checks]>
        (<["live_image_base64" := PyStr live_face_base64]>
        (<["processing_time" := PyFloat 0.5]> ∅)))))))
  end.

(** [except Exception as e: raise HTTPException(500, str(e))], then
    [finally: db.close()]. *)
Definition capture_liveness (image_base64 : string)
  : Outcome (gmap string pyval) :=
  let '(db, r) := capture_liveness_body image_base64 None in
  finally_close db
    match r with
    | Returns response => Returns response
    | Raises e => Raises (HTTPException 500 (PyStr (str S e)))
    end.

Definition match_faces_body (document_id liveness_id : Z)
  : Body (gmap string pyval) :=
  let# session := external (get_db_session S) in
  let# _ := assign_db session in
  let# doc_record := external (document_face_path S session document_id) in
  match usable_path doc_record with
  | None => raise (HTTPException 404 (PyStr "Document or face image not found"))
  | Some doc_path =>
    let# liveness_record := external (liveness_image_path S session liveness_id) in
    match usable_path liveness_record with
    | None =>
      raise (HTTPException 404 (PyStr "Liveness record or face image not found"))
    | Some live_path =>
      let# doc_face := external (imread S doc_path) in
      let# live_face := external (imread S live_path) in
      match doc_face, live_face with
      | Some doc_face, Some live_face =>
        let# match_result :=
          core (FaceMatcher.match_faces L face_matcher doc_face live_face "dlib") in
        let# success := getitem match_result "success" in
        if negb (truthy success)
        then raise (HTTPException 400
                      (default (PyStr "Face matching failed")
                               (match_result !! "error")))
        else
          let# score := getitem match_result "similarity_score" in
          let distance := default (PyInt 0) (match_result !! "distance") in
          let# matched := getitem match_result "match" in
          let match_record :=
            {| document_id := document_id;
               liveness_id := liveness_id;
               match_score := score;
               match_distance := distance;
               match_result := if truthy matched then "pass" else "fail" |} in
          let# id := external (store_match S session match_record) in
          ret (<["success" := PyBool true]>
              (<["match_id" := PyInt id]>
              (<["match_score" := score]>
              (<["match_distance" := distance]>
              (<["match_passed" := matched]>
              (<["threshold_used" := PyFloat (FACE_MATCH_THRESHOLD cfg)]>
              (<["processing_time" := PyFloat 0.5]> ∅)))))))
      | _, _ => raise (HTTPException 400 (PyStr "Could not load face images"))
      end
    end
  end.

(** [except HTTPException: raise], [except Exception as e: raise
    HTTPException(500, str(e))], then [finally: db.close()]. *)
Definition match_faces (document_id liveness_id : Z)
  : Outcome (gmap string pyval) :=
  let '(db, r) := match_faces_body document_id liveness_id None in
  finally_close db
    match r with
    | Returns response => Returns response
    | Raises (HTTPException status_code detail) =>
      Raises (HTTPException status_code detail)
    | Raises e => Raises (HTTPException 500 (PyStr (str S e)))
    end.

End Handlers.
End Api.

(** Services for [Stub]: the request "portrait" decodes to [sample_image]
    and "blank" to [faceless]; files can be written when [writable] and read
    when [readable]; the database holds document 1 and the liveness checks
    1 and 2. *)
Definition stub_services (writable readable : bool) : Api.Services ndarray unit :=
  {| Api.base64_to_image := fun s =>
       if String.eqb s "portrait" then Api.Done sample_image
       else if String.eqb s "blank" then Api.Done faceless
       else Api.Failed "Incorrect padding";
     Api.pil_to_cv2 := fun image => Api.Done image;
     Api.save_face := fun _ =>
       if writable then Api.Done "live_captures/live.jpg"
       else Api.Failed "No space left on device";
     Api.image_to_base64 := fun path =>
       if readable then Api.Done "aGVsbG8="
       else Api.Failed "No such file or directory";
     Api.imread := fun path =>
       if negb readable then Api.Done None
       else if String.eqb path "faces/document.jpg" then Api.Done (Some sample_image)
       else if String.eqb path "faces/blank.jpg" then Api.Done (Some faceless)
       else Api.Done (Some (Stub.uniform 2 2 120));
     Api.get_db_session := Api.Done tt;
     Api.store_liveness := fun _ _ => Api.Done 7;
     Api.store_match := fun _ _ => Api.Done 9;
     Api.document_face_path := fun _ id =>
       Api.Done (if id =? 1 then Some (Some "faces/document.jpg") else None);
     Api.liveness_image_path := fun _ id =>
       Api.Done (if id =? 1 then Some (Some "live_captures/live.jpg")
                 else if id =? 2 then Some (Some "faces/blank.jpg")
                 else None);
     Api.db_close := fun _ => Api.Done tt;
     Api.str := fun e =>
       match e with
       | Api.LibraryError message => message
       | _ => "error"
       end |}.

(** ** Facts about binary64 arithmetic *)

Lemma SFadd_comm prec emax x y : SFadd prec emax x y = SFadd prec emax y x.
Proof.
  destruct x as [sx|sx| |sx mx ex], y as [sy|sy| |sy my ey]; simpl; try reflexivity;
    try (destruct sx, sy; reflexivity).
  rewrite (Z.min_comm ey ex), Z.add_comm. reflexivity.
Qed.

Lemma SFmul_comm prec emax x y : SFmul prec emax x y = SFmul prec emax y x.
Proof.
  destruct x as [sx|sx| |sx mx ex], y as [sy|sy| |sy my ey]; simpl; try reflexivity;
    try (destruct sx, sy; reflexivity).
  rewrite (xorb_comm sy sx), (Pos.mul_comm my mx), (Z.add_comm ey ex). reflexivity.
Qed.

Lemma float_add_comm (x y : float) : (x + y = y + x)%float.
Proof. apply Prim2SF_inj. rewrite !add_spec. apply SFadd_comm. Qed.

Lemma float_mul_comm (x y : float) : (x * y = y * x)%float.
Proof. apply Prim2SF_inj. rewrite !mul_spec. apply SFmul_comm. Qed.

Lemma SFcompare_antisym x y :
  SFcompare y x = option_map CompOpp (SFcompare x y).
Proof.
  destruct x as [sx|sx| |sx mx ex], y as [sy|sy| |sy my ey]; simpl; try reflexivity;
    try (destruct sx; reflexivity); try (destruct sy; reflexivity);
    try (destruct sx, sy; reflexivity).
  f_equal. rewrite (Z.compare_antisym ex ey).
  change (PosDef.Pos.compare_cont Eq my mx) with (Pos.compare my mx).
  change (PosDef.Pos.compare_cont Eq mx my) with (Pos.compare mx my).
  rewrite (Pos.compare_antisym mx my).
  destruct sx, sy, (ex ?= ey), (mx ?= my)%positive; reflexivity.
Qed.

Lemma not_nan_compare x y :
  PrimFloat.is_nan x = false -> PrimFloat.is_nan y = false ->
  exists c, SFcompare (Prim2SF x) (Prim2SF y) = Some c.
Proof.
  unfold PrimFloat.is_nan. intros Hx Hy.
  apply negb_false_iff in Hx. apply negb_false_iff in Hy.
  rewrite FloatAxioms.eqb_spec in Hx. rewrite FloatAxioms.eqb_spec in Hy.
  unfold SFeqb in *.
  destruct (Prim2SF x) as [sx|sx| |sx mx ex], (Prim2SF y) as [sy|sy| |sy my ey];
    simpl in *; try discriminate; eauto.
Qed.

(** For numbers, "not below" is "at least". *)
Lemma float_leb_negb_ltb (x y : float) :
  PrimFloat.is_nan x = false -> PrimFloat.is_nan y = false ->
  PrimFloat.leb y x = negb (PrimFloat.ltb x y).
Proof.
  intros Hx Hy. rewrite leb_spec, ltb_spec. unfold SFleb, SFltb.
  rewrite (SFcompare_antisym (Prim2SF x) (Prim2SF y)).
  destruct (not_nan_compare x y Hx Hy) as [c ->]. destruct c; reflexivity.
Qed.

Lemma is_open_not_closed ear :
  PrimFloat.is_nan ear = false -> Spec.is_open ear = negb (Spec.is_closed ear).
Proof. intros H. apply float_leb_negb_ltb; [exact H | reflexivity]. Qed.

(** ** The bounded window *)

Lemma deque_append_items {A} (d : deque A) (x : A) n :
  maxlen d = Some n ->
  items (deque_append d x) = drop (length (items d ++ [x]) - n) (items d ++ [x])
  /\ maxlen (deque_append d x) = Some n.
Proof. intros H. unfold deque_append. rewrite H. split; reflexivity. Qed.

(** Appending samples one by one to an empty window of capacity [n] keeps
    the last [n] of them, in the order they came. *)
Lemma deque_extend {A} (n : nat) (samples : list A) :
  let d := fold_left deque_append samples (deque_new (Some n)) in
  maxlen d = Some n /\ items d = drop (length samples - n) samples.
Proof.
  induction samples as [|x l IH] using rev_ind; simpl.
  - split; reflexivity.
  - rewrite fold_left_app. simpl. destruct IH as [Hm Hi].
    destruct (deque_append_items _ x n Hm) as [-> ->]. split; [reflexivity|].
    rewrite Hi. clear Hm Hi. rewrite !length_app, length_drop. simpl.
    rewrite <- (drop_app_le l [x] (length l - n)) by lia.
    rewrite drop_drop. f_equal. lia.
Qed.

Lemma deque_extend_length {A} (n : nat) (samples : list A) :
  length (items (fold_left deque_append samples (deque_new (Some n))))
  = Nat.min (length samples) n.
Proof.
  destruct (deque_extend n samples) as [_ ->]. rewrite length_drop. lia.
Qed.

(** ** The methods of the tracker on well-formed frames *)

Section TrackerFacts.
Context (L : Lib).
Import LivenessChecker.

Lemma is_bgr_inv a :
  is_bgr a = true -> is_empty a = false /\ color_channels a = true.
Proof.
  unfold is_bgr. intros H. apply andb_true_iff in H as [H1 H2].
  apply negb_true_iff in H1. split; assumption.
Qed.

Lemma color_channels_ndim a : color_channels a = true -> ndim a = 3%nat.
Proof.
  unfold color_channels, ndim.
  destruct (shape a) as [|h [|w [|c [|? ?]]]]; simpl; congruence.
Qed.

Lemma cvtColor_BGR2GRAY_bgr a :
  is_bgr a = true -> cvtColor_BGR2GRAY L a = Return (gray_of L a).
Proof.
  intros H. destruct (is_bgr_inv a H) as [He Hc].
  unfold cvtColor_BGR2GRAY, gray_of.
  rewrite He, Hc, (color_channels_ndim a Hc). reflexivity.
Qed.

Lemma eye_aspect_ratio_returns (p0 p1 p2 p3 p4 p5 : Z * Z) self :
  exists ear, eye_aspect_ratio [p0; p1; p2; p3; p4; p5] self = Return (ear, self).
Proof.
  unfold eye_aspect_ratio, mbind, lift, point, mret. simpl.
  eexists. reflexivity.
Qed.

(** With the predictor loaded and a face found, the frame is classified
    by its eye aspect ratio against the threshold. *)
Lemma detect_blink_face frame self predict face faces :
  predictor self = Some predict ->
  is_bgr frame = true ->
  detector self (gray_of L frame) = face :: faces ->
  exists ear, detect_blink L frame self = Return ((Spec.is_closed ear, ear), self).
Proof.
  intros Hp Hf Hd. unfold detect_blink, mbind, get_self. rewrite Hp.
  unfold lift. rewrite (cvtColor_BGR2GRAY_bgr frame Hf), Hd.
  unfold get_eye_regions, mret. simpl fst. simpl snd.
  match goal with
  | |- context [eye_aspect_ratio [?a; ?b; ?c; ?d; ?e; ?f] self] =>
    destruct (eye_aspect_ratio_returns a b c d e f self) as [left_ear ->]
  end.
  match goal with
  | |- context [eye_aspect_ratio [?a; ?b; ?c; ?d; ?e; ?f] self] =>
    destruct (eye_aspect_ratio_returns a b c d e f self) as [right_ear ->]
  end.
  eexists. reflexivity.
Qed.

Lemma detect_blink_returns frame self :
  is_bgr frame = true ->
  exists r, detect_blink L frame self = Return (r, self).
Proof.
  intros Hf. unfold detect_blink, mbind, get_self.
  destruct (predictor self) as [predict|]; [|eexists; reflexivity].
  unfold lift. rewrite (cvtColor_BGR2GRAY_bgr frame Hf).
  destruct (detector self (gray_of L frame)) as [|face faces] eqn:Hd;
    [eexists; reflexivity|].
  unfold get_eye_regions, mret. simpl fst. simpl snd.
  match goal with
  | |- context [eye_aspect_ratio [?a; ?b; ?c; ?d; ?e; ?f] self] =>
    destruct (eye_aspect_ratio_returns a b c d e f self) as [left_ear ->]
  end.
  match goal with
  | |- context [eye_aspect_ratio [?a; ?b; ?c; ?d; ?e; ?f] self] =>
    destruct (eye_aspect_ratio_returns a b c d e f self) as [right_ear ->]
  end.
  eexists. reflexivity.
Qed.

Lemma pending_closed cc ear ears :
  0 <= cc -> Spec.is_closed ear = true ->
  (pending cc (ear :: ears) + Spec.blink_events_from (0 <? cc)%Z (ear :: ears)
   = pending (cc + 1)%Z ears + Spec.blink_events_from true ears)%nat.
Proof.
  intros Hcc Hc. unfold pending. simpl. rewrite Hc. simpl.
  replace (0 <? cc + 1) with true by (symmetry; apply Z.ltb_lt; lia).
  replace (cc + Z.of_nat (S (Spec.closed_run ears)))
    with (cc + 1 + Z.of_nat (Spec.closed_run ears)) by lia.
  destruct (Z.ltb_spec 0 cc) as [Hpos|Hz]; simpl.
  - reflexivity.
  - assert (cc = 0) as -> by lia.
    destruct (Spec.closed_run ears) as [|[|n]]; try reflexivity.
    destruct (Z.leb_spec 3 (0 + 1 + Z.of_nat (S (S n)))); [reflexivity | lia].
Qed.

Lemma pending_open cc ear ears :
  0 <= cc -> Spec.is_closed ear = false -> Spec.is_open ear = true ->
  (pending cc (ear :: ears) + Spec.blink_events_from (0 <? cc)%Z (ear :: ears)
   = (if (3 <=? cc)%Z then 1 else 0) + Spec.blink_events_from false ears)%nat.
Proof.
  intros Hcc Hc Ho. unfold pending. simpl. rewrite Hc. simpl. rewrite Ho.
  rewrite andb_false_r, andb_true_r, Z.add_0_r. simpl.
  destruct (Z.leb_spec 3 cc), (Z.ltb_spec 0 cc); simpl; lia.
Qed.

Lemma count_blinks_loop_spec self frames ears :
  Forall2 (fun frame ear =>
             detect_blink L frame self = Return ((Spec.is_closed ear, ear), self))
          frames ears ->
  Forall (fun ear => PrimFloat.is_nan ear = false) ears ->
  forall blink_count consecutive_closed,
    0 <= consecutive_closed ->
    count_blinks_loop L frames blink_count consecutive_closed self
    = Return (blink_count
              + Z.of_nat (pending consecutive_closed ears
                          + Spec.blink_events_from (0 <? consecutive_closed) ears),
              self).
Proof.
  induction 1 as [|frame ear frames ears Hd _ IH]; intros Hnan bc cc Hcc.
  - simpl. unfold mret, pending. simpl. rewrite andb_false_r, Z.add_0_r. reflexivity.
  - apply Forall_cons in Hnan as [Hear Hnan].
    simpl count_blinks_loop. unfold mbind at 1. rewrite Hd.
    destruct (Spec.is_closed ear) eqn:Hc; cbn [fst].
    + rewrite (IH Hnan bc (cc + 1)) by lia.
      rewrite (pending_closed cc ear ears Hcc Hc).
      replace (0 <? cc + 1) with true by (symmetry; apply Z.ltb_lt; lia).
      reflexivity.
    + rewrite (IH Hnan _ 0) by lia.
      assert (Ho : Spec.is_open ear = true)
        by (rewrite (is_open_not_closed ear Hear), Hc; reflexivity).
      rewrite (pending_open cc ear ears Hcc Hc Ho).
      unfold EAR_CONSEC_FRAMES, pending. simpl.
      change (0 <? 0) with false.
      f_equal. f_equal. destruct (3 <=? cc); lia.
Qed.

End TrackerFacts.

Section TrackerClaims.
Context (L : Lib).
Import LivenessChecker.

Lemma count_blinks_loop_returns self frames :
  Forall (fun frame => is_bgr frame = true) frames ->
  forall blink_count consecutive_closed,
    exists n, count_blinks_loop L frames blink_count consecutive_closed self
              = Return (n, self).
Proof.
  induction 1 as [|frame frames Hf _ IH]; intros bc cc.
  - eexists. reflexivity.
  - simpl. unfold mbind at 1.
    destruct (detect_blink_returns L frame self Hf) as [[b ear] ->].
    destruct b; cbn [fst]; apply IH.
Qed.

(** With the predictor loaded, frames that all show a face have an eye
    aspect ratio each, and are classified by it. *)
Lemma frames_with_faces_classified self predict frames :
  predictor self = Some predict ->
  Forall (fun frame => is_bgr frame = true
                       /\ detector self (gray_of L frame) <> []) frames ->
  exists ears,
    Forall2 (fun frame ear =>
               detect_blink L frame self = Return ((Spec.is_closed ear, ear), self))
            frames ears.
Proof.
  intros Hp. induction 1 as [|frame frames [Hf Hd] _ [ears IH]].
  - exists []. constructor.
  - destruct (detector self (gray_of L frame)) as [|face faces] eqn:Hfaces;
      [contradiction|].
    destruct (detect_blink_face L frame self predict face faces Hp Hf Hfaces)
      as [ear Hear].
    exists (ear :: ears). constructor; assumption.
Qed.

End TrackerClaims.

Example window_keeps_last_100 :
  items (fold_left deque_append (seq 0 150) (deque_new (Some 100%nat))) = seq 50 100.
Proof. reflexivity. Qed.

Example blink_events_two_runs :
  Spec.blink_events [0.3; 0.1; 0.1; 0.1; 0.3; 0.2; 0.2; 0.2; 0.2; 0.25; 0.1]%float
  = 2%nat.
Proof. reflexivity. Qed.

Example blink_events_unfinished_run :
  Spec.blink_events [0.3; 0.1; 0.1; 0.1; 0.1]%float = 0%nat.
Proof. reflexivity. Qed.

Example count_blinks_unfinished_run :
  value_of (LivenessChecker.count_blinks Stub.lib (frames_of_levels [3; 1; 1; 1; 1])
              (LivenessChecker.init Stub.lib)) = Some 0.
Proof. vm_compute. reflexivity. Qed.

(** A frame without a face ends a run of closed frames like an open one. *)
Example count_blinks_faceless_frame :
  value_of (LivenessChecker.count_blinks Stub.lib (frames_of_levels [1; 1; 1; 0])
              (LivenessChecker.init Stub.lib)) = Some 1.
Proof. vm_compute. reflexivity. Qed.

(** C1 (as amended).  The window of the tracker is a deque of capacity 100,
    created empty: samples appended to it are kept up to the 100 most
    recent, in the order they came, the oldest dropped first.  But
    [count_blinks] appends nothing: over any sequence of well-formed frames
    it returns and leaves the tracker, its window included, as it was. *)
Theorem count_blinks_leaves_window (L : Lib) (self : LivenessChecker.t)
    (frames : list ndarray) (samples : list float) :
  Forall (fun frame => is_bgr frame = true) frames ->
  (exists n, LivenessChecker.count_blinks L frames self = Return (n, self))
  /\ LivenessChecker.blink_history (LivenessChecker.init L) = deque_new (Some 100%nat)
  /\ (let window :=
        fold_left deque_append samples
                  (LivenessChecker.blink_history (LivenessChecker.init L)) in
      items window = drop (length samples - 100) samples
      /\ length (items window) = Nat.min (length samples) 100).
Proof.
  intros Hf. split; [|split].
  - apply (count_blinks_loop_returns L self frames Hf).
  - reflexivity.
  - simpl. split.
    + apply (deque_extend 100 samples).
    + apply (deque_extend_length 100 samples).
Qed.

Lemma count_blinks_leaves_window_witness :
  (exists n, LivenessChecker.count_blinks Stub.lib (frames_of_levels (repeat 3 150))
               (LivenessChecker.init Stub.lib)
             = Return (n, LivenessChecker.init Stub.lib))
  /\ length (items (fold_left deque_append (repeat 0.3%float 150)
                      (LivenessChecker.blink_history (LivenessChecker.init Stub.lib))))
     = 100%nat.
Proof.
  destruct (count_blinks_leaves_window Stub.lib (LivenessChecker.init Stub.lib)
              (frames_of_levels (repeat 3 150)) (repeat 0.3%float 150)) as [H1 [_ [_ H2]]].
  - apply Forall_forall. intros frame Hin.
    apply list_elem_of_In, in_map_iff in Hin as [v [<- _]]. reflexivity.
  - split; [exact H1 | exact H2].
Defined.

(** After 150 frames the window of a new tracker holds no sample, not 100. *)
Lemma window_empty_after_150_frames :
  window_after
    (LivenessChecker.count_blinks Stub.lib (frames_of_levels (repeat 3 150))
       (LivenessChecker.init Stub.lib)) = Some []
  /\ length (@nil float) <> Nat.min 150 100.
Proof. split; [vm_compute; reflexivity | vm_compute; discriminate]. Qed.

(** The synthetic frames of [Stub]: level 3 is an open eye (0.3), level 1 a
    closed one (0.1). *)
Lemma stub_detect_blink (v : Z) (self : LivenessChecker.t) :
  LivenessChecker.predictor self = Some Stub.landmarks_of ->
  LivenessChecker.detector self = Stub.face_of ->
  (v = 3 ->
   LivenessChecker.detect_blink Stub.lib (Stub.uniform 1 1 v) self
   = Return ((Spec.is_closed 0.3, 0.3%float), self))
  /\ (v = 1 ->
      LivenessChecker.detect_blink Stub.lib (Stub.uniform 1 1 v) self
      = Return ((Spec.is_closed 0.1, 0.1%float), self)).
Proof.
  intros Hp Hd.
  split; intros ->; unfold LivenessChecker.detect_blink, LivenessChecker.mbind,
    LivenessChecker.get_self; rewrite Hp; unfold LivenessChecker.lift;
    (rewrite cvtColor_BGR2GRAY_bgr by reflexivity); rewrite Hd;
    vm_compute; reflexivity.
Qed.

(** C3.  On frames whose eye aspect ratios are [ears], each classified
    against the threshold 0.25, [count_blinks] returns the number of maximal
    closed runs of length at least 3 that an open frame follows; the
    sequence 5 x 0.3, 4 x 0.1, 5 x 0.3 gives one blink, and with 2 x 0.1 in
    the middle none.  The ratios are numbers: the quotient 0/0 of an eye
    whose landmarks all coincide is none. *)
Theorem count_blinks_hysteresis (L : Lib) (self : LivenessChecker.t)
    (frames : list ndarray) (ears : list float) :
  Forall2 (fun frame ear =>
             LivenessChecker.detect_blink L frame self
             = Return ((Spec.is_closed ear, ear), self))
          frames ears ->
  Forall (fun ear => PrimFloat.is_nan ear = false) ears ->
  LivenessChecker.count_blinks L frames self
  = Return (Z.of_nat (Spec.blink_events ears), self)
  /\ (ears = repeat 0.3%float 5 ++ repeat 0.1%float 4 ++ repeat 0.3%float 5 ->
      LivenessChecker.count_blinks L frames self = Return (1, self))
  /\ (ears = repeat 0.3%float 5 ++ repeat 0.1%float 2 ++ repeat 0.3%float 5 ->
      LivenessChecker.count_blinks L frames self = Return (0, self)).
Proof.
  intros Hd Hnan.
  assert (H : LivenessChecker.count_blinks L frames self
              = Return (Z.of_nat (Spec.blink_events ears), self)).
  { unfold LivenessChecker.count_blinks.
    rewrite (count_blinks_loop_spec L self frames ears Hd Hnan 0 0) by lia.
    reflexivity. }
  split; [exact H|]. split; intros ->; rewrite H; reflexivity.
Qed.

Lemma count_blinks_hysteresis_witness :
  LivenessChecker.count_blinks Stub.lib
    (frames_of_levels [3; 3; 3; 3; 3; 1; 1; 1; 1; 3; 3; 3; 3; 3])
    (LivenessChecker.init Stub.lib)
  = Return (1, LivenessChecker.init Stub.lib).
Proof.
  refine (proj1 (proj2 (count_blinks_hysteresis Stub.lib (LivenessChecker.init Stub.lib)
            (frames_of_levels [3; 3; 3; 3; 3; 1; 1; 1; 1; 3; 3; 3; 3; 3])
            (repeat 0.3%float 5 ++ repeat 0.1%float 4 ++ repeat 0.3%float 5) _ _))
          eq_refl).
  - repeat (constructor;
      [first [ apply (stub_detect_blink 3); reflexivity
             | apply (stub_detect_blink 1); reflexivity ] |]).
    constructor.
  - repeat (constructor; [reflexivity|]). constructor.
Defined.

(** ** The quality gate and the liveness check *)

(** Looking a key up in a dict built by successive stores. *)
Ltac dict_lookup :=
  repeat first [ rewrite lookup_insert_eq
               | rewrite lookup_insert_ne by discriminate
               | rewrite lookup_empty ];
  try reflexivity.

Section LivenessFacts.
Context (L : Lib).
Import LivenessChecker.

Lemma nd_size_take2 s :
  fold_right Nat.mul 1%nat s <> 0%nat ->
  fold_right Nat.mul 1%nat (take 2 s) <> 0%nat.
Proof.
  destruct s as [|h [|w r]]; simpl; lia.
Qed.

Lemma gray_of_nonempty image :
  is_image image = true -> is_empty (gray_of L image) = false.
Proof.
  unfold is_image, gray_of. intros H. apply andb_true_iff in H as [He Hs].
  apply negb_true_iff in He.
  destruct (Nat.eqb (ndim image) 3); [|exact He].
  unfold is_empty, nd_size in *. simpl.
  apply Nat.eqb_neq. apply nd_size_take2. apply Nat.eqb_neq. exact He.
Qed.

Lemma is_bgr_is_image image : is_bgr image = true -> is_image image = true.
Proof.
  unfold is_bgr, is_image. intros H. apply andb_true_iff in H as [-> ->].
  rewrite orb_true_r. reflexivity.
Qed.

Lemma to_gray_image image :
  is_image image = true ->
  (if Nat.eqb (ndim image) 3 then cvtColor_BGR2GRAY L image else Return image)
  = Return (gray_of L image).
Proof.
  intros H. unfold gray_of. destruct (Nat.eqb (ndim image) 3) eqn:Hn; [|reflexivity].
  unfold is_image in H. apply andb_true_iff in H as [He Hs].
  apply negb_true_iff in He. apply Nat.eqb_eq in Hn.
  unfold cvtColor_BGR2GRAY. rewrite He.
  destruct (color_channels image) eqn:Hc; [reflexivity|].
  rewrite orb_false_r in Hs. apply Nat.eqb_eq in Hs. congruence.
Qed.

Lemma Laplacian_nonempty gray :
  is_empty gray = false -> Laplacian L gray = Return (laplacian_of L gray).
Proof. intros H. unfold Laplacian. rewrite H. reflexivity. Qed.

(** The dict of [check_image_quality] on a well-formed image. *)
Lemma check_image_quality_image image :
  is_image image = true ->
  let gray := gray_of L image in
  let brightness := np_mean L gray in
  let blur_score := np_var L (laplacian_of L gray) in
  let contrast := np_std L gray in
  check_image_quality L image =
  Return (<["brightness" := PyFloat brightness]>
         (<["blur_score" := PyFloat blur_score]>
         (<["contrast" := PyFloat contrast]>
         (<["is_bright_enough" := PyBool (PrimFloat.ltb 50 brightness)]>
         (<["is_sharp_enough" := PyBool (PrimFloat.ltb 100 blur_score)]>
         (<["has_good_contrast" := PyBool (PrimFloat.ltb 30 contrast)]> ∅)))))).
Proof.
  intros H. unfold check_image_quality.
  rewrite (to_gray_image image H). simpl bind.
  rewrite (Laplacian_nonempty _ (gray_of_nonempty image H)). reflexivity.
Qed.

Lemma check_image_quality_empty image :
  is_empty image = true -> check_image_quality L image = Raise Cv2Error.
Proof.
  intros H. unfold check_image_quality.
  destruct (Nat.eqb (ndim image) 3).
  - unfold cvtColor_BGR2GRAY. rewrite H. reflexivity.
  - simpl. unfold Laplacian. rewrite H. reflexivity.
Qed.

Lemma py_min_100 (x : float) :
  to_float (py_min (PyI 100) (PyF x)) = Spec.min100 x.
Proof.
  unfold Spec.min100, py_min, py_lt. simpl to_float.
  change (float_of_Z 100) with 100%float.
  destruct (PrimFloat.ltb x 100); reflexivity.
Qed.

(** The dict of [passive_liveness_check] on a colour image. *)
Lemma passive_liveness_check_bgr image self :
  is_bgr image = true ->
  let t := texture_energy L image in
  let c := color_variance L image in
  let h := high_freq_energy L image in
  passive_liveness_check L image self =
  Return (<["is_live" := PyBool (Spec.is_live t c h)]>
         (<["confidence" := PyFloat (Spec.confidence t c h)]>
         (<["texture_score" := PyFloat t]>
         (<["color_variance" := PyFloat c]>
         (<["high_freq_score" := PyFloat h]> ∅)))), self).
Proof.
  intros H. unfold passive_liveness_check, mbind, lift.
  rewrite (cvtColor_BGR2GRAY_bgr L image H).
  rewrite (Laplacian_nonempty _ (gray_of_nonempty image (is_bgr_is_image image H))).
  unfold mret. rewrite py_min_100. reflexivity.
Qed.

Lemma face_positions_loop_returns self frames :
  Forall (fun frame => is_bgr frame = true) frames ->
  forall acc, exists ps, face_positions_loop L frames acc self = Return (ps, self).
Proof.
  induction 1 as [|frame frames Hf _ IH]; intros acc.
  - eexists. reflexivity.
  - simpl. unfold mbind, get_self, lift.
    rewrite (cvtColor_BGR2GRAY_bgr L frame Hf).
    destruct (detector self (gray_of L frame)); apply IH.
Qed.

Lemma check_head_movement_returns self frames :
  Forall (fun frame => is_bgr frame = true) frames ->
  exists b, check_head_movement L frames self = Return (b, self).
Proof.
  intros Hf. unfold check_head_movement.
  destruct (Z.of_nat (length frames) <? 5); [eexists; reflexivity|].
  unfold mbind. destruct (face_positions_loop_returns self frames Hf []) as [ps ->].
  destruct (Z.of_nat (length ps) <? 5); eexists; reflexivity.
Qed.

(** The arithmetic of the fused score, on Python numbers and on floats. *)
Lemma fused_score_numbers (blink_count : Z) (head_movement : bool) (passive : float) :
  py_truediv (PyI blink_count) (PyI 2)
  = Return (PyF (float_of_Z blink_count / 2))
  /\ py_truediv
       (py_add (py_add (py_min (PyI 100)
                               (py_mul (PyF (float_of_Z blink_count / 2)) (PyI 50)))
                       (if head_movement then PyI 50 else PyI 0))
               (PyF passive))
       (PyI 3)
     = Return (PyF (Spec.fused_score blink_count head_movement passive)).
Proof.
  split; [reflexivity|].
  unfold Spec.fused_score, Spec.blink_score, Spec.min100, Spec.movement_score.
  unfold py_min, py_lt, py_mul. simpl to_float.
  change (float_of_Z 50) with 50%float. change (float_of_Z 100) with 100%float.
  destruct (PrimFloat.ltb (float_of_Z blink_count / 2 * 50) 100), head_movement;
    reflexivity.
Qed.

End LivenessFacts.

Section LivenessResults.
Context (L : Lib) (cfg : Config).
Import LivenessChecker.

(** The result of [check_liveness] when only an image is supplied. *)
Lemma check_liveness_single image self :
  is_bgr image = true ->
  exists d q p,
    check_liveness L cfg image None self = Return (d, self)
    /\ check_image_quality L image = Return q
    /\ passive_liveness_check L image self = Return (p, self)
    /\ d !! "quality_checks" = Some (PyDict q)
    /\ d !! "passive_liveness" = Some (PyDict p)
    /\ d !! "liveness_score" = Some (PyFloat (dict_float p "confidence"))
    /\ d !! "passed" = Some (PyBool (dict_bool p "is_live"))
    /\ d !! "success" = None /\ d !! "error" = None.
Proof.
  intros H. unfold check_liveness, mbind, lift.
  rewrite (check_image_quality_image L image (is_bgr_is_image image H)).
  rewrite (passive_liveness_check_bgr L image self H). unfold mret.
  eexists. eexists. eexists.
  split; [reflexivity|]. split; [reflexivity|]. split; [reflexivity|].
  repeat split; dict_lookup.
Qed.

End LivenessResults.

(** C7 (as amended).  On every well-formed image [check_image_quality]
    returns the mean of the gray image as brightness, the variance of its
    Laplacian as blur score and its standard deviation as contrast, with the
    flags brightness > 50, blur score > 100 and contrast > 30, and reports
    no error.  On an empty image it returns nothing: the assertion of OpenCV
    fails and the exception leaves the function. *)
Theorem check_image_quality_metrics (L : Lib) (image : ndarray) :
  (is_image image = true ->
   let gray := gray_of L image in
   let brightness := np_mean L gray in
   let blur_score := np_var L (laplacian_of L gray) in
   let contrast := np_std L gray in
   exists d,
     check_image_quality L image = Return d
     /\ d !! "brightness" = Some (PyFloat brightness)
     /\ d !! "blur_score" = Some (PyFloat blur_score)
     /\ d !! "contrast" = Some (PyFloat contrast)
     /\ d !! "is_bright_enough" = Some (PyBool (PrimFloat.ltb 50 brightness))
     /\ d !! "is_sharp_enough" = Some (PyBool (PrimFloat.ltb 100 blur_score))
     /\ d !! "has_good_contrast" = Some (PyBool (PrimFloat.ltb 30 contrast))
     /\ ~ is_error_result d)
  /\ (is_empty image = true -> check_image_quality L image = Raise Cv2Error).
Proof.
  split.
  - intros H. simpl. eexists.
    split; [apply (check_image_quality_image L image H)|].
    repeat split; dict_lookup.
    intros [He|[v He]]; revert He; dict_lookup; discriminate.
  - apply check_image_quality_empty.
Qed.

Lemma check_image_quality_metrics_witness :
  (exists d, check_image_quality Stub.lib (Stub.uniform 2 2 128) = Return d
             /\ d !! "brightness" = Some (PyFloat 128)
             /\ d !! "is_bright_enough" = Some (PyBool true))
  /\ check_image_quality Stub.lib empty_image = Raise Cv2Error.
Proof.
  split.
  - destruct (proj1 (check_image_quality_metrics Stub.lib (Stub.uniform 2 2 128)) eq_refl)
      as [d [Hd [Hb [_ [_ [Hf _]]]]]].
    exists d. split; [exact Hd|]. split; [exact Hb | exact Hf].
  - exact (proj2 (check_image_quality_metrics Stub.lib empty_image) eq_refl).
Defined.

(** On the empty image the quality gate raises; it returns no error value. *)
Lemma check_image_quality_empty_raises :
  check_image_quality Stub.lib empty_image = Raise Cv2Error
  /\ ~ (exists d, check_image_quality Stub.lib empty_image = Return d
                  /\ is_error_result d).
Proof.
  split; [reflexivity|]. intros [d [H _]]. discriminate H.
Qed.

(** C2 (as amended).  [check_liveness] does not ask whether the image shows
    a face.  On every non-empty colour image, also one in which the detector
    finds no face, the call with no frames returns an ordinary result: the
    quality metrics of the image, the passive analysis, its confidence as
    score and its verdict as the pass flag, and no error entry. *)
Theorem check_liveness_ignores_faces (L : Lib) (cfg : Config) (image : ndarray)
    (self : LivenessChecker.t) :
  is_bgr image = true ->
  exists d q p,
    LivenessChecker.check_liveness L cfg image None self = Return (d, self)
    /\ check_image_quality L image = Return q
    /\ LivenessChecker.passive_liveness_check L image self = Return (p, self)
    /\ d !! "quality_checks" = Some (PyDict q)
    /\ d !! "passive_liveness" = Some (PyDict p)
    /\ d !! "liveness_score" = Some (PyFloat (LivenessChecker.dict_float p "confidence"))
    /\ d !! "passed" = Some (PyBool (LivenessChecker.dict_bool p "is_live"))
    /\ ~ is_error_result d.
Proof.
  intros H.
  destruct (check_liveness_single L cfg image self H)
    as [d [q [p [Hd [Hq [Hp [H1 [H2 [H3 [H4 [H5 H6]]]]]]]]]]].
  exists d, q, p. repeat (split; [assumption|]).
  intros [He|[v He]]; congruence.
Qed.

Lemma check_liveness_ignores_faces_witness :
  LivenessChecker.detector (LivenessChecker.init Stub.lib) (gray_of Stub.lib faceless) = []
  /\ exists d,
       LivenessChecker.check_liveness Stub.lib default_config faceless None
         (LivenessChecker.init Stub.lib)
       = Return (d, LivenessChecker.init Stub.lib)
       /\ ~ is_error_result d.
Proof.
  split; [vm_compute; reflexivity|].
  destruct (check_liveness_ignores_faces Stub.lib default_config faceless
              (LivenessChecker.init Stub.lib) eq_refl)
    as [d [q [p [Hd [_ [_ [_ [_ [_ [_ He]]]]]]]]]].
  exists d. split; [exact Hd | exact He].
Defined.

(** An image without a face passes the liveness check: the result is the
    ordinary one, with the pass flag set and no error. *)
Lemma faceless_image_passes :
  frontal_face_detector Stub.lib (gray_of Stub.lib faceless) = []
  /\ let r := value_of (LivenessChecker.check_liveness Stub.lib default_config
                          faceless None (LivenessChecker.init Stub.lib)) in
     entry "passed" r = Some (PyBool true)
     /\ entry "success" r = None
     /\ entry "error" r = None.
Proof. vm_compute. repeat split. Qed.

Section FusionFacts.
Context (L : Lib).
Import LivenessChecker.

(** The result of [check_liveness] on two frames or more, with the
    default settings. *)
Lemma check_liveness_multi image frames self :
  is_bgr image = true ->
  Forall (fun frame => is_bgr frame = true) frames ->
  (2 <= length frames)%nat ->
  exists d blink_count head_movement p,
    check_liveness L default_config image (Some frames) self = Return (d, self)
    /\ count_blinks L frames self = Return (blink_count, self)
    /\ check_head_movement L frames self = Return (head_movement, self)
    /\ passive_liveness_check L image self = Return (p, self)
    /\ d !! "blink_count" = Some (PyInt blink_count)
    /\ d !! "head_movement_detected" = Some (PyBool head_movement)
    /\ d !! "passive_liveness" = Some (PyDict p)
    /\ d !! "liveness_score"
       = Some (PyFloat (Spec.fused_score blink_count head_movement
                          (dict_float p "confidence")))
    /\ d !! "passed"
       = Some (PyBool (PrimFloat.ltb 50
                         (Spec.fused_score blink_count head_movement
                            (dict_float p "confidence")))).
Proof.
  intros H Hf Hlen.
  destruct (count_blinks_loop_returns L self frames Hf 0 0) as [bc Hbc].
  destruct (check_head_movement_returns L self frames Hf) as [hm Hhm].
  unfold check_liveness, mbind, lift.
  rewrite (check_image_quality_image L image (is_bgr_is_image image H)).
  rewrite (passive_liveness_check_bgr L image self H).
  replace (1 <? Z.of_nat (length frames)) with true
    by (symmetry; apply Z.ltb_lt; lia).
  unfold count_blinks in *. rewrite Hbc, Hhm.
  change (BLINK_THRESHOLD default_config) with 2.
  match goal with
  | |- context [PyF (dict_float ?p "confidence")] =>
    destruct (fused_score_numbers bc hm (dict_float p "confidence")) as [-> ->]
  end.
  unfold mret. simpl to_float.
  eexists. exists bc, hm. eexists.
  split; [reflexivity|]. split; [reflexivity|]. split; [reflexivity|].
  split; [reflexivity|].
  repeat split; dict_lookup.
Qed.

End FusionFacts.

(** C4.  Given two frames or more, with the default blink threshold 2,
    [check_liveness] returns a result whose score is
    (blinkScore + movementScore + passiveScore) / 3, where
    blinkScore = min(100, (blinkCount / 2) * 50), movementScore is 50 when
    head movement was detected and 0 otherwise, the blink count and the
    movement flag being those the result reports and passiveScore the
    confidence of its passive analysis; and it passes exactly when that
    score is above 50. *)
Theorem check_liveness_fusion (L : Lib) (image : ndarray) (frames : list ndarray)
    (self : LivenessChecker.t) :
  is_bgr image = true ->
  Forall (fun frame => is_bgr frame = true) frames ->
  (2 <= length frames)%nat ->
  exists d blink_count head_movement p passive_score fused passed,
    LivenessChecker.check_liveness L default_config image (Some frames) self
    = Return (d, self)
    /\ LivenessChecker.count_blinks L frames self = Return (blink_count, self)
    /\ LivenessChecker.check_head_movement L frames self = Return (head_movement, self)
    /\ d !! "blink_count" = Some (PyInt blink_count)
    /\ d !! "head_movement_detected" = Some (PyBool head_movement)
    /\ d !! "passive_liveness" = Some (PyDict p)
    /\ p !! "confidence" = Some (PyFloat passive_score)
    /\ d !! "liveness_score" = Some (PyFloat fused)
    /\ d !! "passed" = Some (PyBool passed)
    /\ fused = ((Spec.min100 (float_of_Z blink_count / 2 * 50)
                 + (if head_movement then 50 else 0) + passive_score) / 3)%float
    /\ (passed = true <-> PrimFloat.ltb 50 fused = true).
Proof.
  intros H Hf Hlen.
  destruct (check_liveness_multi L image frames self H Hf Hlen)
    as [d [bc [hm [p [Hd [Hbc [Hhm [Hp [H1 [H2 [H3 [H4 H5]]]]]]]]]]]].
  rewrite (passive_liveness_check_bgr L image self H) in Hp.
  injection Hp as <-.
  eexists d, bc, hm, _, _, _, _.
  split; [exact Hd|]. split; [exact Hbc|]. split; [exact Hhm|].
  split; [exact H1|]. split; [exact H2|]. split; [exact H3|].
  split; [dict_lookup|]. split; [exact H4|]. split; [exact H5|].
  split; [reflexivity|]. reflexivity.
Qed.

Lemma check_liveness_fusion_witness :
  exists d fused,
    LivenessChecker.check_liveness Stub.lib default_config (Stub.uniform 4 4 128)
      (Some (frames_of_levels [3; 3; 3; 3; 3; 1; 1; 1; 1; 3; 3; 3; 3; 3]))
      (LivenessChecker.init Stub.lib)
    = Return (d, LivenessChecker.init Stub.lib)
    /\ d !! "liveness_score" = Some (PyFloat fused)
    /\ d !! "passed" = Some (PyBool (PrimFloat.ltb 50 fused)).
Proof.
  destruct (check_liveness_fusion Stub.lib (Stub.uniform 4 4 128)
              (frames_of_levels [3; 3; 3; 3; 3; 1; 1; 1; 1; 3; 3; 3; 3; 3])
              (LivenessChecker.init Stub.lib))
    as [d [bc [hm [p [ps [fused [passed [Hd [_ [_ [_ [_ [_ [_ [Hs [Hp [_ Hiff]]]]]]]]]]]]]]]]].
  - reflexivity.
  - repeat (constructor; [reflexivity|]). constructor.
  - simpl. lia.
  - exists d, fused. split; [exact Hd|]. split; [exact Hs|].
    rewrite Hp. f_equal. f_equal.
    destruct passed, (PrimFloat.ltb 50 fused); try reflexivity.
    + symmetry. apply Hiff. reflexivity.
    + apply Hiff. reflexivity.
Defined.

(** C5.  On every colour image the passive analysis reports the image as
    live exactly when its texture energy is above 50, its colour variance
    above 100 and its high-frequency energy above 10, and reports the
    confidence min(100, (texture/100 + colour/1000 + highFreq/100) * 33.3).
    An image of zero texture energy and zero colour variance, such as a
    uniform gray one, is therefore not live, and [check_liveness] with no
    frames does not pass it. *)
Theorem passive_liveness_decision (L : Lib) (cfg : Config) (image : ndarray)
    (self : LivenessChecker.t) :
  is_bgr image = true ->
  let texture := texture_energy L image in
  let color := color_variance L image in
  let high_freq := high_freq_energy L image in
  exists p is_live,
    LivenessChecker.passive_liveness_check L image self = Return (p, self)
    /\ p !! "texture_score" = Some (PyFloat texture)
    /\ p !! "color_variance" = Some (PyFloat color)
    /\ p !! "high_freq_score" = Some (PyFloat high_freq)
    /\ p !! "is_live" = Some (PyBool is_live)
    /\ (is_live = true <->
        PrimFloat.ltb 50 texture = true
        /\ PrimFloat.ltb 100 color = true
        /\ PrimFloat.ltb 10 high_freq = true)
    /\ p !! "confidence"
       = Some (PyFloat (Spec.min100
                          ((texture / 100 + color / 1000 + high_freq / 100) * 33.3)%float))
    /\ (texture = 0%float -> color = 0%float ->
        is_live = false
        /\ exists d,
             LivenessChecker.check_liveness L cfg image None self = Return (d, self)
             /\ d !! "passed" = Some (PyBool false)).
Proof.
  intros H texture color high_freq.
  exists (<["is_live" := PyBool (Spec.is_live texture color high_freq)]>
         (<["confidence" := PyFloat (Spec.confidence texture color high_freq)]>
         (<["texture_score" := PyFloat texture]>
         (<["color_variance" := PyFloat color]>
         (<["high_freq_score" := PyFloat high_freq]> ∅))))),
         (Spec.is_live texture color high_freq).
  split; [apply (passive_liveness_check_bgr L image self H)|].
  split; [dict_lookup|]. split; [dict_lookup|]. split; [dict_lookup|].
  split; [dict_lookup|].
  split.
  { unfold Spec.is_live. rewrite !andb_true_iff. tauto. }
  split; [dict_lookup|].
  intros Ht Hc.
  assert (Hl : Spec.is_live texture color high_freq = false).
  { unfold Spec.is_live. rewrite Ht. reflexivity. }
  split; [exact Hl|].
  destruct (check_liveness_single L cfg image self H)
    as [d [q [p [Hd [_ [Hp [_ [_ [_ [Hpass _]]]]]]]]]].
  exists d. split; [exact Hd|]. rewrite Hpass.
  rewrite (passive_liveness_check_bgr L image self H) in Hp. injection Hp as <-.
  unfold LivenessChecker.dict_bool. dict_lookup.
  fold texture color high_freq. rewrite Hl. reflexivity.
Qed.

Lemma passive_liveness_decision_witness :
  exists d,
    LivenessChecker.check_liveness Stub.lib default_config (Stub.uniform 4 4 128) None
      (LivenessChecker.init Stub.lib)
    = Return (d, LivenessChecker.init Stub.lib)
    /\ d !! "passed" = Some (PyBool false).
Proof.
  destruct (passive_liveness_decision Stub.lib default_config (Stub.uniform 4 4 128)
              (LivenessChecker.init Stub.lib) eq_refl)
    as [p [is_live [_ [_ [_ [_ [_ [_ [_ Hu]]]]]]]]].
  apply Hu; vm_compute; reflexivity.
Defined.

(** ** The face matcher *)

Section MatcherFacts.
Context (L : Lib).
Import FaceMatcher.

Lemma to_rgb_image face :
  is_image face = true ->
  (if Nat.eqb (ndim face) 3 then cvtColor_BGR2RGB L face else Return face)
  = Return (rgb_of L face).
Proof.
  intros H. unfold rgb_of. destruct (Nat.eqb (ndim face) 3) eqn:Hn; [|reflexivity].
  unfold is_image in H. apply andb_true_iff in H as [He Hs].
  apply negb_true_iff in He. apply Nat.eqb_eq in Hn.
  unfold cvtColor_BGR2RGB. rewrite He.
  destruct (color_channels face) eqn:Hc; [reflexivity|].
  rewrite orb_false_r in Hs. apply Nat.eqb_eq in Hs. congruence.
Qed.

Lemma zip_with_comm (f : float -> float -> float) :
  (forall x y, f x y = f y x) ->
  forall l k, zip_with f l k = zip_with f k l.
Proof.
  intros Hf. induction l as [|x l IH]; intros [|y k]; simpl; try reflexivity.
  rewrite (Hf x y), (IH k). reflexivity.
Qed.

Lemma arr_mul_comm a b : shape a = shape b -> arr_mul a b = arr_mul b a.
Proof.
  intros H. unfold arr_mul, arr_map2, reshape_like.
  rewrite H, (zip_with_comm PrimFloat.mul float_mul_comm (data a) (data b)).
  reflexivity.
Qed.

Lemma arr_add_comm a b : shape a = shape b -> arr_add a b = arr_add b a.
Proof.
  intros H. unfold arr_add, arr_map2, reshape_like.
  rewrite H, (zip_with_comm PrimFloat.add float_add_comm (data a) (data b)).
  reflexivity.
Qed.

Lemma GaussianBlur_100 x :
  shape x = [100; 100]%nat ->
  GaussianBlur L x = Return (reshape_like x (gaussian_blur_px L x)).
Proof.
  intros H. unfold GaussianBlur, is_empty, nd_size. rewrite H. reflexivity.
Qed.

(** The structural similarity index does not depend on the order of its
    two images. *)
Lemma _calculate_ssim_sym g1 g2 :
  shape g1 = [100; 100]%nat -> shape g2 = [100; 100]%nat ->
  _calculate_ssim L g1 g2 = _calculate_ssim L g2 g1.
Proof.
  intros H1 H2. unfold _calculate_ssim.
  rewrite !GaussianBlur_100 by assumption. simpl bind.
  rewrite (arr_mul_comm g2 g1) by congruence.
  rewrite (arr_mul_comm (reshape_like g2 (gaussian_blur_px L g2))
                        (reshape_like g1 (gaussian_blur_px L g1)))
    by (simpl; congruence).
  rewrite (arr_add_comm (arr_sq (reshape_like g2 (gaussian_blur_px L g2)))
                        (arr_sq (reshape_like g1 (gaussian_blur_px L g1))))
    by (simpl; congruence).
  rewrite (arr_add_comm
             (arr_sub (reshape_like (arr_sq g2) (gaussian_blur_px L (arr_sq g2)))
                      (arr_sq (reshape_like g2 (gaussian_blur_px L g2))))
             (arr_sub (reshape_like (arr_sq g1) (gaussian_blur_px L (arr_sq g1)))
                      (arr_sq (reshape_like g1 (gaussian_blur_px L g1)))))
    by (simpl; congruence).
  reflexivity.
Qed.

Lemma _calculate_ssim_returns g1 g2 :
  shape g1 = [100; 100]%nat -> shape g2 = [100; 100]%nat ->
  exists ssim, _calculate_ssim L g1 g2 = Return ssim.
Proof.
  intros H1 H2. unfold _calculate_ssim.
  rewrite !GaussianBlur_100 by assumption. eexists. reflexivity.
Qed.

Lemma gray100_cases face :
  gray100 L face = Raise Cv2Error
  \/ exists gray, gray100 L face = Return gray /\ shape gray = [100; 100]%nat.
Proof.
  unfold gray100, resize.
  destruct (is_empty face); [left; reflexivity|].
  destruct (Nat.eqb (ndim face) 2) eqn:H2; simpl.
  - apply Nat.eqb_eq in H2. unfold ndim in *.
    destruct (shape face) as [|h [|w [|c r]]] eqn:Hs; simpl in H2; try discriminate.
    right. unfold ndim. simpl. eexists. split; reflexivity.
  - destruct (Nat.eqb (ndim face) 3) eqn:H3; simpl; [|left; reflexivity].
    apply Nat.eqb_eq in H3. unfold ndim in *.
    destruct (shape face) as [|h [|w [|c [|c' r]]]] eqn:Hs; simpl in H3;
      try discriminate.
    destruct c as [|[|c]]; unfold ndim; simpl.
    + unfold cvtColor_BGR2GRAY.
      match goal with |- context [is_empty ?a] => destruct (is_empty a) end;
        left; reflexivity.
    + right. eexists. split; reflexivity.
    + unfold cvtColor_BGR2GRAY.
      match goal with |- context [is_empty ?a] => destruct (is_empty a) end;
        [left; reflexivity|].
      unfold color_channels. simpl.
      match goal with |- context [if ?b then _ else _] => destruct b end;
        [|left; reflexivity].
      right. eexists. split; reflexivity.
Qed.

Lemma gray100_image face :
  is_image face = true ->
  exists gray, gray100 L face = Return gray /\ shape gray = [100; 100]%nat.
Proof.
  unfold is_image. intros H. apply andb_true_iff in H as [He Hs].
  apply negb_true_iff in He.
  unfold gray100, resize. rewrite He.
  destruct (Nat.eqb (ndim face) 2) eqn:H2; simpl.
  - apply Nat.eqb_eq in H2. unfold ndim in *.
    destruct (shape face) as [|h [|w [|c r]]] eqn:Hsh; simpl in H2; try discriminate.
    unfold ndim. simpl. eexists. split; reflexivity.
  - unfold color_channels, ndim in *.
    destruct (shape face) as [|h [|w [|c [|c' r]]]] eqn:Hsh; simpl in *;
      try discriminate.
    assert (Hc : c = 3%nat \/ c = 4%nat).
    { apply orb_true_iff in Hs as [Hs|Hs]; apply Nat.eqb_eq in Hs; auto. }
    destruct Hc as [-> | ->]; unfold ndim; cbn [mat_channels shape length Nat.eqb];
      unfold cvtColor_BGR2GRAY, color_channels; cbn [shape];
      change (Z.to_nat 100) with 100%nat.
    + assert (Hne : is_empty {| shape := [100; 100; 3]%nat;
                                data := resize_px L face 100 100 |} = false)
        by (vm_compute; reflexivity).
      rewrite Hne. eexists. split; reflexivity.
    + assert (Hne : is_empty {| shape := [100; 100; 4]%nat;
                                data := resize_px L face 100 100 |} = false)
        by (vm_compute; reflexivity).
      rewrite Hne. eexists. split; reflexivity.
Qed.

Lemma resize_raise a dsize e : resize L a dsize = Raise e -> e = Cv2Error.
Proof.
  unfold resize. destruct dsize as [w h].
  destruct (is_empty a); [congruence|].
  destruct (negb _); [congruence|].
  destruct ((w <=? 0) || (h <=? 0)); congruence.
Qed.

Lemma to_gray_raise a e :
  (if Nat.eqb (ndim a) 3 then cvtColor_BGR2GRAY L a else Return a) = Raise e ->
  e = Cv2Error.
Proof.
  destruct (Nat.eqb (ndim a) 3); [|discriminate].
  unfold cvtColor_BGR2GRAY.
  destruct (is_empty a); [congruence|].
  destruct (color_channels a); congruence.
Qed.

Lemma gray100_raise face e : gray100 L face = Raise e -> e = Cv2Error.
Proof.
  intros H. destruct (gray100_cases face) as [H'|[g [H' _]]]; congruence.
Qed.

(** [compare_faces_opencv], with its first four steps grouped by face. *)
Lemma compare_faces_opencv_gray100 self face1 face2 :
  compare_faces_opencv L self face1 face2 =
  bind (gray100 L face1) (fun gray1 =>
  bind (gray100 L face2) (fun gray2 =>
    let similarity := compare_hist_correl L (calcHist L gray1) (calcHist L gray2) in
    bind (_calculate_ssim L gray1 gray2) (fun ssim_score =>
      let combined_score := ((similarity + ssim_score) / 2)%float in
      Return (<["success" := PyBool true]>
             (<["match" := PyBool (PrimFloat.ltb (threshold self) combined_score)]>
             (<["similarity_score" := PyFloat combined_score]>
             (<["confidence" := PyFloat (combined_score * 100)]>
             (<["hist_similarity" := PyFloat similarity]>
             (<["ssim_score" := PyFloat ssim_score]>
             (<["method" := PyStr "opencv"]> ∅))))))))))%py.
Proof.
  unfold compare_faces_opencv, gray100.
  destruct (resize L face1 (100, 100)) as [r1|e1] eqn:Hr1; [|reflexivity].
  destruct (resize L face2 (100, 100)) as [r2|e2] eqn:Hr2; simpl bind.
  - destruct (if Nat.eqb (ndim r1) 3 then cvtColor_BGR2GRAY L r1 else Return r1);
      reflexivity.
  - apply resize_raise in Hr2 as ->.
    destruct (if Nat.eqb (ndim r1) 3 then cvtColor_BGR2GRAY L r1 else Return r1)
      as [g1|e] eqn:Hg1; [reflexivity|].
    apply to_gray_raise in Hg1 as ->. reflexivity.
Qed.

End MatcherFacts.

Lemma stub_correl_sym (h1 h2 : ndarray) : Stub.correl h1 h2 = Stub.correl h2 h1.
Proof.
  unfold Stub.correl.
  destruct (Nat.eqb_spec (length (data h1)) (length (data h2))) as [Hl|Hl].
  - rewrite (proj2 (Nat.eqb_eq _ _) (eq_sym Hl)). simpl negb.
    unfold Stub.flen. rewrite Hl.
    rewrite (zip_with_comm PrimFloat.mul float_mul_comm (data h2) (data h1)).
    rewrite (float_mul_comm (Stub.fsum (data h2)) (Stub.fsum (data h1))).
    match goal with
    | |- context [PrimFloat.mul (PrimFloat.sub ?a ?b) (PrimFloat.sub ?c ?d)] =>
      rewrite (float_mul_comm (PrimFloat.sub a b) (PrimFloat.sub c d))
    end.
    reflexivity.
  - rewrite (proj2 (Nat.eqb_neq _ _) (fun H => Hl (eq_sym H))). reflexivity.
Qed.

(** C6.  With the default distance threshold 0.6, on every pair of
    well-formed face images [compare_faces_dlib] returns a result and raises
    nothing: when one of the images has no embedding, the result has the
    success flag false and an error message; otherwise it reports the
    distance of the first embeddings, the similarity score 1 - distance, a
    match exactly when the distance is at most 0.6, and the confidence
    similarity score * 100. *)
Theorem compare_faces_dlib_contract (L : Lib) (threshold : option float)
    (face1 face2 : ndarray) :
  is_image face1 = true -> is_image face2 = true ->
  let self := FaceMatcher.init default_config threshold in
  let encodings1 := face_encodings L (rgb_of L face1) in
  let encodings2 := face_encodings L (rgb_of L face2) in
  exists d,
    FaceMatcher.compare_faces_dlib L self face1 face2 = Return d
    /\ (encodings1 = [] \/ encodings2 = [] ->
        d !! "success" = Some (PyBool false) /\ is_Some (d !! "error"))
    /\ (forall e1 rest1 e2 rest2,
          encodings1 = e1 :: rest1 -> encodings2 = e2 :: rest2 ->
          let distance := face_distance L e1 e2 in
          let similarity_score := (1 - distance)%float in
          d !! "success" = Some (PyBool true)
          /\ d !! "distance" = Some (PyFloat distance)
          /\ d !! "similarity_score" = Some (PyFloat similarity_score)
          /\ d !! "match" = Some (PyBool (PrimFloat.leb distance 0.6))
          /\ d !! "confidence" = Some (PyFloat (similarity_score * 100))).
Proof.
  intros H1 H2. cbv zeta.
  unfold FaceMatcher.compare_faces_dlib.
  rewrite (to_rgb_image L face1 H1), (to_rgb_image L face2 H2). simpl bind.
  destruct (face_encodings L (rgb_of L face1)) as [|e1 rest1];
    destruct (face_encodings L (rgb_of L face2)) as [|e2 rest2];
    eexists; (split; [reflexivity|]); split.
  all: try (intros [?|?]; discriminate).
  all: try (intros ? ? ? ? ? ?; discriminate).
  1-3: intros _; split; [dict_lookup | eexists; dict_lookup].
  intros ? ? ? ? [= <- <-] [= <- <-].
  repeat split; dict_lookup.
Qed.

Lemma compare_faces_dlib_contract_witness :
  exists d,
    FaceMatcher.compare_faces_dlib Stub.lib (FaceMatcher.init default_config None)
      (Stub.uniform 2 2 100) (Stub.uniform 2 2 120) = Return d
    /\ d !! "success" = Some (PyBool true)
    /\ d !! "match" = Some (PyBool true).
Proof.
  destruct (compare_faces_dlib_contract Stub.lib None (Stub.uniform 2 2 100)
              (Stub.uniform 2 2 120) eq_refl eq_refl) as [d [Hd [_ Hs]]].
  exists d. split; [exact Hd|].
  destruct (Hs _ _ _ _ eq_refl eq_refl) as [H1 [_ [_ [H4 _]]]].
  split; [exact H1 | exact H4].
Defined.

(** C8.  When the histogram correlation of OpenCV does not depend on the
    order of the two histograms, the structural comparison does not either:
    [compare_faces_opencv] gives the same result on (A, B) and on (B, A),
    bit for bit; and on well-formed images that result is the combined score
    (histogram correlation + SSIM) / 2 of the two faces resized to
    100 x 100 and turned to gray. *)
Theorem compare_faces_opencv_symmetric (L : Lib) (self : FaceMatcher.t)
    (faceA faceB : ndarray) :
  (forall h1 h2, compare_hist_correl L h1 h2 = compare_hist_correl L h2 h1) ->
  FaceMatcher.compare_faces_opencv L self faceA faceB
  = FaceMatcher.compare_faces_opencv L self faceB faceA
  /\ (is_image faceA = true -> is_image faceB = true ->
      exists d grayA grayB ssim,
        FaceMatcher.compare_faces_opencv L self faceA faceB = Return d
        /\ gray100 L faceA = Return grayA /\ shape grayA = [100; 100]%nat
        /\ gray100 L faceB = Return grayB /\ shape grayB = [100; 100]%nat
        /\ FaceMatcher._calculate_ssim L grayA grayB = Return ssim
        /\ d !! "similarity_score"
           = Some (PyFloat ((compare_hist_correl L (calcHist L grayA) (calcHist L grayB)
                             + ssim) / 2))).
Proof.
  intros Hsym. rewrite !compare_faces_opencv_gray100. split.
  - destruct (gray100_cases L faceA) as [HA|[gA [HA HsA]]];
      destruct (gray100_cases L faceB) as [HB|[gB [HB HsB]]];
      rewrite HA, HB; try reflexivity.
    simpl bind.
    rewrite (_calculate_ssim_sym L gB gA HsB HsA).
    rewrite (Hsym (calcHist L gB) (calcHist L gA)). reflexivity.
  - intros HA HB.
    destruct (gray100_image L faceA HA) as [gA [HgA HsA]].
    destruct (gray100_image L faceB HB) as [gB [HgB HsB]].
    destruct (_calculate_ssim_returns L gA gB HsA HsB) as [ssim Hssim].
    eexists. exists gA, gB, ssim.
    split; [rewrite HgA, HgB; simpl bind; rewrite Hssim; reflexivity|].
    repeat (split; [assumption|]). dict_lookup.
Qed.

Lemma compare_faces_opencv_symmetric_witness :
  FaceMatcher.compare_faces_opencv Stub.lib (FaceMatcher.init default_config None)
    (Stub.uniform 2 2 100) faceless
  = FaceMatcher.compare_faces_opencv Stub.lib (FaceMatcher.init default_config None)
      faceless (Stub.uniform 2 2 100).
Proof.
  exact (proj1 (compare_faces_opencv_symmetric Stub.lib
                  (FaceMatcher.init default_config None)
                  (Stub.uniform 2 2 100) faceless stub_correl_sym)).
Defined.

(** C10.  A method name that is neither "dlib" nor "opencv" makes
    [match_faces] return the result of the embedding comparison, without
    reporting the unknown name. *)
Theorem match_faces_unknown_method (L : Lib) (self : FaceMatcher.t)
    (face1 face2 : ndarray) (method : string) :
  method <> "dlib"%string -> method <> "opencv"%string ->
  FaceMatcher.match_faces L self face1 face2 method
  = FaceMatcher.compare_faces_dlib L self face1 face2.
Proof.
  intros H1 H2. unfold FaceMatcher.match_faces.
  destruct (String.eqb_spec method "dlib"); [reflexivity|].
  destruct (String.eqb_spec method "opencv"); [contradiction | reflexivity].
Qed.

Lemma match_faces_unknown_method_witness :
  FaceMatcher.match_faces Stub.lib (FaceMatcher.init default_config None)
    (Stub.uniform 2 2 100) (Stub.uniform 2 2 120) "deepface"
  = FaceMatcher.compare_faces_dlib Stub.lib (FaceMatcher.init default_config None)
      (Stub.uniform 2 2 100) (Stub.uniform 2 2 120).
Proof.
  apply (match_faces_unknown_method Stub.lib (FaceMatcher.init default_config None)
           (Stub.uniform 2 2 100) (Stub.uniform 2 2 120) "deepface");
    discriminate.
Defined.

Section RenderFacts.
Context (L : Lib).
Import FaceMatcher.

Lemma shape2_image face h w channels :
  shape face = h :: w :: channels -> shape2 face = Return (Z.of_nat h, Z.of_nat w).
Proof. intros H. unfold shape2. rewrite H. reflexivity. Qed.

Lemma resize_image face h w channels new_w :
  shape face = h :: w :: channels -> image_channels channels ->
  is_empty face = false -> 0 < new_w ->
  resize L face (new_w, 300)
  = Return {| shape := 300%nat :: Z.to_nat new_w :: channels;
              data := resize_px L face new_w 300 |}.
Proof.
  intros Hs Hc He Hw. unfold resize. rewrite He.
  assert (Hn : Nat.eqb (ndim face) 2 || Nat.eqb (ndim face) 3 = true).
  { unfold ndim. rewrite Hs. destruct Hc as [->|[->| ->]]; reflexivity. }
  rewrite Hn. simpl negb.
  replace (new_w <=? 0) with false by (symmetry; apply Z.leb_gt; lia).
  simpl. rewrite Hs. destruct Hc as [->|[->| ->]]; reflexivity.
Qed.

Lemma confidence_text_numeric match_result :
  numeric_confidence match_result ->
  exists text,
    confidence_text L (default (PyInt 0) (match_result !! "confidence")) = Return text.
Proof.
  unfold numeric_confidence.
  destruct (match_result !! "confidence") as [[| | | | |]|]; simpl;
    intros H; try contradiction; eexists; reflexivity.
Qed.

Lemma hstack_same_height r1 r2 h wa wb channels :
  shape r1 = h :: wa :: channels -> shape r2 = h :: wb :: channels ->
  exists out, hstack r1 r2 = Return out
              /\ shape out = h :: (wa + wb)%nat :: channels.
Proof.
  intros H1 H2. unfold hstack. rewrite H1, H2.
  rewrite Nat.eqb_refl. unfold shape_eqb.
  rewrite bool_decide_eq_true_2 by reflexivity. simpl.
  eexists. split; reflexivity.
Qed.

End RenderFacts.

(** What [match_faces] returns has a numeric confidence or none. *)
Lemma match_faces_numeric_confidence (L : Lib) (self : FaceMatcher.t)
    (face1 face2 : ndarray) (method : string) (d : gmap string pyval) :
  FaceMatcher.match_faces L self face1 face2 method = Return d ->
  numeric_confidence d.
Proof.
  assert (Hdlib : FaceMatcher.compare_faces_dlib L self face1 face2 = Return d ->
                  numeric_confidence d).
  { unfold FaceMatcher.compare_faces_dlib.
    destruct (if Nat.eqb (ndim face1) 3 then cvtColor_BGR2RGB L face1 else Return face1)
      as [rgb1|e]; [|discriminate].
    destruct (if Nat.eqb (ndim face2) 3 then cvtColor_BGR2RGB L face2 else Return face2)
      as [rgb2|e]; [|discriminate].
    cbn [bind].
    destruct (face_encodings L rgb1), (face_encodings L rgb2);
      intros [= <-]; unfold numeric_confidence; dict_lookup; try exact I. }
  assert (Hcv : FaceMatcher.compare_faces_opencv L self face1 face2 = Return d ->
                numeric_confidence d).
  { rewrite compare_faces_opencv_gray100.
    destruct (gray100 L face1) as [g1|e]; [|discriminate].
    destruct (gray100 L face2) as [g2|e]; [|discriminate].
    cbn [bind].
    destruct (FaceMatcher._calculate_ssim L g1 g2) as [ssim|e]; [|discriminate].
    cbn [bind]. intros [= <-]. unfold numeric_confidence. dict_lookup; try exact I. }
  unfold FaceMatcher.match_faces.
  destruct (String.eqb method "dlib"); [exact Hdlib|].
  destruct (String.eqb method "opencv"); assumption.
Qed.

Example scaled_width_landscape : FaceMatcher.scaled_width 200 100 300 = Return 600.
Proof. vm_compute. reflexivity. Qed.

Example scaled_width_no_rows : FaceMatcher.scaled_width 5 0 300 = Raise ZeroDivisionError.
Proof. reflexivity. Qed.

(** A crop of one channel comes back from the resize with two
    dimensions. *)
Example resize_one_channel :
  match resize Stub.lib {| shape := [2; 2; 1]%nat; data := [10; 20; 30; 40]%float |}
          (3, 3) with
  | Return a => Some (shape a)
  | Raise _ => None
  end = Some [3; 3]%nat.
Proof. reflexivity. Qed.

(** Crops of different layouts cannot be put side by side. *)
Example hstack_gray_and_colour :
  hstack {| shape := [300; 10]%nat; data := [] |}
         {| shape := [300; 10; 3]%nat; data := [] |} = Raise ValueError.
Proof. reflexivity. Qed.

(** C9 (as amended).  For two non-empty crops of the same layout (both
    gray, or both colour with the same number of channels, 3 or 4) whose
    widths scaled to the height 300, [int(w * (300 / h))], are at least 1,
    and a match result whose confidence is a number or absent,
    [create_comparison_image] raises nothing and returns an image of height
    300 whose width is the sum of the two scaled widths. *)
Theorem create_comparison_image_height (L : Lib) (self : FaceMatcher.t)
    (face1 face2 : ndarray) (match_result : gmap string pyval)
    (h1 w1 h2 w2 : nat) (channels : list nat) (new_w1 new_w2 : Z) :
  shape face1 = h1 :: w1 :: channels ->
  shape face2 = h2 :: w2 :: channels ->
  image_channels channels ->
  is_empty face1 = false -> is_empty face2 = false ->
  FaceMatcher.scaled_width (Z.of_nat w1) (Z.of_nat h1) 300 = Return new_w1 ->
  FaceMatcher.scaled_width (Z.of_nat w2) (Z.of_nat h2) 300 = Return new_w2 ->
  0 < new_w1 -> 0 < new_w2 ->
  numeric_confidence match_result ->
  exists out,
    FaceMatcher.create_comparison_image L self face1 face2 match_result = Return out
    /\ shape out = 300%nat :: (Z.to_nat new_w1 + Z.to_nat new_w2)%nat :: channels.
Proof.
  intros Hs1 Hs2 Hc He1 He2 Hw1 Hw2 Hp1 Hp2 Hm.
  unfold FaceMatcher.create_comparison_image.
  rewrite (shape2_image face1 h1 w1 channels Hs1).
  rewrite (shape2_image face2 h2 w2 channels Hs2). cbn [bind fst snd].
  rewrite Hw1, Hw2. cbn [bind fst snd].
  rewrite (resize_image L face1 h1 w1 channels new_w1 Hs1 Hc He1 Hp1).
  rewrite (resize_image L face2 h2 w2 channels new_w2 Hs2 Hc He2 Hp2). cbn [bind fst snd].
  match goal with
  | |- context [hstack ?r1 ?r2] =>
    destruct (hstack_same_height r1 r2 300%nat (Z.to_nat new_w1) (Z.to_nat new_w2)
                channels eq_refl eq_refl) as [out [-> Hout]]
  end.
  cbn [bind fst snd].
  destruct (confidence_text_numeric L match_result Hm) as [text ->]. cbn [bind fst snd].
  eexists. split; [reflexivity|]. exact Hout.
Qed.

Lemma create_comparison_image_height_witness :
  exists out,
    FaceMatcher.create_comparison_image Stub.lib (FaceMatcher.init default_config None)
      (Stub.uniform 2 3 100) (Stub.uniform 4 2 120) ∅ = Return out
    /\ shape out = [300; 600; 3]%nat.
Proof.
  destruct (create_comparison_image_height Stub.lib (FaceMatcher.init default_config None)
              (Stub.uniform 2 3 100) (Stub.uniform 4 2 120) ∅
              2 3 4 2 [3%nat] 450 150) as [out [Hout Hs]].
  - reflexivity.
  - reflexivity.
  - right. left. reflexivity.
  - reflexivity.
  - reflexivity.
  - vm_compute. reflexivity.
  - vm_compute. reflexivity.
  - lia.
  - lia.
  - exact I.
  - exists out. split; [exact Hout | exact Hs].
Defined.

(** A crop of 301 rows and 1 column is not empty, yet its scaled width
    [int(1 * (300 / 301))] is 0 and the resize raises. *)
Lemma sliver_crop_raises :
  is_image sliver = true
  /\ FaceMatcher.scaled_width 1 301 300 = Return 0
  /\ FaceMatcher.create_comparison_image Stub.lib (FaceMatcher.init default_config None)
       sliver (Stub.uniform 2 2 120) ∅ = Raise Cv2Error.
Proof. repeat split; vm_compute; reflexivity. Qed.

(** ** The order of binary64 numbers *)

Ltac compare_cases :=
  repeat match goal with
         | H : context [Z.compare ?a ?b] |- _ =>
           destruct (Z.compare_spec a b); try discriminate H
         | |- context [Z.compare ?a ?b] =>
           destruct (Z.compare_spec a b)
         | H : context [Pos.compare_cont Eq ?a ?b] |- _ =>
           change (Pos.compare_cont Eq a b) with (Pos.compare a b) in H;
           destruct (Pos.compare_spec a b); try discriminate H
         | |- context [Pos.compare_cont Eq ?a ?b] =>
           change (Pos.compare_cont Eq a b) with (Pos.compare a b);
           destruct (Pos.compare_spec a b)
         end.

Ltac compare_trans x y z :=
  destruct x as [[]|[]| |[] ? ?], y as [[]|[]| |[] ? ?], z as [[]|[]| |[] ? ?];
  simpl; intros H1 H2; try discriminate; try reflexivity;
  simpl in *; compare_cases; simpl in *; subst;
  try discriminate; try reflexivity; try lia.

Lemma SFleb_ltb_trans x y z :
  SFleb x y = true -> SFltb y z = true -> SFltb x z = true.
Proof. unfold SFleb, SFltb. compare_trans x y z. Qed.

Lemma SFleb_trans x y z :
  SFleb x y = true -> SFleb y z = true -> SFleb x z = true.
Proof. unfold SFleb, SFltb. compare_trans x y z. Qed.

Lemma float_leb_ltb_trans (x y z : float) :
  PrimFloat.leb x y = true -> PrimFloat.ltb y z = true -> PrimFloat.ltb x z = true.
Proof. rewrite leb_spec, !ltb_spec. apply SFleb_ltb_trans. Qed.

Lemma float_leb_trans (x y z : float) :
  PrimFloat.leb x y = true -> PrimFloat.leb y z = true -> PrimFloat.leb x z = true.
Proof. rewrite !leb_spec. apply SFleb_trans. Qed.

(** ** Further properties of the tracker *)

Section TrackerBounds.
Context (L : Lib).
Import LivenessChecker.

(** No call changes the tracker. *)
Lemma detect_blink_self frame self r self' :
  detect_blink L frame self = Return (r, self') -> self' = self.
Proof.
  unfold detect_blink, mbind, get_self, lift, mret.
  destruct (predictor self) as [predict|]; [|congruence].
  destruct (cvtColor_BGR2GRAY L frame) as [gray|]; [|discriminate].
  destruct (detector self gray) as [|face faces]; [congruence|].
  unfold get_eye_regions, mret, eye_aspect_ratio, mbind, lift, point, mret.
  cbn [fst snd].
  repeat match goal with
         | |- context [match ?l !! ?i with _ => _ end] =>
           destruct (l !! i); [|discriminate]
         end.
  congruence.
Qed.

(** Whatever the frames show, a blink costs three closed frames and the
    frame that ends them. *)
Lemma count_blinks_loop_bound frames :
  forall self self' blink_count consecutive_closed n,
    0 <= consecutive_closed ->
    count_blinks_loop L frames blink_count consecutive_closed self = Return (n, self') ->
    blink_count <= n
    /\ 4 * (n - blink_count)
       <= Z.of_nat (length frames) + Z.min consecutive_closed 3.
Proof.
  induction frames as [|frame frames IH]; intros self self' bc cc n Hcc.
  - simpl. unfold mret. intros [= <- <-]. simpl. lia.
  - simpl count_blinks_loop. unfold mbind at 1.
    destruct (detect_blink L frame self) as [[[is_blink ear] self1]|e];
      [|discriminate].
    cbn [fst]. destruct is_blink.
    + intros H. apply IH in H; [|lia].
      rewrite length_cons, Nat2Z.inj_succ. lia.
    + intros H. apply IH in H; [|lia].
      rewrite length_cons, Nat2Z.inj_succ. unfold EAR_CONSEC_FRAMES in H.
      destruct (Z.leb_spec 3 cc); lia.
Qed.

(** Without the landmark predictor no frame is read and none is a blink. *)
Lemma count_blinks_loop_no_predictor self frames :
  predictor self = None ->
  forall blink_count consecutive_closed,
    consecutive_closed < EAR_CONSEC_FRAMES ->
    count_blinks_loop L frames blink_count consecutive_closed self
    = Return (blink_count, self).
Proof.
  intros Hp. induction frames as [|frame frames IH]; intros bc cc Hcc.
  - reflexivity.
  - simpl count_blinks_loop. unfold mbind at 1, detect_blink, mbind, get_self.
    rewrite Hp. unfold mret. cbn [fst].
    destruct (Z.leb_spec EAR_CONSEC_FRAMES cc); [lia|].
    apply IH. unfold EAR_CONSEC_FRAMES. lia.
Qed.

(** Closed frames at the end of a sequence count for nothing. *)
Lemma count_blinks_loop_closed_tail self tail :
  Forall (fun frame => exists ear,
            detect_blink L frame self = Return ((true, ear), self)) tail ->
  forall blink_count consecutive_closed,
    count_blinks_loop L tail blink_count consecutive_closed self
    = Return (blink_count, self).
Proof.
  induction 1 as [|frame tail [ear Hd] _ IH]; intros bc cc.
  - reflexivity.
  - simpl count_blinks_loop. unfold mbind at 1. rewrite Hd. cbn [fst]. apply IH.
Qed.

Lemma count_blinks_loop_tail frames tail self :
  Forall (fun frame => exists ear,
            detect_blink L frame self = Return ((true, ear), self)) tail ->
  forall blink_count consecutive_closed n,
    count_blinks_loop L frames blink_count consecutive_closed self = Return (n, self) ->
    count_blinks_loop L (frames ++ tail) blink_count consecutive_closed self
    = Return (n, self).
Proof.
  intros Htail. induction frames as [|frame frames IH]; intros bc cc n.
  - simpl. unfold mret. intros [= <-].
    apply count_blinks_loop_closed_tail. exact Htail.
  - intros H. simpl count_blinks_loop in H |- *.
    unfold mbind at 1 in H. unfold mbind at 1.
    destruct (detect_blink L frame self) as [[[is_blink ear] self1]|e] eqn:Hd;
      [|discriminate].
    apply detect_blink_self in Hd as ->.
    cbn [fst] in H |- *. destruct is_blink; apply IH; exact H.
Qed.

(** The positions [check_head_movement] collects: one for every frame
    that shows a face. *)
Lemma face_positions_loop_length frames :
  forall self self' acc ps,
    face_positions_loop L frames acc self = Return (ps, self') ->
    self' = self
    /\ length ps = (length acc + length (frames_showing_face L self frames))%nat.
Proof.
  induction frames as [|frame frames IH]; intros self self' acc ps.
  - simpl. unfold mret. intros [= <- <-]. simpl. split; [reflexivity|lia].
  - simpl face_positions_loop. unfold mbind at 1, get_self. unfold mbind at 1, lift.
    unfold cvtColor_BGR2GRAY.
    destruct (is_empty frame); [discriminate|].
    destruct (color_channels frame) eqn:Hc; [|discriminate].
    unfold frames_showing_face. rewrite filter_cons.
    fold (frames_showing_face L self frames).
    assert (Hg : {| shape := take 2 (shape frame); data := bgr2gray_px L frame |}
                 = gray_of L frame).
    { unfold gray_of. rewrite (color_channels_ndim frame Hc). reflexivity. }
    rewrite Hg.
    destruct (detector self (gray_of L frame)) as [|face faces] eqn:Hd.
    + intros H. apply IH in H as [-> ->]. destruct (decide _) as [Hn|_].
      * contradiction.
      * split; reflexivity.
    + intros H. apply IH in H as [-> ->]. destruct (decide _) as [_|Hn].
      * rewrite length_app. simpl. split; [reflexivity|lia].
      * exfalso. apply Hn. discriminate.
Qed.

End TrackerBounds.

(** X1.  Every blink [count_blinks] reports has used up four frames of its
    own: whatever the frames are and whatever the detectors answer, a count
    [n] returned for [frames] satisfies 0 <= n and 4 n <= len(frames). *)
Theorem count_blinks_at_most_a_quarter (L : Lib) (self : LivenessChecker.t)
    (frames : list ndarray) (n : Z) :
  value_of (LivenessChecker.count_blinks L frames self) = Some n ->
  0 <= n /\ 4 * n <= Z.of_nat (length frames).
Proof.
  unfold value_of, LivenessChecker.count_blinks.
  destruct (LivenessChecker.count_blinks_loop L frames 0 0 self)
    as [[m self']|e] eqn:H; [|discriminate].
  intros [= ->]. apply count_blinks_loop_bound in H; lia.
Qed.

Lemma count_blinks_at_most_a_quarter_witness :
  0 <= 1 /\ 4 * 1 <= Z.of_nat (length (frames_of_levels [3; 1; 1; 1; 3])).
Proof.
  apply (count_blinks_at_most_a_quarter Stub.lib (LivenessChecker.init Stub.lib)).
  vm_compute. reflexivity.
Defined.

(** X2.  When the landmark file did not load (the predictor is None),
    [count_blinks] reads no frame: it returns 0 for every list of frames,
    also for arrays that are no images, and leaves the tracker as it was. *)
Theorem count_blinks_without_predictor (L : Lib) (self : LivenessChecker.t)
    (frames : list ndarray) :
  LivenessChecker.predictor self = None ->
  LivenessChecker.count_blinks L frames self = Return (0, self).
Proof.
  intros Hp. unfold LivenessChecker.count_blinks.
  apply count_blinks_loop_no_predictor; [exact Hp|].
  unfold LivenessChecker.EAR_CONSEC_FRAMES. lia.
Qed.

Lemma count_blinks_without_predictor_witness :
  let self := {| LivenessChecker.detector := Stub.face_of;
                 LivenessChecker.predictor := None;
                 LivenessChecker.blink_counter := 0;
                 LivenessChecker.frame_counter := 0;
                 LivenessChecker.blink_history := deque_new (Some 100%nat) |} in
  LivenessChecker.count_blinks Stub.lib
    (empty_image :: frames_of_levels [3; 1; 1; 1; 3]) self = Return (0, self).
Proof.
  intros self.
  apply (count_blinks_without_predictor Stub.lib self). reflexivity.
Defined.

(** X3.  Closed frames at the end of a sequence are not counted: a closure
    of the eyes that no open (or faceless) frame ends is no blink, however
    long it lasts. *)
Theorem count_blinks_ignores_closed_tail (L : Lib) (self : LivenessChecker.t)
    (frames tail : list ndarray) (n : Z) :
  LivenessChecker.count_blinks L frames self = Return (n, self) ->
  Forall (fun frame => exists ear,
            LivenessChecker.detect_blink L frame self = Return ((true, ear), self))
         tail ->
  LivenessChecker.count_blinks L (frames ++ tail) self = Return (n, self).
Proof.
  intros H Htail. unfold LivenessChecker.count_blinks in *.
  apply count_blinks_loop_tail; assumption.
Qed.

Lemma count_blinks_ignores_closed_tail_witness :
  LivenessChecker.count_blinks Stub.lib
    (frames_of_levels [3; 3] ++ frames_of_levels [1; 1; 1; 1])
    (LivenessChecker.init Stub.lib)
  = Return (0, LivenessChecker.init Stub.lib).
Proof.
  apply (count_blinks_ignores_closed_tail Stub.lib (LivenessChecker.init Stub.lib)).
  - unfold LivenessChecker.count_blinks. simpl frames_of_levels.
    simpl LivenessChecker.count_blinks_loop. unfold LivenessChecker.mbind.
    rewrite (proj1 (stub_detect_blink 3 (LivenessChecker.init Stub.lib)
                      eq_refl eq_refl) eq_refl).
    reflexivity.
  - repeat (constructor;
      [exists 0.1%float;
       apply (proj2 (stub_detect_blink 1 (LivenessChecker.init Stub.lib)
                       eq_refl eq_refl) eq_refl)|]).
    constructor.
Defined.

(** X4.  [check_head_movement] reports movement only when at least five of
    the frames show a face to the detector: with fewer frames, or fewer
    faces, the answer is False whatever the positions are. *)
Theorem check_head_movement_needs_five_faces (L : Lib) (self : LivenessChecker.t)
    (frames : list ndarray) :
  value_of (LivenessChecker.check_head_movement L frames self) = Some true ->
  (5 <= length (frames_showing_face L self frames))%nat
  /\ (5 <= length frames)%nat.
Proof.
  unfold LivenessChecker.check_head_movement.
  destruct (Z.ltb_spec (Z.of_nat (length frames)) 5) as [Hlt|Hge];
    [discriminate|].
  unfold LivenessChecker.mbind.
  destruct (LivenessChecker.face_positions_loop L frames [] self)
    as [[ps self']|e] eqn:Hps; [|discriminate].
  apply face_positions_loop_length in Hps as [-> Hlen]. simpl in Hlen.
  destruct (Z.ltb_spec (Z.of_nat (length ps)) 5) as [Hlt|Hge'];
    [discriminate|].
  intros _. lia.
Qed.

Lemma check_head_movement_needs_five_faces_witness :
  let frames := map (fun w => Stub.uniform 1 w 10) [2; 2; 2; 90; 90; 90]%nat in
  (5 <= length (frames_showing_face Stub.lib (LivenessChecker.init Stub.lib) frames))%nat
  /\ (5 <= length frames)%nat.
Proof.
  intros frames.
  apply (check_head_movement_needs_five_faces Stub.lib (LivenessChecker.init Stub.lib)).
  vm_compute. reflexivity.
Defined.

(** ** Further properties of the liveness check *)

Lemma float_ltb_leb (x y : float) :
  PrimFloat.ltb x y = true -> PrimFloat.leb x y = true.
Proof.
  rewrite ltb_spec, leb_spec. unfold SFltb, SFleb.
  destruct (SFcompare (Prim2SF x) (Prim2SF y)) as [[]|]; congruence.
Qed.

Lemma float_leb_not_nan (x y : float) :
  PrimFloat.leb x y = true -> PrimFloat.is_nan x = false.
Proof.
  unfold PrimFloat.is_nan. rewrite leb_spec, FloatAxioms.eqb_spec.
  unfold SFleb, SFeqb.
  destruct (Prim2SF x) as [[]|[]| |[] m e]; simpl; try reflexivity;
    try discriminate;
    rewrite Z.compare_refl;
    change (Pos.compare_cont Eq m m) with (Pos.compare m m);
    rewrite Pos.compare_refl; reflexivity.
Qed.

Lemma min100_capped (x : float) :
  PrimFloat.leb (Spec.min100 x) 100 = true.
Proof.
  unfold Spec.min100. destruct (PrimFloat.ltb x 100) eqn:H.
  - apply float_ltb_leb. exact H.
  - reflexivity.
Qed.

Section ShortSequences.
Context (L : Lib).
Import LivenessChecker.

Lemma check_head_movement_short frames self :
  (length frames < 5)%nat ->
  check_head_movement L frames self = Return (false, self).
Proof.
  intros H. unfold check_head_movement.
  replace (Z.of_nat (length frames) <? 5) with true
    by (symmetry; apply Z.ltb_lt; lia).
  reflexivity.
Qed.

End ShortSequences.

(** X5.  With two or three frames the dynamic cues cannot contribute: on
    well-formed input and the default blink threshold, [check_liveness]
    reports a blink count of 0 and no head movement, and its score is the
    passive confidence divided by three, (0 + passive) / 3. *)
Theorem check_liveness_two_or_three_frames (L : Lib) (image : ndarray)
    (frames : list ndarray) (self : LivenessChecker.t) :
  is_bgr image = true ->
  Forall (fun frame => is_bgr frame = true) frames ->
  (2 <= length frames <= 3)%nat ->
  exists d p,
    LivenessChecker.check_liveness L default_config image (Some frames) self
    = Return (d, self)
    /\ LivenessChecker.passive_liveness_check L image self = Return (p, self)
    /\ d !! "blink_count" = Some (PyInt 0)
    /\ d !! "head_movement_detected" = Some (PyBool false)
    /\ d !! "liveness_score"
       = Some (PyFloat ((0 + LivenessChecker.dict_float p "confidence") / 3)).
Proof.
  intros H Hf [Hlo Hhi].
  destruct (check_liveness_multi L image frames self H Hf Hlo)
    as [d [bc [hm [p [Hd [Hbc [Hhm [Hp [H1 [H2 [H3 [H4 H5]]]]]]]]]]]].
  assert (bc = 0) as ->.
  { unfold LivenessChecker.count_blinks in Hbc.
    apply count_blinks_loop_bound in Hbc; lia. }
  assert (hm = false) as ->.
  { rewrite check_head_movement_short in Hhm by lia. congruence. }
  exists d, p. repeat split; assumption.
Qed.

Lemma check_liveness_two_or_three_frames_witness :
  exists d,
    LivenessChecker.check_liveness Stub.lib default_config (Stub.uniform 4 4 128)
      (Some (frames_of_levels [1; 1; 3])) (LivenessChecker.init Stub.lib)
    = Return (d, LivenessChecker.init Stub.lib)
    /\ d !! "blink_count" = Some (PyInt 0)
    /\ d !! "head_movement_detected" = Some (PyBool false).
Proof.
  destruct (check_liveness_two_or_three_frames Stub.lib (Stub.uniform 4 4 128)
              (frames_of_levels [1; 1; 3]) (LivenessChecker.init Stub.lib))
    as [d [p [Hd [_ [Hb [Hm _]]]]]].
  - reflexivity.
  - repeat (constructor; [reflexivity|]). constructor.
  - simpl. lia.
  - exists d. repeat split; assumption.
Defined.

(** X6.  A blink threshold configured as 0 makes every check with two
    frames or more fail with ZeroDivisionError, after all the analyses have
    run; with any other threshold, negative ones included, the same call
    returns a result. *)
Theorem check_liveness_zero_blink_threshold (L : Lib) (cfg : Config)
    (image : ndarray) (frames : list ndarray) (self : LivenessChecker.t) :
  is_bgr image = true ->
  Forall (fun frame => is_bgr frame = true) frames ->
  (2 <= length frames)%nat ->
  (BLINK_THRESHOLD cfg = 0 ->
   LivenessChecker.check_liveness L cfg image (Some frames) self
   = Raise ZeroDivisionError)
  /\ (BLINK_THRESHOLD cfg <> 0 ->
      exists d,
        LivenessChecker.check_liveness L cfg image (Some frames) self
        = Return (d, self)).
Proof.
  intros H Hf Hlen.
  destruct (count_blinks_loop_returns L self frames Hf 0 0) as [bc Hbc].
  destruct (check_head_movement_returns L self frames Hf) as [hm Hhm].
  unfold LivenessChecker.check_liveness, LivenessChecker.mbind, LivenessChecker.lift.
  rewrite (check_image_quality_image L image (is_bgr_is_image image H)).
  rewrite (passive_liveness_check_bgr L image self H).
  replace (1 <? Z.of_nat (length frames)) with true
    by (symmetry; apply Z.ltb_lt; lia).
  unfold LivenessChecker.count_blinks in *. rewrite Hbc, Hhm.
  unfold py_truediv. cbn [py_is_zero]. change (3 =? 0) with false. cbv iota.
  split; intros Hth.
  - rewrite Hth. reflexivity.
  - replace (BLINK_THRESHOLD cfg =? 0) with false
      by (symmetry; apply Z.eqb_neq; exact Hth).
    unfold LivenessChecker.mret. eexists. reflexivity.
Qed.

Lemma check_liveness_zero_blink_threshold_witness :
  value_of (LivenessChecker.check_liveness Stub.lib
              {| FACE_MATCH_THRESHOLD := 0.6; FACE_DISTANCE_THRESHOLD := 0.6;
                 BLINK_THRESHOLD := 0 |}
              (Stub.uniform 4 4 128) (Some (frames_of_levels [3; 3]))
              (LivenessChecker.init Stub.lib)) = None.
Proof.
  rewrite (proj1 (check_liveness_zero_blink_threshold Stub.lib
                    {| FACE_MATCH_THRESHOLD := 0.6; FACE_DISTANCE_THRESHOLD := 0.6;
                       BLINK_THRESHOLD := 0 |}
                    (Stub.uniform 4 4 128) (frames_of_levels [3; 3])
                    (LivenessChecker.init Stub.lib) eq_refl
                    ltac:(repeat (constructor; [reflexivity|]); constructor)
                    ltac:(simpl; lia)) eq_refl).
  reflexivity.
Defined.

(** X7.  The score of a check on a single image is a number that does not
    exceed 100: the passive confidence is [min(100, x)], and when the cues
    make [x] no number the minimum is 100. *)
Theorem single_image_score_capped (L : Lib) (cfg : Config) (image : ndarray)
    (self : LivenessChecker.t) :
  is_bgr image = true ->
  exists d score,
    LivenessChecker.check_liveness L cfg image None self = Return (d, self)
    /\ d !! "liveness_score" = Some (PyFloat score)
    /\ PrimFloat.leb score 100 = true
    /\ PrimFloat.is_nan score = false.
Proof.
  intros H.
  destruct (check_liveness_single L cfg image self H)
    as [d [q [p [Hd [_ [Hp [_ [_ [Hs _]]]]]]]]].
  rewrite (passive_liveness_check_bgr L image self H) in Hp.
  injection Hp as <-.
  exists d. eexists. split; [exact Hd|]. split; [exact Hs|].
  unfold LivenessChecker.dict_float.
  rewrite lookup_insert_ne by discriminate. rewrite lookup_insert_eq.
  unfold Spec.confidence.
  split; [apply min100_capped|].
  eapply float_leb_not_nan. apply min100_capped.
Qed.

Lemma single_image_score_capped_witness :
  exists d score,
    LivenessChecker.check_liveness Stub.lib default_config (Stub.uniform 4 4 128) None
      (LivenessChecker.init Stub.lib) = Return (d, LivenessChecker.init Stub.lib)
    /\ d !! "liveness_score" = Some (PyFloat score)
    /\ PrimFloat.leb score 100 = true.
Proof.
  destruct (single_image_score_capped Stub.lib default_config (Stub.uniform 4 4 128)
              (LivenessChecker.init Stub.lib) eq_refl)
    as [d [score [Hd [Hs [Hle _]]]]].
  exists d, score. repeat split; assumption.
Defined.

(** ** Further properties of the matcher *)

Section Thresholds.
Context (L : Lib).
Import FaceMatcher.

(** Two dicts that differ at most under the key [match]. *)
Lemma lookup_besides_match (b1 b2 : bool) (rest : gmap string pyval) (k : string) :
  k <> "match"%string ->
  (<["success" := PyBool true]> (<["match" := PyBool b1]> rest)) !! k
  = (<["success" := PyBool true]> (<["match" := PyBool b2]> rest)) !! k.
Proof.
  intros Hk. destruct (decide (k = "success"%string)) as [->|Hs].
  - rewrite !lookup_insert_eq. reflexivity.
  - rewrite !(lookup_insert_ne _ "success") by congruence.
    rewrite !(lookup_insert_ne _ "match") by congruence. reflexivity.
Qed.

Lemma compare_faces_dlib_thresholds self1 self2 face1 face2 :
  distance_threshold self1 = distance_threshold self2 ->
  compare_faces_dlib L self1 face1 face2 = compare_faces_dlib L self2 face1 face2.
Proof. intros H. unfold compare_faces_dlib. rewrite H. reflexivity. Qed.

Lemma compare_faces_opencv_returns self face1 face2 :
  is_image face1 = true -> is_image face2 = true ->
  exists d, compare_faces_opencv L self face1 face2 = Return d
            /\ d !! "success" = Some (PyBool true)
            /\ d !! "error" = None.
Proof.
  intros H1 H2. rewrite compare_faces_opencv_gray100.
  destruct (gray100_image L face1 H1) as [g1 [-> Hs1]].
  destruct (gray100_image L face2 H2) as [g2 [-> Hs2]].
  cbn [bind].
  destruct (_calculate_ssim_returns L g1 g2 Hs1 Hs2) as [ssim ->].
  cbn [bind]. eexists. split; [reflexivity|]. split; dict_lookup.
Qed.

Lemma compare_faces_dlib_no_encoding self face1 face2 :
  is_image face1 = true -> is_image face2 = true ->
  face_encodings L (rgb_of L face1) = [] \/ face_encodings L (rgb_of L face2) = [] ->
  exists d, compare_faces_dlib L self face1 face2 = Return d
            /\ d !! "success" = Some (PyBool false).
Proof.
  intros H1 H2 He. unfold compare_faces_dlib.
  rewrite (to_rgb_image L face1 H1), (to_rgb_image L face2 H2). cbn [bind].
  destruct (face_encodings L (rgb_of L face1)) as [|e1 r1],
           (face_encodings L (rgb_of L face2)) as [|e2 r2];
    try (eexists; split; [reflexivity|dict_lookup]).
  destruct He; discriminate.
Qed.

End Thresholds.

(** X8.  The threshold given to the constructor has no part in the default
    comparison: for every method other than "opencv", [match_faces] returns
    the same result whatever threshold the matcher was built with, the
    decision being taken against Config.FACE_DISTANCE_THRESHOLD alone. *)
Theorem match_faces_ignores_constructor_threshold (L : Lib) (cfg : Config)
    (threshold1 threshold2 : option float) (face1 face2 : ndarray)
    (method : string) :
  method <> "opencv"%string ->
  FaceMatcher.match_faces L (FaceMatcher.init cfg threshold1) face1 face2 method
  = FaceMatcher.match_faces L (FaceMatcher.init cfg threshold2) face1 face2 method.
Proof.
  intros Hm. unfold FaceMatcher.match_faces.
  destruct (String.eqb method "dlib");
    [apply compare_faces_dlib_thresholds; reflexivity|].
  destruct (String.eqb_spec method "opencv") as [->|_]; [contradiction|].
  apply compare_faces_dlib_thresholds; reflexivity.
Qed.

Lemma match_faces_ignores_constructor_threshold_witness :
  FaceMatcher.match_faces Stub.lib (FaceMatcher.init default_config (Some 0.99%float))
    (Stub.uniform 2 2 100) (Stub.uniform 2 2 120) "dlib"
  = FaceMatcher.match_faces Stub.lib (FaceMatcher.init default_config None)
      (Stub.uniform 2 2 100) (Stub.uniform 2 2 120) "dlib".
Proof.
  apply (match_faces_ignores_constructor_threshold Stub.lib default_config).
  discriminate.
Defined.

(** X27.  A threshold of zero cannot be chosen: [FaceMatcher(threshold=0.0)]
    (or -0.0) is the matcher built without a threshold, so its structural
    comparison decides against Config.FACE_MATCH_THRESHOLD and not
    against 0. *)
Theorem zero_threshold_is_default (L : Lib) (cfg : Config) (threshold : float)
    (face1 face2 : ndarray) :
  PrimFloat.eqb threshold 0 = true ->
  FaceMatcher.init cfg (Some threshold) = FaceMatcher.init cfg None
  /\ FaceMatcher.compare_faces_opencv L (FaceMatcher.init cfg (Some threshold))
       face1 face2
     = FaceMatcher.compare_faces_opencv L (FaceMatcher.init cfg None) face1 face2.
Proof.
  intros H.
  assert (Hi : FaceMatcher.init cfg (Some threshold) = FaceMatcher.init cfg None).
  { unfold FaceMatcher.init. rewrite H. reflexivity. }
  split; [exact Hi|]. rewrite Hi. reflexivity.
Qed.

Lemma zero_threshold_is_default_witness :
  FaceMatcher.threshold (FaceMatcher.init default_config (Some (-0)%float))
  = 0.6%float.
Proof.
  rewrite (proj1 (zero_threshold_is_default Stub.lib default_config (-0)%float
                    faceless faceless eq_refl)).
  reflexivity.
Defined.

(** X9.  The structural comparison is monotone in the threshold: a matcher
    with a lower (or equal) threshold returns a result whenever one with the
    higher threshold does, with the same scores under every key but [match],
    and it declares a match whenever the stricter one does. *)
Theorem compare_faces_opencv_threshold_monotone (L : Lib)
    (lenient strict : FaceMatcher.t) (face1 face2 : ndarray)
    (d_strict : gmap string pyval) :
  PrimFloat.leb (FaceMatcher.threshold lenient) (FaceMatcher.threshold strict) = true ->
  FaceMatcher.compare_faces_opencv L strict face1 face2 = Return d_strict ->
  exists d_lenient,
    FaceMatcher.compare_faces_opencv L lenient face1 face2 = Return d_lenient
    /\ (d_strict !! "match" = Some (PyBool true) ->
        d_lenient !! "match" = Some (PyBool true))
    /\ (forall k, k <> "match"%string -> d_lenient !! k = d_strict !! k).
Proof.
  intros Hle. rewrite !compare_faces_opencv_gray100.
  destruct (gray100 L face1) as [g1|e]; [|discriminate].
  destruct (gray100 L face2) as [g2|e]; [|discriminate].
  cbn [bind].
  destruct (FaceMatcher._calculate_ssim L g1 g2) as [ssim|e]; [|discriminate].
  cbn [bind]. intros [= <-].
  eexists. split; [reflexivity|]. split.
  - rewrite !(lookup_insert_ne _ "success") by discriminate.
    rewrite !lookup_insert_eq. intros [= H]. do 2 f_equal.
    eapply float_leb_ltb_trans; eassumption.
  - intros k Hk. apply lookup_besides_match. exact Hk.
Qed.

Lemma compare_faces_opencv_threshold_monotone_witness :
  exists d_strict d_lenient,
    FaceMatcher.compare_faces_opencv Stub.lib
      (FaceMatcher.init default_config (Some 0.9%float))
      (Stub.uniform 2 2 100) (Stub.uniform 2 2 120) = Return d_strict
    /\ FaceMatcher.compare_faces_opencv Stub.lib
         (FaceMatcher.init default_config (Some 0.5%float))
         (Stub.uniform 2 2 100) (Stub.uniform 2 2 120) = Return d_lenient
    /\ (d_strict !! "match" = Some (PyBool true) ->
        d_lenient !! "match" = Some (PyBool true)).
Proof.
  destruct (compare_faces_opencv_returns Stub.lib
              (FaceMatcher.init default_config (Some 0.9%float))
              (Stub.uniform 2 2 100) (Stub.uniform 2 2 120) eq_refl eq_refl)
    as [d [Hd _]].
  destruct (compare_faces_opencv_threshold_monotone Stub.lib
              (FaceMatcher.init default_config (Some 0.5%float))
              (FaceMatcher.init default_config (Some 0.9%float))
              (Stub.uniform 2 2 100) (Stub.uniform 2 2 120) d eq_refl Hd)
    as [d' [Hd' [Hm _]]].
  exists d, d'. split; [exact Hd|]. split; [exact Hd'|exact Hm].
Defined.

(** X10.  The default comparison is monotone in the tolerance: with a
    larger (or equal) Config.FACE_DISTANCE_THRESHOLD the same distance and
    scores are reported, and every pair that matched still matches. *)
Theorem compare_faces_dlib_tolerance_monotone (L : Lib)
    (strict lenient : FaceMatcher.t) (face1 face2 : ndarray)
    (d_strict : gmap string pyval) :
  PrimFloat.leb (FaceMatcher.distance_threshold strict)
                (FaceMatcher.distance_threshold lenient) = true ->
  FaceMatcher.compare_faces_dlib L strict face1 face2 = Return d_strict ->
  exists d_lenient,
    FaceMatcher.compare_faces_dlib L lenient face1 face2 = Return d_lenient
    /\ (d_strict !! "match" = Some (PyBool true) ->
        d_lenient !! "match" = Some (PyBool true))
    /\ (forall k, k <> "match"%string -> d_lenient !! k = d_strict !! k).
Proof.
  intros Hle. unfold FaceMatcher.compare_faces_dlib.
  destruct (if Nat.eqb (ndim face1) 3 then cvtColor_BGR2RGB L face1 else Return face1)
    as [rgb1|e]; [|discriminate].
  destruct (if Nat.eqb (ndim face2) 3 then cvtColor_BGR2RGB L face2 else Return face2)
    as [rgb2|e]; [|discriminate].
  cbn [bind].
  destruct (face_encodings L rgb1) as [|e1 r1], (face_encodings L rgb2) as [|e2 r2];
    intros [= <-]; eexists; (split; [reflexivity|]);
    try (split; [intros H; exact H | intros k _; reflexivity]).
  split.
  - rewrite !(lookup_insert_ne _ "success") by discriminate.
    rewrite !lookup_insert_eq. unfold FaceMatcher.fr_compare_faces.
    intros [= H]. do 2 f_equal.
    eapply float_leb_trans; eassumption.
  - intros k Hk. apply lookup_besides_match. exact Hk.
Qed.

Lemma compare_faces_dlib_tolerance_monotone_witness :
  exists d_strict d_lenient,
    FaceMatcher.compare_faces_dlib Stub.lib
      {| FaceMatcher.threshold := 0.6; FaceMatcher.distance_threshold := 0.05 |}
      (Stub.uniform 2 2 100) (Stub.uniform 2 2 120) = Return d_strict
    /\ FaceMatcher.compare_faces_dlib Stub.lib
         (FaceMatcher.init default_config None)
         (Stub.uniform 2 2 100) (Stub.uniform 2 2 120) = Return d_lenient
    /\ (d_strict !! "match" = Some (PyBool true) ->
        d_lenient !! "match" = Some (PyBool true)).
Proof.
  eexists.
  destruct (compare_faces_dlib_tolerance_monotone Stub.lib
              {| FaceMatcher.threshold := 0.6; FaceMatcher.distance_threshold := 0.05 |}
              (FaceMatcher.init default_config None)
              (Stub.uniform 2 2 100) (Stub.uniform 2 2 120) _ eq_refl eq_refl)
    as [d' [Hd' [Hm _]]].
  exists d'. split; [reflexivity|]. split; [exact Hd'|exact Hm].
Defined.

(** X11.  The structural method has no face check: on a pair of well-formed
    images in one of which the encoder finds no face, the default method
    reports failure, while [match_faces] with method "opencv" reports
    success and scores the pair. *)
Theorem match_faces_opencv_skips_face_check (L : Lib) (self : FaceMatcher.t)
    (face1 face2 : ndarray) :
  is_image face1 = true -> is_image face2 = true ->
  face_encodings L (rgb_of L face1) = [] \/ face_encodings L (rgb_of L face2) = [] ->
  exists d_dlib d_opencv,
    FaceMatcher.match_faces L self face1 face2 "dlib" = Return d_dlib
    /\ d_dlib !! "success" = Some (PyBool false)
    /\ FaceMatcher.match_faces L self face1 face2 "opencv" = Return d_opencv
    /\ d_opencv !! "success" = Some (PyBool true)
    /\ d_opencv !! "error" = None.
Proof.
  intros H1 H2 He.
  destruct (compare_faces_dlib_no_encoding L self face1 face2 H1 H2 He) as [d1 [Hd1 Hs1]].
  destruct (compare_faces_opencv_returns L self face1 face2 H1 H2) as [d2 [Hd2 [Hs2 He2]]].
  exists d1, d2. unfold FaceMatcher.match_faces. simpl String.eqb.
  repeat split; assumption.
Qed.

Lemma match_faces_opencv_skips_face_check_witness :
  exists d_opencv,
    FaceMatcher.match_faces Stub.lib (FaceMatcher.init default_config None)
      faceless (Stub.uniform 2 2 120) "opencv" = Return d_opencv
    /\ d_opencv !! "success" = Some (PyBool true).
Proof.
  destruct (match_faces_opencv_skips_face_check Stub.lib
              (FaceMatcher.init default_config None) faceless (Stub.uniform 2 2 120)
              eq_refl eq_refl (or_introl eq_refl))
    as [d1 [d2 [_ [_ [Hd2 [Hs2 _]]]]]].
  exists d2. split; assumption.
Defined.

(** ** Further properties of the comparison image *)

Section RenderErrors.
Context (L : Lib).
Import FaceMatcher.

Lemma resize_no_width a new_w h :
  new_w <= 0 -> resize L a (new_w, h) = Raise Cv2Error.
Proof.
  intros Hw. unfold resize.
  destruct (is_empty a); [reflexivity|].
  destruct (negb _); [reflexivity|].
  replace (new_w <=? 0) with true by (symmetry; apply Z.leb_le; exact Hw).
  reflexivity.
Qed.

Lemma hstack_layouts r1 r2 h wa wb ca cb :
  shape r1 = h :: wa :: ca -> shape r2 = h :: wb :: cb -> ca <> cb ->
  hstack r1 r2 = Raise ValueError.
Proof.
  intros H1 H2 Hc. unfold hstack. rewrite H1, H2, Nat.eqb_refl.
  unfold shape_eqb. rewrite bool_decide_eq_false_2 by exact Hc. reflexivity.
Qed.

End RenderErrors.

(** X12.  [create_comparison_image] does not guard the scaled widths: as
    soon as [int(w * (300 / h))] is 0 (or less) for one of the two crops,
    the call raises cv2.error, whatever the pixels and the match result. *)
Theorem create_comparison_image_zero_width (L : Lib) (self : FaceMatcher.t)
    (face1 face2 : ndarray) (match_result : gmap string pyval)
    (h1 w1 h2 w2 : nat) (channels1 channels2 : list nat) (new_w1 new_w2 : Z) :
  shape face1 = h1 :: w1 :: channels1 ->
  shape face2 = h2 :: w2 :: channels2 ->
  FaceMatcher.scaled_width (Z.of_nat w1) (Z.of_nat h1) 300 = Return new_w1 ->
  FaceMatcher.scaled_width (Z.of_nat w2) (Z.of_nat h2) 300 = Return new_w2 ->
  new_w1 <= 0 \/ new_w2 <= 0 ->
  FaceMatcher.create_comparison_image L self face1 face2 match_result
  = Raise Cv2Error.
Proof.
  intros Hs1 Hs2 Hw1 Hw2 Hz.
  unfold FaceMatcher.create_comparison_image.
  rewrite (shape2_image face1 h1 w1 channels1 Hs1).
  rewrite (shape2_image face2 h2 w2 channels2 Hs2). cbn [bind fst snd].
  rewrite Hw1, Hw2. cbn [bind fst snd].
  destruct (resize L face1 (new_w1, 300)) as [r1|e] eqn:Hr1.
  - cbn [bind]. destruct Hz as [Hz|Hz].
    + rewrite (resize_no_width L face1 new_w1 300 Hz) in Hr1. discriminate.
    + rewrite (resize_no_width L face2 new_w2 300 Hz). reflexivity.
  - apply resize_raise in Hr1 as ->. reflexivity.
Qed.

Lemma create_comparison_image_zero_width_witness :
  FaceMatcher.create_comparison_image Stub.lib (FaceMatcher.init default_config None)
    (Stub.uniform 2 2 120) (Stub.uniform 700 2 100) ∅ = Raise Cv2Error.
Proof.
  apply (create_comparison_image_zero_width Stub.lib _ _ _ _ 2 2 700 2
           [3%nat] [3%nat] 300 0).
  - reflexivity.
  - reflexivity.
  - vm_compute. reflexivity.
  - vm_compute. reflexivity.
  - right. lia.
Defined.

(** X13.  The two crops must have the same layout: a gray crop beside a
    colour crop, or a crop of 3 channels beside one of 4, both non-empty
    and of positive scaled width, make [create_comparison_image] raise
    ValueError at the concatenation. *)
Theorem create_comparison_image_mixed_layouts (L : Lib) (self : FaceMatcher.t)
    (face1 face2 : ndarray) (match_result : gmap string pyval)
    (h1 w1 h2 w2 : nat) (channels1 channels2 : list nat) (new_w1 new_w2 : Z) :
  shape face1 = h1 :: w1 :: channels1 ->
  shape face2 = h2 :: w2 :: channels2 ->
  image_channels channels1 -> image_channels channels2 ->
  channels1 <> channels2 ->
  is_empty face1 = false -> is_empty face2 = false ->
  FaceMatcher.scaled_width (Z.of_nat w1) (Z.of_nat h1) 300 = Return new_w1 ->
  FaceMatcher.scaled_width (Z.of_nat w2) (Z.of_nat h2) 300 = Return new_w2 ->
  0 < new_w1 -> 0 < new_w2 ->
  FaceMatcher.create_comparison_image L self face1 face2 match_result
  = Raise ValueError.
Proof.
  intros Hs1 Hs2 Hc1 Hc2 Hne He1 He2 Hw1 Hw2 Hp1 Hp2.
  unfold FaceMatcher.create_comparison_image.
  rewrite (shape2_image face1 h1 w1 channels1 Hs1).
  rewrite (shape2_image face2 h2 w2 channels2 Hs2). cbn [bind fst snd].
  rewrite Hw1, Hw2. cbn [bind fst snd].
  rewrite (resize_image L face1 h1 w1 channels1 new_w1 Hs1 Hc1 He1 Hp1).
  rewrite (resize_image L face2 h2 w2 channels2 new_w2 Hs2 Hc2 He2 Hp2).
  cbn [bind fst snd].
  match goal with
  | |- context [hstack ?r1 ?r2] =>
    rewrite (hstack_layouts r1 r2 300%nat (Z.to_nat new_w1) (Z.to_nat new_w2)
               channels1 channels2 eq_refl eq_refl Hne)
  end.
  reflexivity.
Qed.

Lemma create_comparison_image_mixed_layouts_witness :
  FaceMatcher.create_comparison_image Stub.lib (FaceMatcher.init default_config None)
    {| shape := [2; 2]%nat; data := [10; 20; 30; 40]%float |}
    (Stub.uniform 2 2 120) ∅ = Raise ValueError.
Proof.
  apply (create_comparison_image_mixed_layouts Stub.lib _ _ _ _ 2 2 2 2
           [] [3%nat] 300 300).
  - reflexivity.
  - reflexivity.
  - left. reflexivity.
  - right. left. reflexivity.
  - discriminate.
  - reflexivity.
  - reflexivity.
  - vm_compute. reflexivity.
  - vm_compute. reflexivity.
  - lia.
  - lia.
Defined.

(** X14.  A first crop without rows makes [create_comparison_image] raise
    ZeroDivisionError: the ratio 300 / h is taken before OpenCV sees the
    image. *)
Theorem create_comparison_image_no_rows (L : Lib) (self : FaceMatcher.t)
    (face1 face2 : ndarray) (match_result : gmap string pyval)
    (w1 h2 w2 : nat) (channels1 channels2 : list nat) :
  shape face1 = 0%nat :: w1 :: channels1 ->
  shape face2 = h2 :: w2 :: channels2 ->
  FaceMatcher.create_comparison_image L self face1 face2 match_result
  = Raise ZeroDivisionError.
Proof.
  intros Hs1 Hs2. unfold FaceMatcher.create_comparison_image.
  rewrite (shape2_image face1 0 w1 channels1 Hs1).
  rewrite (shape2_image face2 h2 w2 channels2 Hs2). reflexivity.
Qed.

Lemma create_comparison_image_no_rows_witness :
  FaceMatcher.create_comparison_image Stub.lib (FaceMatcher.init default_config None)
    {| shape := [0; 5; 3]%nat; data := [] |} (Stub.uniform 2 2 120) ∅
  = Raise ZeroDivisionError.
Proof.
  apply (create_comparison_image_no_rows Stub.lib _ _ _ _ 5 2 2 [3%nat] [3%nat]);
    reflexivity.
Defined.

(** ** File names *)

Section FileNames.
Context (U : Unicode).

Lemma rstrip_prefix s : rstrip U s `prefix_of` s.
Proof.
  induction s as [|c s IH]; simpl.
  - reflexivity.
  - destruct (rstrip U s) as [|x r].
    + destruct (isspace U c).
      * apply prefix_nil.
      * apply prefix_cons, prefix_nil.
    + apply prefix_cons. exact IH.
Qed.

Lemma rstrip_sublist s : rstrip U s `sublist_of` s.
Proof.
  destruct (rstrip_prefix s) as [k Hk].
  remember (rstrip U s) as r. rewrite Hk.
  apply sublist_inserts_r. reflexivity.
Qed.

Lemma rstrip_idempotent s : rstrip U (rstrip U s) = rstrip U s.
Proof.
  induction s as [|c s IH]; simpl.
  - reflexivity.
  - destruct (rstrip U s) as [|x r] eqn:Hr.
    + destruct (isspace U c) eqn:Hc; simpl; [reflexivity|].
      rewrite Hc. reflexivity.
    + change (rstrip U (c :: x :: r)) with
        (match rstrip U (x :: r) with
         | [] => if isspace U c then [] else [c]
         | r' => c :: r'
         end).
      rewrite IH. reflexivity.
Qed.

Lemma rstrip_last s c : last (rstrip U s) = Some c -> isspace U c = false.
Proof.
  induction s as [|x s IH]; simpl.
  - discriminate.
  - destruct (rstrip U s) as [|y r].
    + destruct (isspace U x) eqn:Hx; simpl; [discriminate|]. congruence.
    + intros H. apply IH. exact H.
Qed.

Lemma rstrip_fixed s :
  (forall c, last s = Some c -> isspace U c = false) -> rstrip U s = s.
Proof.
  induction s as [|x s IH]; intros H; simpl.
  - reflexivity.
  - destruct s as [|y s'].
    + simpl. rewrite (H x eq_refl). reflexivity.
    + rewrite IH by (intros c Hc; apply H; exact Hc). reflexivity.
Qed.

Lemma filter_all {A} (P : A -> Prop) `{forall x, Decision (P x)} (l : list A) :
  Forall P l -> filter P l = l.
Proof.
  induction 1 as [|x l Hx _ IH].
  - reflexivity.
  - rewrite filter_cons_True by exact Hx. rewrite IH. reflexivity.
Qed.

Lemma sanitize_filename_kept filename :
  Forall (fun c => kept U c = true) (sanitize_filename U filename).
Proof.
  unfold sanitize_filename.
  assert (H : Forall (fun c => kept U c = true)
                     (filter (fun c => kept U c = true) filename)).
  { apply Forall_forall. intros c Hc. apply list_elem_of_filter in Hc as [Hc _].
    exact Hc. }
  destruct (rstrip_prefix (filter (fun c => kept U c = true) filename)) as [k Hk].
  rewrite Hk in H. apply Forall_app in H as [H _]. exact H.
Qed.

End FileNames.

(** X15.  [sanitize_filename] is idempotent: a sanitized name is
    sanitized to itself.  More generally a name made of alphanumeric
    characters and of '.', '_', '-' that does not end with whitespace is
    returned unchanged. *)
Theorem sanitize_filename_idempotent (U : Unicode) (filename : list Z) :
  sanitize_filename U (sanitize_filename U filename) = sanitize_filename U filename
  /\ (Forall (fun c => isalnum U c = true \/ c ∈ keepcharacters) filename ->
      (forall c, last filename = Some c -> isspace U c = false) ->
      sanitize_filename U filename = filename).
Proof.
  split.
  - unfold sanitize_filename at 1.
    rewrite (filter_all _ _ (sanitize_filename_kept U filename)).
    unfold sanitize_filename. apply rstrip_idempotent.
  - intros Hk Hlast. unfold sanitize_filename.
    rewrite filter_all; [apply rstrip_fixed; exact Hlast|].
    eapply Forall_impl; [exact Hk|].
    intros c [Hc|Hc]; unfold kept.
    + rewrite Hc. reflexivity.
    + rewrite (bool_decide_eq_true_2 _ Hc). apply orb_true_r.
Qed.

Lemma sanitize_filename_idempotent_witness :
  sanitize_filename ascii_tables (codes "scan_01.final-v2.jpg")
  = codes "scan_01.final-v2.jpg".
Proof.
  apply (proj2 (sanitize_filename_idempotent ascii_tables
                  (codes "scan_01.final-v2.jpg"))).
  - repeat (constructor;
      [first [ left; reflexivity
             | right; vm_compute;
               repeat first [apply list_elem_of_here | apply list_elem_of_further] ]|]).
    constructor.
  - intros c [= <-]. reflexivity.
Defined.

(** X16.  What [sanitize_filename] returns is made of characters of the
    input, in their order; each is alphanumeric or one of '.', '_', '-';
    the last one is no whitespace.  So a character that is neither
    alphanumeric nor one of the three, such as a path separator, never
    appears in a sanitized name. *)
Theorem sanitize_filename_safe (U : Unicode) (filename : list Z) :
  sanitize_filename U filename `sublist_of` filename
  /\ Forall (fun c => isalnum U c = true \/ c ∈ keepcharacters)
            (sanitize_filename U filename)
  /\ (forall c, last (sanitize_filename U filename) = Some c -> isspace U c = false)
  /\ (forall c, isalnum U c = false -> c ∉ keepcharacters ->
                c ∉ sanitize_filename U filename).
Proof.
  assert (Hk : Forall (fun c => isalnum U c = true \/ c ∈ keepcharacters)
                      (sanitize_filename U filename)).
  { eapply Forall_impl; [apply sanitize_filename_kept|].
    intros c Hc. unfold kept in Hc. apply orb_true_iff in Hc as [Hc|Hc].
    - left. exact Hc.
    - right. apply bool_decide_eq_true in Hc. exact Hc. }
  split; [|split; [exact Hk|split]].
  - unfold sanitize_filename.
    transitivity (filter (fun c => kept U c = true) filename).
    + apply rstrip_sublist.
    + apply sublist_filter.
  - intros c. unfold sanitize_filename. apply rstrip_last.
  - intros c Ha Hn Hc. rewrite Forall_forall in Hk.
    destruct (Hk c Hc) as [H|H]; [congruence|contradiction].
Qed.

Lemma sanitize_filename_safe_witness :
  isalnum ascii_tables 47 = false
  /\ 47 ∉ sanitize_filename ascii_tables (codes "../etc/pass wd.txt ").
Proof.
  split; [reflexivity|].
  apply (proj2 (proj2 (proj2 (sanitize_filename_safe ascii_tables
                                (codes "../etc/pass wd.txt "))))).
  - reflexivity.
  - unfold keepcharacters. intros H.
    repeat (apply elem_of_cons in H as [H|H]; [discriminate|]).
    apply elem_of_nil in H. exact H.
Defined.

(** The dots of a relative path survive, its separators do not. *)
Example sanitize_filename_relative_path :
  sanitize_filename ascii_tables (codes "../etc/pass wd.txt ")
  = codes "..etcpasswd.txt".
Proof. vm_compute. reflexivity. Qed.

(** ** Slices and crops *)

Section Slices.
Local Open Scope nat_scope.

Lemma slice_bound_range (i : Z) (n : nat) :
  (0 <= slice_bound i (Z.of_nat n) <= Z.of_nat n)%Z.
Proof.
  unfold slice_bound. destruct (Z.ltb_spec i 0); lia.
Qed.

Lemma slice_length_fits (start stop : Z) (n : nat) :
  Z.to_nat (slice_bound start (Z.of_nat n)) + slice_length start stop n <= n.
Proof.
  unfold slice_length.
  pose proof (slice_bound_range start n). pose proof (slice_bound_range stop n). lia.
Qed.

Lemma slice_length_inside (start stop : Z) (n : nat) :
  (0 <= start <= stop)%Z -> (stop <= Z.of_nat n)%Z ->
  slice_length start stop n = Z.to_nat (stop - start)
  /\ Z.to_nat (slice_bound start (Z.of_nat n)) = Z.to_nat start.
Proof.
  intros H1 H2. unfold slice_length, slice_bound.
  destruct (Z.ltb_spec start 0), (Z.ltb_spec stop 0); lia.
Qed.

Lemma length_py_slice {A} (l : list A) (start stop : Z) :
  length (py_slice l start stop) = slice_length start stop (length l).
Proof.
  unfold py_slice. rewrite length_take, length_drop.
  pose proof (slice_length_fits start stop (length l)). lia.
Qed.

Lemma py_slice_lookup {A} (l : list A) (start stop : Z) (i : nat) :
  i < slice_length start stop (length l) ->
  py_slice l start stop !! i
  = l !! (Z.to_nat (slice_bound start (Z.of_nat (length l))) + i).
Proof.
  intros H. unfold py_slice. rewrite lookup_take_lt by exact H.
  apply lookup_drop.
Qed.

Lemma Forall_py_slice {A} (P : A -> Prop) (l : list A) (start stop : Z) :
  Forall P l -> Forall P (py_slice l start stop).
Proof. intros H. unfold py_slice. apply Forall_take, Forall_drop, H. Qed.

Lemma length_blocks {A} (count size : nat) (l : list A) :
  length (blocks count size l) = count.
Proof.
  revert l. induction count as [|count IH]; intros l; simpl; [reflexivity|].
  rewrite IH. reflexivity.
Qed.

Lemma blocks_lengths {A} (count size : nat) (l : list A) :
  length l = count * size ->
  Forall (fun b => length b = size) (blocks count size l).
Proof.
  revert l. induction count as [|count IH]; intros l Hl; simpl.
  - constructor.
  - constructor.
    + rewrite length_take. lia.
    + apply IH. rewrite length_drop. lia.
Qed.

Lemma blocks_lookup {A} (count size : nat) (l : list A) (i : nat) :
  i < count -> blocks count size l !! i = Some (take size (drop (i * size) l)).
Proof.
  revert l i. induction count as [|count IH]; intros l i Hi; [lia|].
  destruct i as [|i]; simpl.
  - reflexivity.
  - rewrite IH by lia. rewrite drop_drop. reflexivity.
Qed.

Lemma length_concat_uniform {A} (n : nat) (ls : list (list A)) :
  Forall (fun l => length l = n) ls -> length (concat ls) = length ls * n.
Proof.
  induction 1 as [|l ls Hl _ IH]; simpl; [reflexivity|].
  rewrite length_app, IH, Hl. reflexivity.
Qed.

Lemma lookup_concat_uniform {A} (n : nat) (ls : list (list A)) (j i : nat) l :
  Forall (fun l => length l = n) ls -> i < n -> ls !! j = Some l ->
  concat ls !! (j * n + i) = l !! i.
Proof.
  intros H. revert j. induction H as [|l0 ls Hl _ IH]; intros j Hi Hj.
  - discriminate.
  - destruct j as [|j]; simpl in *.
    + injection Hj as ->. apply lookup_app_l. lia.
    + rewrite lookup_app_r by lia.
      replace (n + j * n + i - length l0) with (j * n + i) by lia.
      apply IH; assumption.
Qed.

(** The entries of a row cut between two columns. *)
Lemma crop_row_lookup (row : list float) (w c : nat) (c0 c1 : Z) (j k : nat) :
  length row = w * c ->
  j < slice_length c0 c1 w -> k < c ->
  concat (py_slice (blocks w c row) c0 c1) !! (j * c + k)
  = row !! ((Z.to_nat (slice_bound c0 (Z.of_nat w)) + j) * c + k).
Proof.
  intros Hrow Hj Hk.
  pose proof (slice_length_fits c0 c1 w) as Hfit.
  rewrite (lookup_concat_uniform c _ j k
             (take c (drop ((Z.to_nat (slice_bound c0 (Z.of_nat w)) + j) * c) row))).
  - rewrite lookup_take_lt by exact Hk. rewrite lookup_drop. reflexivity.
  - apply Forall_py_slice, blocks_lengths, Hrow.
  - exact Hk.
  - rewrite py_slice_lookup by (rewrite length_blocks; exact Hj).
    rewrite length_blocks. apply blocks_lookup. lia.
Qed.

Lemma crop_row_length (row : list float) (w c : nat) (c0 c1 : Z) :
  length row = w * c ->
  length (concat (py_slice (blocks w c row) c0 c1)) = slice_length c0 c1 w * c.
Proof.
  intros Hrow.
  rewrite (length_concat_uniform c)
    by (apply Forall_py_slice, blocks_lengths, Hrow).
  rewrite length_py_slice, length_blocks. reflexivity.
Qed.

(** The crop of a well-formed array: its shape, the number of its entries,
    and where each entry comes from. *)
Lemma getitem_slices_spec (a : ndarray) (h w : nat) (channels : list nat)
    (r0 r1 c0 c1 : Z) :
  shape a = h :: w :: channels ->
  let c := fold_right Nat.mul 1 channels in
  let rows := slice_length r0 r1 h in
  let cols := slice_length c0 c1 w in
  let row0 := Z.to_nat (slice_bound r0 (Z.of_nat h)) in
  let col0 := Z.to_nat (slice_bound c0 (Z.of_nat w)) in
  exists face,
    getitem_slices a r0 r1 c0 c1 = Return face
    /\ shape face = rows :: cols :: channels
    /\ (length (data a) = nd_size a ->
        length (data face) = nd_size face
        /\ forall i j k, i < rows -> j < cols -> k < c ->
             data face !! ((i * cols + j) * c + k)
             = data a !! (((row0 + i) * w + (col0 + j)) * c + k)).
Proof.
  intros Hs c rows cols row0 col0. unfold getitem_slices. rewrite Hs.
  eexists. split; [reflexivity|]. split; [reflexivity|].
  unfold nd_size. rewrite Hs. cbn [shape data fold_right].
  fold c. intros Hlen.
  assert (Hblocks : Forall (fun b : list float => length b = w * c)
                           (blocks h (w * c) (data a))).
  { apply blocks_lengths. lia. }
  assert (Hrows : Forall (fun b : list float => length b = w * c)
                         (py_slice (blocks h (w * c) (data a)) r0 r1)).
  { apply Forall_py_slice, Hblocks. }
  assert (Hcropped :
            Forall (fun b : list float => length b = cols * c)
                   (map (fun row => concat (py_slice (blocks w c row) c0 c1))
                        (py_slice (blocks h (w * c) (data a)) r0 r1))).
  { apply Forall_map. eapply Forall_impl; [exact Hrows|].
    intros row Hrow. simpl. apply crop_row_length. exact Hrow. }
  split.
  - rewrite (length_concat_uniform (cols * c)) by exact Hcropped.
    rewrite length_map, length_py_slice, length_blocks. fold rows. lia.
  - intros i j k Hi Hj Hk.
    pose proof (slice_length_fits r0 r1 h) as Hfit. fold rows row0 in Hfit.
    pose proof (slice_length_fits c0 c1 w) as Hfitc. fold cols col0 in Hfitc.
    replace ((i * cols + j) * c + k) with (i * (cols * c) + (j * c + k)) by lia.
    rewrite (lookup_concat_uniform (cols * c) _ i (j * c + k)
               (concat (py_slice (blocks w c
                          (take (w * c) (drop ((row0 + i) * (w * c)) (data a))))
                          c0 c1))).
    + rewrite crop_row_lookup; [|rewrite length_take, length_drop; nia|exact Hj|exact Hk].
      fold col0.
      rewrite lookup_take_lt by nia.
      rewrite lookup_drop. f_equal. lia.
    + exact Hcropped.
    + nia.
    + rewrite list_lookup_fmap.
      rewrite py_slice_lookup by (rewrite length_blocks; exact Hi).
      rewrite length_blocks. fold row0.
      rewrite blocks_lookup by lia. reflexivity.
Qed.

End Slices.

(** X17.  [crop_face_region] on a box inside the image returns the pixels
    of the box: an array of bottom - top rows and right - left columns with
    the channels of the image, whose entry (i, j, k) is the entry
    (top + i, left + j, k) of the image. *)
Theorem crop_face_region_pixels (image : ndarray) (h w : nat) (channels : list nat)
    (top right bottom left : Z) :
  shape image = h :: w :: channels ->
  length (data image) = nd_size image ->
  0 <= top <= bottom -> bottom <= Z.of_nat h ->
  0 <= left <= right -> right <= Z.of_nat w ->
  let c := fold_right Nat.mul 1%nat channels in
  let rows := Z.to_nat (bottom - top) in
  let cols := Z.to_nat (right - left) in
  exists face,
    crop_face_region image (top, right, bottom, left) = Return face
    /\ shape face = rows :: cols :: channels
    /\ length (data face) = nd_size face
    /\ forall i j k, (i < rows)%nat -> (j < cols)%nat -> (k < c)%nat ->
         data face !! ((i * cols + j) * c + k)%nat
         = data image !! (((Z.to_nat top + i) * w + (Z.to_nat left + j)) * c + k)%nat.
Proof.
  intros Hs Hlen Ht Hb Hl Hr c rows cols. unfold crop_face_region.
  destruct (getitem_slices_spec image h w channels top bottom left right Hs)
    as [face [Hface [Hshape Hdata]]].
  destruct (Hdata Hlen) as [Hlen' Hpix].
  destruct (slice_length_inside top bottom h Ht Hb) as [Hrows Hrow0].
  destruct (slice_length_inside left right w Hl Hr) as [Hcols Hcol0].
  rewrite Hrows, Hcols in Hshape. rewrite Hrows, Hcols, Hrow0, Hcol0 in Hpix.
  exists face. split; [exact Hface|]. split; [exact Hshape|].
  split; [exact Hlen'|exact Hpix].
Qed.

Lemma crop_face_region_pixels_witness :
  exists face,
    crop_face_region sample_image (1, 3, 2, 1) = Return face
    /\ shape face = [1; 2; 3]%nat
    /\ data face !! 0%nat = data sample_image !! 12%nat.
Proof.
  destruct (crop_face_region_pixels sample_image 2 3 [3%nat] 1 3 2 1)
    as [face [Hface [Hshape [_ Hpix]]]].
  - reflexivity.
  - reflexivity.
  - lia.
  - simpl. lia.
  - lia.
  - simpl. lia.
  - exists face. split; [exact Hface|]. split; [exact Hshape|].
    apply (Hpix 0%nat 0%nat 0%nat); simpl; lia.
Defined.



(** ** The face detector *)

Section DetectorFacts.
Context (L : Lib) (D : FaceDetector.Detectors) (MIN_FACE_SIZE : Z).
Import FaceDetector.

Lemma py_max_key_spec {A} (key : A -> Z) (rest : list A) :
  forall best,
    py_max_key key best rest ∈ best :: rest
    /\ forall x, x ∈ best :: rest -> key x <= key (py_max_key key best rest).
Proof.
  induction rest as [|y rest IH]; intros best; simpl.
  - split; [apply list_elem_of_here|].
    intros x Hx. apply list_elem_of_singleton in Hx as ->. lia.
  - destruct (IH (if key best <? key y then y else best)) as [Hin Hmax].
    split.
    + apply elem_of_cons in Hin as [Hin|Hin].
      * rewrite Hin. destruct (key best <? key y).
        -- apply list_elem_of_further, list_elem_of_here.
        -- apply list_elem_of_here.
      * do 2 apply list_elem_of_further. exact Hin.
    + intros x Hx.
      assert (Hb : key best <= key (if key best <? key y then y else best)
                   /\ key y <= key (if key best <? key y then y else best)).
      { destruct (Z.ltb_spec (key best) (key y)); lia. }
      pose proof (Hmax _ (list_elem_of_here _ _)) as Hm.
      apply elem_of_cons in Hx as [->|Hx]; [lia|].
      apply elem_of_cons in Hx as [->|Hx]; [lia|].
      apply Hmax. apply list_elem_of_further. exact Hx.
Qed.

Lemma is_image_shape image :
  is_image image = true -> exists h w channels, shape image = h :: w :: channels.
Proof.
  unfold is_image, color_channels, ndim. intros H.
  apply andb_true_iff in H as [_ H].
  destruct (shape image) as [|h [|w channels]]; simpl in H; try discriminate;
    eauto.
Qed.

(** An array on which [check_image_quality] returns has entries. *)
Lemma check_image_quality_not_empty image q :
  check_image_quality L image = Return q -> is_empty image = false.
Proof.
  unfold check_image_quality.
  destruct (Nat.eqb (ndim image) 3).
  - unfold cvtColor_BGR2GRAY. destruct (is_empty image); [discriminate|reflexivity].
  - cbn [bind]. unfold Laplacian.
    destruct (is_empty image); [discriminate|reflexivity].
Qed.

End DetectorFacts.

(** X19.  [extract_largest_face] returns None exactly when the detector
    reports no face; otherwise it returns one of the reported locations,
    of an area no other location exceeds, together with the crop of the
    image at that location. *)
Theorem extract_largest_face_maximal (L : Lib) (D : FaceDetector.Detectors)
    (MIN_FACE_SIZE : Z) (image : ndarray) (locations : list location) :
  is_image image = true ->
  FaceDetector.face_locations D (rgb_of L image) = Return locations ->
  (locations = [] -> FaceDetector.extract_largest_face L D MIN_FACE_SIZE image = Return None)
  /\ (locations <> [] ->
      exists face_image largest_face,
        FaceDetector.extract_largest_face L D MIN_FACE_SIZE image
        = Return (Some (face_image, largest_face))
        /\ largest_face ∈ locations
        /\ (forall loc, loc ∈ locations ->
              FaceDetector.area loc <= FaceDetector.area largest_face)
        /\ crop_face_region image largest_face = Return face_image).
Proof.
  intros Himg Hloc.
  unfold FaceDetector.extract_largest_face, FaceDetector.detect_faces,
    FaceDetector.detect_faces_dlib.
  simpl String.eqb. cbv iota.
  rewrite (to_rgb_image L image Himg). cbn [bind]. rewrite Hloc. cbn [bind].
  split.
  - intros ->. reflexivity.
  - intros Hne. destruct locations as [|first rest]; [contradiction|].
    destruct (py_max_key_spec FaceDetector.area rest first) as [Hin Hmax].
    destruct (py_max_key FaceDetector.area first rest)
      as [[[top right] bottom] left] eqn:Hbest.
    destruct (is_image_shape image Himg) as [h [w [channels Hs]]].
    destruct (getitem_slices_spec image h w channels top bottom left right Hs)
      as [face [Hface _]].
    rewrite Hface. cbn [bind].
    exists face, (top, right, bottom, left).
    split; [reflexivity|]. split; [exact Hin|]. split; [exact Hmax|exact Hface].
Qed.

Lemma extract_largest_face_maximal_witness :
  exists face_image,
    FaceDetector.extract_largest_face Stub.lib stub_detectors 100 sample_image
    = Return (Some (face_image, (0, 3, 2, 0)))
    /\ shape face_image = [2; 3; 3]%nat.
Proof.
  destruct (extract_largest_face_maximal Stub.lib stub_detectors 100 sample_image
              [(0, 1, 1, 0); (0, 3, 2, 0)] eq_refl eq_refl) as [_ H].
  destruct H as [face [loc [Hface _]]]; [discriminate|].
  eexists. split; vm_compute; reflexivity.
Defined.

(** X20.  [detect_faces] with method "opencv" turns every box (x, y, w, h)
    of the Haar cascade into the location (y, x + w, y + h, x), in the order
    (top, right, bottom, left) that the crop expects: the crop of the image
    at the location of a box that lies inside it has h rows and w
    columns. *)
Theorem detect_faces_opencv_locations (L : Lib) (D : FaceDetector.Detectors)
    (MIN_FACE_SIZE : Z) (image : ndarray) (boxes : list (Z * Z * Z * Z))
    (rows cols : nat) (channels : list nat) :
  is_image image = true ->
  shape image = rows :: cols :: channels ->
  FaceDetector.cascade_detectMultiScale D (gray_of L image) MIN_FACE_SIZE
  = Return boxes ->
  exists locations,
    FaceDetector.detect_faces L D MIN_FACE_SIZE image "opencv" = Return locations
    /\ Forall2 (fun '(x, y, w, h) loc =>
                  loc = (y, x + w, y + h, x)
                  /\ (0 <= x -> 0 <= y -> 0 <= w -> 0 <= h ->
                      x + w <= Z.of_nat cols -> y + h <= Z.of_nat rows ->
                      exists face,
                        crop_face_region image loc = Return face
                        /\ shape face = Z.to_nat h :: Z.to_nat w :: channels))
               boxes locations.
Proof.
  intros Himg Hs Hboxes.
  unfold FaceDetector.detect_faces, FaceDetector.detect_faces_opencv.
  simpl String.eqb. cbv iota.
  rewrite (to_gray_image L image Himg). cbn [bind]. rewrite Hboxes. cbn [bind].
  eexists. split; [reflexivity|].
  clear Hboxes. induction boxes as [|[[[x y] w] h] boxes IH]; simpl.
  - constructor.
  - constructor; [|exact IH].
    split; [reflexivity|].
    intros Hx Hy Hw Hh Hxw Hyh. unfold crop_face_region.
    destruct (getitem_slices_spec image rows cols channels y (y + h) x (x + w) Hs)
      as [face [Hface [Hshape _]]].
    exists face. split; [exact Hface|]. rewrite Hshape.
    destruct (slice_length_inside y (y + h) rows ltac:(lia) ltac:(lia)) as [-> _].
    destruct (slice_length_inside x (x + w) cols ltac:(lia) ltac:(lia)) as [-> _].
    repeat f_equal; lia.
Qed.

Lemma detect_faces_opencv_locations_witness :
  FaceDetector.detect_faces Stub.lib stub_detectors 1 sample_image "opencv"
  = Return [(0, 3, 2, 0)].
Proof.
  destruct (detect_faces_opencv_locations Stub.lib stub_detectors 1 sample_image
              [(0, 0, 3, 2)] 2 3 [3%nat] eq_refl eq_refl eq_refl)
    as [locations [Hd H]].
  rewrite Hd. f_equal.
  inversion H as [|box loc boxes locs Hhead Hrest]; subst.
  simpl in Hhead. destruct Hhead as [-> _].
  inversion Hrest; subst. reflexivity.
Defined.

(** X21.  On a well-formed face image [validate_face_quality] returns the
    six entries of [check_image_quality] unchanged, with the width and the
    height of the image, their quotient as aspect ratio, the size test
    against Config.MIN_FACE_SIZE on both, and whether the eye cascade found
    two eyes or more. *)
Theorem validate_face_quality_entries (L : Lib) (D : FaceDetector.Detectors)
    (MIN_FACE_SIZE : Z) (face_image : ndarray) (h w : nat) (channels : list nat)
    (eyes : list (Z * Z * Z * Z)) :
  is_image face_image = true ->
  shape face_image = h :: w :: channels ->
  FaceDetector.eye_cascade_detectMultiScale D (gray_of L face_image) = Return eyes ->
  exists d q,
    FaceDetector.validate_face_quality L D MIN_FACE_SIZE face_image = Return d
    /\ check_image_quality L face_image = Return q
    /\ (forall k, k ∈ ["brightness"; "blur_score"; "contrast"; "is_bright_enough";
                       "is_sharp_enough"; "has_good_contrast"]%string ->
                  d !! k = q !! k)
    /\ d !! "width" = Some (PyInt (Z.of_nat w))
    /\ d !! "height" = Some (PyInt (Z.of_nat h))
    /\ d !! "aspect_ratio"
       = Some (PyFloat (float_of_Z (Z.of_nat w) / float_of_Z (Z.of_nat h)))
    /\ d !! "is_large_enough"
       = Some (PyBool ((MIN_FACE_SIZE <=? Z.of_nat w) && (MIN_FACE_SIZE <=? Z.of_nat h)))
    /\ d !! "eyes_detected" = Some (PyBool (2 <=? Z.of_nat (length eyes))).
Proof.
  intros Himg Hs Heyes.
  assert (Hh : h <> 0%nat).
  { unfold is_image in Himg. apply andb_true_iff in Himg as [He _].
    apply negb_true_iff, Nat.eqb_neq in He. unfold nd_size in He.
    rewrite Hs in He. cbn [fold_right] in He. intros ->. apply He. reflexivity. }
  unfold FaceDetector.validate_face_quality, FaceDetector.detect_eyes.
  rewrite (check_image_quality_image L face_image Himg). cbn [bind].
  rewrite (shape2_image face_image h w channels Hs). cbn [bind fst snd].
  replace (0 <? Z.of_nat h) with true by (symmetry; apply Z.ltb_lt; lia).
  unfold py_truediv. cbn [py_is_zero].
  replace (Z.of_nat h =? 0) with false by (symmetry; apply Z.eqb_neq; lia).
  cbn [bind to_float].
  rewrite (to_gray_image L face_image Himg). cbn [bind]. rewrite Heyes. cbn [bind].
  rewrite length_map.
  eexists. eexists. split; [reflexivity|]. split; [reflexivity|].
  split; [|repeat split; dict_lookup].
  intros k Hk.
  repeat (apply elem_of_cons in Hk as [->|Hk]; [dict_lookup|]).
  apply elem_of_nil in Hk. contradiction.
Qed.

Lemma validate_face_quality_entries_witness :
  exists d,
    FaceDetector.validate_face_quality Stub.lib stub_detectors 100 sample_image
    = Return d
    /\ d !! "width" = Some (PyInt 3)
    /\ d !! "height" = Some (PyInt 2)
    /\ d !! "aspect_ratio" = Some (PyFloat 1.5)
    /\ d !! "is_large_enough" = Some (PyBool false)
    /\ d !! "eyes_detected" = Some (PyBool true).
Proof.
  destruct (validate_face_quality_entries Stub.lib stub_detectors 100 sample_image
              2 3 [3%nat] [(0, 0, 1, 1); (1, 0, 1, 1)] eq_refl eq_refl eq_refl)
    as [d [q [Hd [_ [_ [Hw [Hh [Ha [Hl He]]]]]]]]].
  exists d. repeat split; assumption.
Defined.

(** X22.  The fallback [0] of the aspect ratio is dead code: whatever the
    array and whatever the libraries answer, a result that
    [validate_face_quality] returns holds a float as aspect ratio, because
    an image without rows makes the quality check raise before the ratio is
    taken. *)
Theorem validate_face_quality_aspect_ratio (L : Lib) (D : FaceDetector.Detectors)
    (MIN_FACE_SIZE : Z) (face_image : ndarray) (d : gmap string pyval) :
  FaceDetector.validate_face_quality L D MIN_FACE_SIZE face_image = Return d ->
  exists ratio, d !! "aspect_ratio" = Some (PyFloat ratio).
Proof.
  unfold FaceDetector.validate_face_quality.
  destruct (check_image_quality L face_image) as [q|e] eqn:Hq; [|discriminate].
  apply check_image_quality_not_empty in Hq. cbn [bind].
  destruct (FaceMatcher.shape2 face_image) as [[height width]|e] eqn:Hhw;
    cbn [bind fst snd]; [|discriminate].
  unfold FaceMatcher.shape2 in Hhw.
  destruct (shape face_image) as [|h [|w channels]] eqn:Hs; simpl in Hhw;
    try discriminate.
  injection Hhw as <- <-.
  assert (Hh : h <> 0%nat).
  { apply Nat.eqb_neq in Hq. unfold nd_size in Hq. rewrite Hs in Hq.
    cbn [fold_right] in Hq. intros ->. apply Hq. reflexivity. }
  replace (0 <? Z.of_nat h) with true by (symmetry; apply Z.ltb_lt; lia).
  unfold py_truediv. cbn [py_is_zero].
  replace (Z.of_nat h =? 0) with false by (symmetry; apply Z.eqb_neq; lia).
  cbn [bind to_float].
  destruct (FaceDetector.detect_eyes L D face_image) as [eyes|e]; cbn [bind];
    [|discriminate].
  intros [= <-]. eexists. dict_lookup.
Qed.

Lemma validate_face_quality_aspect_ratio_witness :
  exists d ratio,
    FaceDetector.validate_face_quality Stub.lib stub_detectors 100 sample_image
    = Return d
    /\ d !! "aspect_ratio" = Some (PyFloat ratio).
Proof.
  eexists.
  destruct (validate_face_quality_aspect_ratio Stub.lib stub_detectors 100
              sample_image _ eq_refl) as [ratio H].
  exists ratio. split; [reflexivity|exact H].
Defined.

(** ** The endpoints *)

Section EndpointFacts.
Context {Image Session : Type}.
Context (L : Lib) (cfg : Config) (D : FaceDetector.Detectors) (MIN_FACE_SIZE : Z).
Context (S : Api.Services Image Session).
Context (liveness_checker : LivenessChecker.t) (face_matcher : FaceMatcher.t).

Lemma extract_largest_face_none image :
  is_image image = true ->
  FaceDetector.face_locations D (rgb_of L image) = Return [] ->
  FaceDetector.extract_largest_face L D MIN_FACE_SIZE image = Return None.
Proof.
  intros Himg Hloc.
  unfold FaceDetector.extract_largest_face, FaceDetector.detect_faces,
    FaceDetector.detect_faces_dlib.
  simpl String.eqb. cbv iota.
  rewrite (to_rgb_image L image Himg). cbn [bind]. rewrite Hloc. reflexivity.
Qed.

(** What [compare_faces_dlib] can return. *)
Lemma compare_faces_dlib_results self face1 face2 d :
  FaceMatcher.compare_faces_dlib L self face1 face2 = Return d ->
  d = <["success" := PyBool false]>
      (<["error" := PyStr "Could not detect face in one or both images"]> ∅)
  \/ exists distance,
       d = <["success" := PyBool true]>
           (<["match" := PyBool (PrimFloat.leb distance
                                   (FaceMatcher.distance_threshold self))]>
           (<["distance" := PyFloat distance]>
           (<["similarity_score" := PyFloat (1 - distance)]>
           (<["confidence" := PyFloat ((1 - distance) * 100)]>
           (<["method" := PyStr "dlib"]> ∅))))).
Proof.
  unfold FaceMatcher.compare_faces_dlib.
  destruct (if Nat.eqb (ndim face1) 3 then cvtColor_BGR2RGB L face1 else Return face1)
    as [rgb1|e]; [|discriminate].
  destruct (if Nat.eqb (ndim face2) 3 then cvtColor_BGR2RGB L face2 else Return face2)
    as [rgb2|e]; [|discriminate].
  cbn [bind].
  destruct (face_encodings L rgb1) as [|e1 r1], (face_encodings L rgb2) as [|e2 r2];
    intros [= <-]; try (left; reflexivity).
  right. eexists. reflexivity.
Qed.

End EndpointFacts.

(** X23.  The liveness endpoint never answers with a client error: every
    HTTPException that leaves [capture_liveness] has status 500, because
    the handler [except Exception] also catches the HTTPException 400
    that the body raises for an image without a face. *)
Theorem capture_liveness_only_status_500 {Image Session : Type} (L : Lib)
    (cfg : Config) (D : FaceDetector.Detectors) (MIN_FACE_SIZE : Z)
    (S : Api.Services Image Session) (liveness_checker : LivenessChecker.t)
    (image_base64 : string) (status_code : Z) (detail : pyval) :
  Api.capture_liveness L cfg D MIN_FACE_SIZE S liveness_checker image_base64
  = Api.Raises (Api.HTTPException status_code detail) ->
  status_code = 500.
Proof.
  unfold Api.capture_liveness.
  destruct (Api.capture_liveness_body L cfg D MIN_FACE_SIZE S liveness_checker
              image_base64 None) as [db r].
  unfold Api.finally_close.
  destruct db as [session|]; [|discriminate].
  destruct (Api.db_close S session); [|discriminate].
  destruct r; intros [= <- _] || intros [= <-]; reflexivity.
Qed.

Lemma capture_liveness_only_status_500_witness :
  Api.capture_liveness Stub.lib default_config stub_detectors 100
    (stub_services true false)
    (LivenessChecker.init Stub.lib) "portrait"
  = Api.Raises (Api.HTTPException 500 (PyStr "No such file or directory"))
  /\ 500 = 500.
Proof.
  assert (H : Api.capture_liveness Stub.lib default_config stub_detectors 100
    (stub_services true false)
    (LivenessChecker.init Stub.lib) "portrait"
  = Api.Raises (Api.HTTPException 500 (PyStr "No such file or directory"))).
  { vm_compute. reflexivity. }
  split; [exact H|].
  exact (capture_liveness_only_status_500 _ _ _ _ _ _ _ _ _ H).
Defined.

(** X24.  An image in which the detector finds no face does not get the
    answer 400 "No face detected in image": the HTTPException is raised
    before [db] is assigned, so [finally: db.close()] raises
    UnboundLocalError, and that is what leaves [capture_liveness]. *)
Theorem capture_liveness_no_face {Image Session : Type} (L : Lib)
    (cfg : Config) (D : FaceDetector.Detectors) (MIN_FACE_SIZE : Z)
    (S : Api.Services Image Session) (liveness_checker : LivenessChecker.t)
    (image_base64 : string) (image : Image) (image_cv : ndarray) :
  Api.base64_to_image S image_base64 = Api.Done image ->
  Api.pil_to_cv2 S image = Api.Done image_cv ->
  is_bgr image_cv = true ->
  FaceDetector.face_locations D (rgb_of L image_cv) = Return [] ->
  Api.capture_liveness L cfg D MIN_FACE_SIZE S liveness_checker image_base64
  = Api.Raises (Api.UnboundLocalError "db").
Proof.
  intros Hdecode Hcv Himg Hloc.
  unfold Api.capture_liveness, Api.capture_liveness_body, Api.then_.
  rewrite Hdecode. cbn [Api.external Api.ret].
  rewrite Hcv. cbn [Api.external Api.ret].
  destruct (check_liveness_single L cfg image_cv liveness_checker Himg)
    as [d [q [p [-> _]]]].
  cbn [Api.core Api.ret].
  rewrite (extract_largest_face_none L D MIN_FACE_SIZE image_cv
             (is_bgr_is_image image_cv Himg) Hloc).
  reflexivity.
Qed.

Lemma capture_liveness_no_face_witness :
  Api.capture_liveness Stub.lib default_config stub_detectors 100
    (stub_services true true) (LivenessChecker.init Stub.lib) "blank"
  = Api.Raises (Api.UnboundLocalError "db").
Proof.
  apply (capture_liveness_no_face Stub.lib default_config stub_detectors 100
           (stub_services true true) (LivenessChecker.init Stub.lib) "blank"
           faceless faceless); reflexivity.
Defined.

(** X25.  The matching endpoint, unlike the liveness endpoint, lets its own
    HTTPExceptions through: when both records and both images are found and
    the encoder sees no face in one of the images, [match_faces] answers 400
    with the message of the matcher. *)
Theorem match_faces_endpoint_no_face {Image Session : Type} (L : Lib)
    (cfg : Config) (S : Api.Services Image Session) (face_matcher : FaceMatcher.t)
    (document_id liveness_id : Z) (session : Session)
    (doc_row live_row : option (option string)) (doc_path live_path : string)
    (doc_face live_face : ndarray) :
  Api.get_db_session S = Api.Done session ->
  Api.document_face_path S session document_id = Api.Done doc_row ->
  Api.usable_path doc_row = Some doc_path ->
  Api.liveness_image_path S session liveness_id = Api.Done live_row ->
  Api.usable_path live_row = Some live_path ->
  Api.imread S doc_path = Api.Done (Some doc_face) ->
  Api.imread S live_path = Api.Done (Some live_face) ->
  is_image doc_face = true -> is_image live_face = true ->
  face_encodings L (rgb_of L doc_face) = []
  \/ face_encodings L (rgb_of L live_face) = [] ->
  Api.db_close S session = Api.Done tt ->
  Api.match_faces L cfg S face_matcher document_id liveness_id
  = Api.Raises (Api.HTTPException 400
                  (PyStr "Could not detect face in one or both images")).
Proof.
  intros Hdb Hdoc Hdocp Hlive Hlivep Himg1 Himg2 Hf1 Hf2 Henc Hclose.
  unfold Api.match_faces, Api.match_faces_body, Api.then_.
  rewrite Hdb. cbn [Api.external Api.ret Api.assign_db].
  rewrite Hdoc. cbn [Api.external Api.ret]. rewrite Hdocp.
  rewrite Hlive. cbn [Api.external Api.ret]. rewrite Hlivep.
  rewrite Himg1. cbn [Api.external Api.ret].
  rewrite Himg2. cbn [Api.external Api.ret].
  unfold FaceMatcher.match_faces. simpl String.eqb. cbv iota.
  assert (Hd : FaceMatcher.compare_faces_dlib L face_matcher doc_face live_face
               = Return (<["success" := PyBool false]>
                         (<["error" :=
                              PyStr "Could not detect face in one or both images"]> ∅))).
  { unfold FaceMatcher.compare_faces_dlib.
    rewrite (to_rgb_image L doc_face Hf1), (to_rgb_image L live_face Hf2).
    cbn [bind].
    destruct (face_encodings L (rgb_of L doc_face)) as [|e1 r1],
             (face_encodings L (rgb_of L live_face)) as [|e2 r2];
      try reflexivity.
    destruct Henc; discriminate. }
  rewrite Hd. cbn [Api.core Api.ret]. unfold Api.getitem.
  rewrite lookup_insert_eq. cbn [Api.ret truthy negb].
  rewrite lookup_insert_ne by discriminate. rewrite lookup_insert_eq.
  cbn [default Api.raise]. unfold Api.finally_close. rewrite Hclose.
  reflexivity.
Qed.

Lemma match_faces_endpoint_no_face_witness :
  Api.match_faces Stub.lib default_config (stub_services true true)
    (FaceMatcher.init default_config None) 1 2
  = Api.Raises (Api.HTTPException 400
                  (PyStr "Could not detect face in one or both images")).
Proof.
  apply (match_faces_endpoint_no_face Stub.lib default_config (stub_services true true)
           (FaceMatcher.init default_config None) 1 2 tt
           (Some (Some "faces/document.jpg")) (Some (Some "faces/blank.jpg"))
           "faces/document.jpg" "faces/blank.jpg" sample_image faceless);
    try reflexivity.
  right. reflexivity.
Defined.

(** X26.  In a response of the matching endpoint the decision and the
    threshold it reports are not related: [match_passed] is the comparison
    of the reported distance with the distance threshold of the matcher
    (Config.FACE_DISTANCE_THRESHOLD), while [threshold_used] is
    Config.FACE_MATCH_THRESHOLD. *)
Theorem match_faces_endpoint_threshold {Image Session : Type} (L : Lib)
    (cfg : Config) (S : Api.Services Image Session) (face_matcher : FaceMatcher.t)
    (document_id liveness_id : Z) (response : gmap string pyval) :
  Api.match_faces L cfg S face_matcher document_id liveness_id
  = Api.Returns response ->
  exists distance,
    response !! "match_distance" = Some (PyFloat distance)
    /\ response !! "match_score" = Some (PyFloat (1 - distance))
    /\ response !! "match_passed"
       = Some (PyBool (PrimFloat.leb distance
                         (FaceMatcher.distance_threshold face_matcher)))
    /\ response !! "threshold_used" = Some (PyFloat (FACE_MATCH_THRESHOLD cfg)).
Proof.
  unfold Api.match_faces, Api.match_faces_body, Api.then_.
  destruct (Api.get_db_session S) as [session|m];
    cbn [Api.external Api.ret Api.raise Api.assign_db Api.finally_close];
    [|discriminate].
  assert (Hfin : forall (r : Api.Outcome (gmap string pyval)) e,
            r = Api.Raises e ->
            Api.finally_close S (Some session) r = Api.Returns response -> False).
  { intros r e -> . unfold Api.finally_close.
    destruct (Api.db_close S session); discriminate. }
  destruct (Api.document_face_path S session document_id) as [doc_row|m];
    cbn [Api.external Api.ret Api.raise];
    [|intros H; eapply Hfin in H; [contradiction|reflexivity]].
  destruct (Api.usable_path doc_row) as [doc_path|];
    cbn [Api.raise];
    [|intros H; eapply Hfin in H; [contradiction|reflexivity]].
  destruct (Api.liveness_image_path S session liveness_id) as [live_row|m];
    cbn [Api.external Api.ret Api.raise];
    [|intros H; eapply Hfin in H; [contradiction|reflexivity]].
  destruct (Api.usable_path live_row) as [live_path|];
    cbn [Api.raise];
    [|intros H; eapply Hfin in H; [contradiction|reflexivity]].
  destruct (Api.imread S doc_path) as [doc_face|m];
    cbn [Api.external Api.ret Api.raise];
    [|intros H; eapply Hfin in H; [contradiction|reflexivity]].
  destruct (Api.imread S live_path) as [live_face|m];
    cbn [Api.external Api.ret Api.raise];
    [|intros H; eapply Hfin in H; [contradiction|reflexivity]].
  destruct doc_face as [doc_face|], live_face as [live_face|];
    cbn [Api.raise];
    try (intros H; eapply Hfin in H; [contradiction|reflexivity]).
  unfold FaceMatcher.match_faces. simpl String.eqb. cbv iota.
  destruct (FaceMatcher.compare_faces_dlib L face_matcher doc_face live_face)
    as [d|e] eqn:Hd; cbn [Api.core Api.ret Api.raise];
    [|intros H; eapply Hfin in H; [contradiction|reflexivity]].
  apply compare_faces_dlib_results in Hd as [->|[distance ->]]; unfold Api.getitem.
  - rewrite lookup_insert_eq. cbn [Api.ret truthy negb].
    intros H; eapply Hfin in H; [contradiction|reflexivity].
  - rewrite lookup_insert_eq. cbn [Api.ret truthy negb].
    rewrite (lookup_insert_ne _ "success" "similarity_score") by discriminate.
    rewrite (lookup_insert_ne _ "match" "similarity_score") by discriminate.
    rewrite (lookup_insert_ne _ "distance" "similarity_score") by discriminate.
    rewrite lookup_insert_eq. cbn [Api.ret].
    rewrite (lookup_insert_ne _ "success" "match") by discriminate.
    rewrite lookup_insert_eq. cbn [Api.ret].
    rewrite (lookup_insert_ne _ "success" "distance") by discriminate.
    rewrite (lookup_insert_ne _ "match" "distance") by discriminate.
    rewrite lookup_insert_eq. cbn [default].
    destruct (Api.store_match S session _) as [id|m];
      cbn [Api.external Api.ret Api.raise];
      [|intros H; eapply Hfin in H; [contradiction|reflexivity]].
    unfold Api.finally_close.
    destruct (Api.db_close S session); [|discriminate].
    intros [= <-]. exists distance. repeat split; dict_lookup.
Qed.

Lemma match_faces_endpoint_threshold_witness :
  exists response distance,
    Api.match_faces Stub.lib default_config (stub_services true true)
      (FaceMatcher.init default_config None) 1 1 = Api.Returns response
    /\ response !! "match_distance" = Some (PyFloat distance)
    /\ response !! "threshold_used" = Some (PyFloat 0.6).
Proof.
  eexists.
  destruct (match_faces_endpoint_threshold Stub.lib default_config
              (stub_services true true) (FaceMatcher.init default_config None) 1 1
              _ eq_refl) as [distance [Hd [_ [_ Ht]]]].
  exists distance. split; [reflexivity|]. split; [exact Hd|exact Ht].
Defined.

(** X28.  [verify_api_key] lets a request through exactly when it presents
    a key that is not empty and equals Config.API_KEY; every other request
    gets 401.  So with an empty configured key no request passes, not even
    one that presents the empty key. *)
Theorem verify_api_key_accepts (API_KEY : string) (x_api_key : option string) :
  (forall key,
     Api.verify_api_key API_KEY x_api_key = Api.Returns key
     <-> x_api_key = Some key /\ key = API_KEY /\ key <> ""%string)
  /\ (x_api_key = None \/ x_api_key = Some ""%string \/ x_api_key <> Some API_KEY ->
      Api.verify_api_key API_KEY x_api_key
      = Api.Raises (Api.HTTPException 401 (PyStr "Invalid or missing API key")))
  /\ (API_KEY = ""%string ->
      Api.verify_api_key API_KEY x_api_key
      = Api.Raises (Api.HTTPException 401 (PyStr "Invalid or missing API key"))).
Proof.
  unfold Api.verify_api_key.
  destruct x_api_key as [k|].
  - destruct (String.eqb_spec k "") as [->|Hne]; simpl.
    + split; [|split].
      * intros key. split; [discriminate|]. intros [[= <-] [_ H]]. contradiction.
      * reflexivity.
      * reflexivity.
    + destruct (String.eqb_spec k API_KEY) as [->|Hk]; simpl.
      * split; [|split].
        -- intros key. split.
           ++ intros [= <-]. repeat split; assumption.
           ++ intros [[= <-] _]. reflexivity.
        -- intros [H|[H|H]]; [discriminate| |contradiction].
           injection H as ->. contradiction.
        -- intros ->. contradiction.
      * split; [|split]; try reflexivity.
        intros key. split; [discriminate|]. intros [[= <-] [-> _]]. contradiction.
  - split; [|split]; try reflexivity.
    intros key. split; [discriminate|]. intros [H _]. discriminate.
Qed.

Lemma verify_api_key_accepts_witness :
  Api.verify_api_key "" (Some ""%string)
  = Api.Raises (Api.HTTPException 401 (PyStr "Invalid or missing API key")).
Proof.
  apply (proj2 (proj2 (verify_api_key_accepts "" (Some ""%string)))). reflexivity.
Defined.

